(** * NightlyPrices: the price processor and the seasonal analysis

    A shallow embedding of [nightly_price/analysis/price_processor.py]
    ([PriceProcessor.extrapolate_prices_backward], [find_improved_matches],
    [calculate_total_price]) and of
    [nightly_price/analysis/statistics.py]
    ([PriceAnalyzer.detect_seasonal_patterns]).

    Conventions of the embedding.
    - A pandas float cell is an [fval]: a rational, one of the two
      infinities, or [NaN] (which is also pandas' "missing").  Rounding and
      overflow of binary64 are not modelled, nor is the sign of zero.
    - A timestamp is the number of days since 1970-01-01 (the data has no
      time of day); calendar fields come from [civil_from_days].
    - A [DataFrame] carries its column labels, the dtype of its [date]
      column and its rows.  Reading a column that is not among the labels
      raises [KeyError], as pandas does.
    - An operation that assigns into the frame it was given returns the
      final state of that frame next to its result. *)

From Stdlib Require Import String ZArith QArith Qabs Qreduction List Bool Lia.
From Stdlib Require Import Sorted Permutation FinFun.
Import ListNotations.
Open Scope Z_scope.

(* ------------------------------------------------------------------ *)
(** ** Float cells *)

Module Num.

Inductive fval : Type :=
| NaN
| NInf
| Fin (q : Q)
| PInf.

Definition of_Z (z : Z) : fval := Fin (inject_Z z).

Definition isna (x : fval) : bool :=
  match x with NaN => true | _ => false end.

Definition fneg (x : fval) : fval :=
  match x with
  | NaN => NaN
  | NInf => PInf
  | PInf => NInf
  | Fin q => Fin (Qred (Qopp q))
  end.

Definition fadd (x y : fval) : fval :=
  match x, y with
  | NaN, _ | _, NaN => NaN
  | PInf, NInf | NInf, PInf => NaN
  | PInf, _ | _, PInf => PInf
  | NInf, _ | _, NInf => NInf
  | Fin a, Fin b => Fin (Qred (Qplus a b))
  end.

Definition fsub (x y : fval) : fval := fadd x (fneg y).

(** Sign of a rational: [Lt], [Eq] or [Gt] with respect to zero. *)
Definition qsign (q : Q) : comparison := Z.compare (Qnum q) 0.

Definition inf_of_sign (s : comparison) : fval :=
  match s with Lt => NInf | Eq => NaN | Gt => PInf end.

Definition flip (s : comparison) : comparison :=
  match s with Lt => Gt | Eq => Eq | Gt => Lt end.

Definition fmul (x y : fval) : fval :=
  match x, y with
  | NaN, _ | _, NaN => NaN
  | Fin a, Fin b => Fin (Qred (Qmult a b))
  | PInf, Fin b | Fin b, PInf => inf_of_sign (qsign b)
  | NInf, Fin b | Fin b, NInf => inf_of_sign (flip (qsign b))
  | PInf, PInf | NInf, NInf => PInf
  | PInf, NInf | NInf, PInf => NInf
  end.

(** Division as numpy does it on float64: a finite non-zero value over
    zero is an infinity, zero over zero is [NaN]. *)
Definition fdiv (x y : fval) : fval :=
  match x, y with
  | NaN, _ | _, NaN => NaN
  | Fin a, Fin b =>
      match qsign b with
      | Eq => inf_of_sign (qsign a)
      | _ => Fin (Qred (Qdiv a b))
      end
  | Fin _, PInf | Fin _, NInf => Fin 0
  | PInf, Fin b => match qsign b with Lt => NInf | _ => PInf end
  | NInf, Fin b => match qsign b with Lt => PInf | _ => NInf end
  | _, _ => NaN
  end.

Definition fabs (x : fval) : fval :=
  match x with
  | NaN => NaN
  | NInf | PInf => PInf
  | Fin q => Fin (Qred (Qabs q))
  end.

(** Comparisons; every comparison with [NaN] is false. *)
Definition fleb (x y : fval) : bool :=
  match x, y with
  | NaN, _ | _, NaN => false
  | NInf, _ => true
  | _, PInf => true
  | Fin a, Fin b => Qle_bool a b
  | _, _ => false
  end.

Definition fltb (x y : fval) : bool :=
  match x, y with
  | NaN, _ | _, NaN => false
  | Fin a, Fin b => negb (Qle_bool b a)
  | NInf, NInf | PInf, PInf => false
  | NInf, _ => true
  | _, PInf => true
  | _, _ => false
  end.

Definition fgtb (x y : fval) : bool := fltb y x.

(** [Series.mean()]: missing values are skipped; the mean of no value at
    all is [NaN]. *)
Definition dropna (l : list fval) : list fval :=
  filter (fun x => negb (isna x)) l.

Definition fsum (l : list fval) : fval :=
  fold_left fadd l (of_Z 0).

Definition mean (l : list fval) : fval :=
  match dropna l with
  | [] => NaN
  | v => fdiv (fsum v) (of_Z (Z.of_nat (length v)))
  end.

End Num.
Export Num.

(* ------------------------------------------------------------------ *)
(** ** Calendar *)

Module Calendar.

(** Days since 1970-01-01 of a civil date. *)
Definition days_from_civil (y m d : Z) : Z :=
  let y' := if m <=? 2 then y - 1 else y in
  let era := y' / 400 in
  let yoe := y' - era * 400 in
  let mp := if m >? 2 then m - 3 else m + 9 in
  let doy := (153 * mp + 2) / 5 + d - 1 in
  let doe := yoe * 365 + yoe / 4 - yoe / 100 + doy in
  era * 146097 + doe - 719468.

(** Civil date (year, month, day) of a day number. *)
Definition civil_from_days (z : Z) : Z * Z * Z :=
  let z' := z + 719468 in
  let era := z' / 146097 in
  let doe := z' - era * 146097 in
  let yoe := (doe - doe / 1460 + doe / 36524 - doe / 146096) / 365 in
  let doy := doe - (365 * yoe + yoe / 4 - yoe / 100) in
  let mp := (5 * doy + 2) / 153 in
  let d := doy - (153 * mp + 2) / 5 + 1 in
  let m := if mp <? 10 then mp + 3 else mp - 9 in
  let y := yoe + era * 400 in
  ((if m <=? 2 then y + 1 else y), m, d).

Definition month (z : Z) : Z :=
  let '(_, m, _) := civil_from_days z in m.

(** [Timestamp.dayofweek]: Monday is 0.  1970-01-01 was a Thursday. *)
Definition dayofweek (z : Z) : Z := (z + 3) mod 7.

Definition is_leap (y : Z) : bool :=
  ((y mod 4 =? 0) && negb (y mod 100 =? 0)) || (y mod 400 =? 0).

Definition days_in_month (y m : Z) : Z :=
  if m =? 2 then (if is_leap y then 29 else 28)
  else if (m =? 4) || (m =? 6) || (m =? 9) || (m =? 11) then 30
  else 31.

(** [ts + pd.DateOffset(years=n)]: same month and day in the shifted
    year, the day clipped to the length of the month (29 February). *)
Definition add_years (n : Z) (z : Z) : Z :=
  let '(y, m, d) := civil_from_days z in
  days_from_civil (y + n) m (Z.min d (days_in_month (y + n) m)).

(** [pd.date_range(start, end)]: every day from [start] to [end], both
    included; empty when [end < start]. *)
Definition date_range (start stop : Z) : list Z :=
  map (fun i => start + Z.of_nat i) (seq 0 (Z.to_nat (stop - start + 1))).

End Calendar.
Export Calendar.

(* ------------------------------------------------------------------ *)
(** ** Frames, rows and exceptions *)

Module Frame.

(** Column labels besides [multiunit_id] and [date], which every frame
    handled here has. *)
Inductive column : Type :=
| c_base | c_seasonality | c_dow | c_event
| c_price | c_total_price | c_is_extrapolated.

Definition column_eqb (a b : column) : bool :=
  match a, b with
  | c_base, c_base | c_seasonality, c_seasonality | c_dow, c_dow
  | c_event, c_event | c_price, c_price | c_total_price, c_total_price
  | c_is_extrapolated, c_is_extrapolated => true
  | _, _ => false
  end.

(** dtype of the [date] column: strings as read from a file, or
    timestamps. *)
Inductive dtype : Type := dt_object | dt_datetime64.

Record Row : Type := mkRow {
  multiunit_id : Z;
  date : Z;
  base : fval;
  seasonality : fval;
  dow : fval;
  event : fval;
  price : fval;
  total_price : fval;
  is_extrapolated : option bool   (* [None] is the missing flag *)
}.

Record DataFrame : Type := mkDF {
  date_dtype : dtype;
  columns : list column;
  rows : list Row
}.

Definition has (c : column) (cols : list column) : bool :=
  existsb (column_eqb c) cols.

(** [c in df.columns] *)
Definition has_column (c : column) (df : DataFrame) : bool :=
  has c (columns df).

(** [pd.DataFrame()] *)
Definition empty_frame : DataFrame :=
  {| date_dtype := dt_object; columns := []; rows := [] |}.

(** Value of a float column in a row.  The flag column is not a float
    column and reads as [NaN] here; no operation below reads it through
    [cell]. *)
Definition cell (c : column) (r : Row) : fval :=
  match c with
  | c_base => base r
  | c_seasonality => seasonality r
  | c_dow => dow r
  | c_event => event r
  | c_price => price r
  | c_total_price => total_price r
  | c_is_extrapolated => NaN
  end.

Definition set_cell (c : column) (v : fval) (r : Row) : Row :=
  match c with
  | c_base =>
      mkRow (multiunit_id r) (date r) v (seasonality r) (dow r) (event r)
            (price r) (total_price r) (is_extrapolated r)
  | c_seasonality =>
      mkRow (multiunit_id r) (date r) (base r) v (dow r) (event r)
            (price r) (total_price r) (is_extrapolated r)
  | c_dow =>
      mkRow (multiunit_id r) (date r) (base r) (seasonality r) v (event r)
            (price r) (total_price r) (is_extrapolated r)
  | c_event =>
      mkRow (multiunit_id r) (date r) (base r) (seasonality r) (dow r) v
            (price r) (total_price r) (is_extrapolated r)
  | c_price =>
      mkRow (multiunit_id r) (date r) (base r) (seasonality r) (dow r)
            (event r) v (total_price r) (is_extrapolated r)
  | c_total_price =>
      mkRow (multiunit_id r) (date r) (base r) (seasonality r) (dow r)
            (event r) (price r) v (is_extrapolated r)
  | c_is_extrapolated => r
  end.

Definition set_flag (b : option bool) (r : Row) : Row :=
  mkRow (multiunit_id r) (date r) (base r) (seasonality r) (dow r)
        (event r) (price r) (total_price r) b.

(** [df[c] = ...]: the label is appended when it is new, and every row
    gets its value from [f]. *)
Definition assign_column (c : column) (f : Row -> Row) (df : DataFrame)
  : DataFrame :=
  {| date_dtype := date_dtype df;
     columns := if has_column c df then columns df else columns df ++ [c];
     rows := map f (rows df) |}.

(** [df['date'] = pd.to_datetime(df['date'])], run when the dtype is
    [object].  The rows already hold the day each string denotes. *)
Definition to_datetime (df : DataFrame) : DataFrame :=
  match date_dtype df with
  | dt_object =>
      {| date_dtype := dt_datetime64; columns := columns df; rows := rows df |}
  | dt_datetime64 => df
  end.

(** [Series.min()] of the dates; [None] is [NaT], for no row at all. *)
Fixpoint min_date (l : list Row) : option Z :=
  match l with
  | [] => None
  | r :: l' =>
      match min_date l' with
      | None => Some (date r)
      | Some m => Some (Z.min (date r) m)
      end
  end.

(** [Series.unique()]: the distinct values in order of first appearance. *)
Fixpoint unique_from (seen : list Z) (l : list Z) : list Z :=
  match l with
  | [] => []
  | x :: l' =>
      if existsb (Z.eqb x) seen then unique_from seen l'
      else x :: unique_from (x :: seen) l'
  end.

Definition unique (l : list Z) : list Z := unique_from [] l.

(** A stable insertion sort, for [sort_values]. *)
Section Sorting.
Context {A : Type} (leb : A -> A -> bool).

Fixpoint insert (x : A) (l : list A) : list A :=
  match l with
  | [] => [x]
  | y :: l' => if leb x y then x :: y :: l' else y :: insert x l'
  end.

Definition sort (l : list A) : list A := fold_right insert [] l.
End Sorting.

(** The sorted distinct keys of a [groupby]. *)
Section Keys.
Context {K : Type} (ltb eqb : K -> K -> bool).

Fixpoint insert_key (x : K) (l : list K) : list K :=
  match l with
  | [] => [x]
  | y :: l' =>
      if ltb x y then x :: y :: l'
      else if eqb x y then y :: l'
      else y :: insert_key x l'
  end.

Definition group_keys (l : list K) : list K := fold_right insert_key [] l.
End Keys.

Definition unit_keys : list Z -> list Z := group_keys Z.ltb Z.eqb.

Definition pair_ltb (a b : Z * Z) : bool :=
  (fst a <? fst b) || ((fst a =? fst b) && (snd a <? snd b)).

Definition pair_eqb (a b : Z * Z) : bool :=
  (fst a =? fst b) && (snd a =? snd b).

Definition pair_keys : list (Z * Z) -> list (Z * Z) :=
  group_keys pair_ltb pair_eqb.

(** The first row at the smallest value of [f]: [Series.argmin()] /
    [idxmin()] followed by [iloc] / [loc]. *)
Fixpoint argmin (f : Row -> Z) (l : list Row) : option Row :=
  match l with
  | [] => None
  | r :: l' =>
      match argmin f l' with
      | Some r' => if f r' <? f r then Some r' else Some r
      | None => Some r
      end
  end.

(** Python exceptions that the operations can raise. *)
Inductive exn : Type :=
| KeyError (c : column)
| ValueError
| UnboundLocalError     (* local variable read before assignment *)
| AttributeError.       (* [.dt] on a column that holds no timestamps *)

Inductive result (A : Type) : Type :=
| Ok (a : A)
| Raise (e : exn).
Arguments Ok {A} a.
Arguments Raise {A} e.

(** A [for] loop threading a state; an exception leaves the loop. *)
Fixpoint for_each {A S : Type} (body : S -> A -> result S) (l : list A)
  (st : S) : result S :=
  match l with
  | [] => Ok st
  | a :: l' =>
      match body st a with
      | Ok st' => for_each body l' st'
      | Raise e => Raise e
      end
  end.

End Frame.
Export Frame.

(* ------------------------------------------------------------------ *)
(** ** price_processor.py *)

Module PriceProcessor.

(** *** calculate_total_price *)

Definition factor_columns : list column :=
  [c_base; c_seasonality; c_dow; c_event].

(** One turn of the loop over [factor_columns]: a label that is not in the
    frame is warned about and assigned the constant 0. *)
Definition default_factor (st : DataFrame * list column) (col : column)
  : DataFrame * list column :=
  let '(result_df, warned) := st in
  if negb (has_column col result_df)
  then (assign_column col (set_cell col (of_Z 0)) result_df, warned ++ [col])
  else (result_df, warned).

Definition sum_factors (r : Row) : fval :=
  fadd (fadd (fadd (base r) (seasonality r)) (dow r)) (event r).

Record Totals : Type := mkTotals {
  totals_given : DataFrame;      (* the caller's frame after the call *)
  totals_result : DataFrame;
  totals_warned : list column
}.

Definition calculate_total_price (df : DataFrame) : Totals :=
  let result_df := df in                                  (* df.copy() *)
  let '(result_df, warned) :=
    fold_left default_factor factor_columns (result_df, []) in
  let result_df :=
    assign_column c_total_price
      (fun r => set_cell c_total_price (sum_factors r) r) result_df in
  {| totals_given := df; totals_result := result_df;
     totals_warned := warned |}.

(** *** extrapolate_prices_backward *)

Definition target_start_date : Z := days_from_civil 2024 1 1.

(** The dict [new_row]; a key that was not set is [None]. *)
Record NewRow : Type := mkNewRow {
  n_multiunit_id : Z;
  n_date : Z;
  n_is_extrapolated : bool;
  n_event : option fval;
  n_seasonality : option fval;
  n_base : option fval;
  n_dow : option fval;
  n_price : option fval
}.

(** The locals that live across the turns of the loops: [closest_date]
    ([None] until line 108 assigns it the first time), the list
    [extrapolated_data], and the dates the [except] clause warned about. *)
Record ExState : Type := mkExState {
  closest_date : option Row;
  extrapolated_data : list NewRow;
  warnings : list Z
}.

Definition is_some {A : Type} (o : option A) : bool :=
  match o with Some _ => true | None => false end.

(** [exact_future_match.iloc[0][c]] when the match is not empty and the
    label exists. *)
Definition copy_factor (cols : list column) (exact_future_match : list Row)
  (c : column) : option fval :=
  match exact_future_match with
  | r :: _ => if has c cols then Some (cell c r) else None
  | [] => None
  end.

(** Lines 101-118, the body of the [try]. *)
Definition try_body (cols : list column) (future_date : Z)
  (same_weekday_dates : list Row) (new_row : NewRow) (st : ExState)
  : result ExState :=
  let '(dow_value, closest) :=
    if (2 <=? length same_weekday_dates)%nat
    then (mean (map dow same_weekday_dates), closest_date st)
    else
      match argmin (fun r => Z.abs (date r - future_date))
                   same_weekday_dates with
      | Some r => (dow r, Some r)
      | None => (NaN, closest_date st)   (* not reached: the frame has a row *)
      end in
  let emit price :=
    Ok {| closest_date := closest;
          extrapolated_data :=
            extrapolated_data st ++
            [mkNewRow (n_multiunit_id new_row) (n_date new_row)
                      (n_is_extrapolated new_row) (n_event new_row)
                      (n_seasonality new_row) (n_base new_row)
                      (Some dow_value) price];
          warnings := warnings st |} in
  match n_base new_row, n_seasonality new_row, n_event new_row with
  | Some b, Some s, Some e =>
      emit (Some (fmul (fadd (fadd (fadd b s) dow_value) e) (Fin (97 # 100))))
  | _, _, _ =>
      match closest with
      | None => Raise UnboundLocalError
      | Some cd =>
          if has c_price cols && negb (isna (price cd))
          then emit (Some (fmul (price cd) (Fin (97 # 100))))
          else emit None
      end
  end.

(** Lines 70-121: one missing date. *)
Definition extrapolate_date (cols : list column) (group : list Row)
  (id : Z) (st : ExState) (missing_date : Z) : result ExState :=
  let future_date := add_years 1 missing_date in
  let exact_future_match := filter (fun r => date r =? future_date) group in
  let new_row :=
    {| n_multiunit_id := id; n_date := missing_date;
       n_is_extrapolated := true;
       n_event := copy_factor cols exact_future_match c_event;
       n_seasonality := copy_factor cols exact_future_match c_seasonality;
       n_base := copy_factor cols exact_future_match c_base;
       n_dow := None; n_price := None |} in
  let same_weekday_dates :=
    filter (fun r => (dayofweek (date r) =? dayofweek future_date)
                     && (future_date - 14 <=? date r)
                     && (date r <=? future_date + 14)) group in
  match same_weekday_dates with
  | [] => Ok st
  | _ :: _ =>
      if has c_dow cols then
        match try_body cols future_date same_weekday_dates new_row st with
        | Raise (KeyError _) | Raise ValueError =>
            Ok {| closest_date := closest_date st;
                  extrapolated_data := extrapolated_data st;
                  warnings := warnings st ++ [missing_date] |}
        | r => r
        end
      else Ok st
  end.

(** Lines 55-121: one unit. *)
Definition extrapolate_unit (df : DataFrame) (st : ExState) (id : Z)
  : result ExState :=
  let group :=
    sort (fun a b => date a <=? date b)
         (filter (fun r => multiunit_id r =? id) (rows df)) in
  match min_date group with
  | Some group_earliest_date =>
      if group_earliest_date >? target_start_date
      then for_each (extrapolate_date (columns df) group id)
             (date_range target_start_date (group_earliest_date - 1)) st
      else Ok st
  | None => Ok st
  end.

(** [pd.DataFrame(extrapolated_data)]: the labels are the keys met, in
    order; a key a dict lacks is [NaN] in its row. *)
Definition new_columns (data : list NewRow) : list column :=
  let keys n :=
    (if is_some (n_event n) then [c_event] else []) ++
    (if is_some (n_seasonality n) then [c_seasonality] else []) ++
    (if is_some (n_base n) then [c_base] else []) ++
    (if is_some (n_dow n) then [c_dow] else []) ++
    (if is_some (n_price n) then [c_price] else []) in
  fold_left
    (fun acc c => if has c acc then acc else acc ++ [c])
    (flat_map (fun n => c_is_extrapolated :: keys n) data) [].

Definition or_nan (o : option fval) : fval :=
  match o with Some v => v | None => NaN end.

Definition row_of_new (n : NewRow) : Row :=
  {| multiunit_id := n_multiunit_id n; date := n_date n;
     base := or_nan (n_base n); seasonality := or_nan (n_seasonality n);
     dow := or_nan (n_dow n); event := or_nan (n_event n);
     price := or_nan (n_price n); total_price := NaN;
     is_extrapolated := Some (n_is_extrapolated n) |}.

(** A row of a frame seen through the labels [cols]: what is not a label
    of the frame is missing. *)
Definition reindex (cols : list column) (r : Row) : Row :=
  let get c := if has c cols then cell c r else NaN in
  {| multiunit_id := multiunit_id r; date := date r;
     base := get c_base; seasonality := get c_seasonality;
     dow := get c_dow; event := get c_event; price := get c_price;
     total_price := get c_total_price;
     is_extrapolated :=
       if has c_is_extrapolated cols then is_extrapolated r else None |}.

(** [pd.concat([df, extrapolated_df], ignore_index=True)] *)
Definition concat (df : DataFrame) (data : list NewRow) : DataFrame :=
  {| date_dtype := date_dtype df;
     columns :=
       fold_left (fun acc c => if has c acc then acc else acc ++ [c])
                 (new_columns data) (columns df);
     rows := map (reindex (columns df)) (rows df) ++ map row_of_new data |}.

Definition fill_flag (r : Row) : Row :=
  match is_extrapolated r with
  | None => set_flag (Some false) r
  | Some _ => r
  end.

Definition by_unit_and_date (a b : Row) : bool :=
  (multiunit_id a <? multiunit_id b)
  || ((multiunit_id a =? multiunit_id b) && (date a <=? date b)).

Record Extrapolation : Type := mkExtrapolation {
  ex_given : DataFrame;                (* the caller's frame after the call *)
  ex_result : result DataFrame;
  ex_synthesized : list NewRow;        (* [extrapolated_data] at the end *)
  ex_warnings : list Z
}.

Definition extrapolate_prices_backward (df : DataFrame) : Extrapolation :=
  let df := to_datetime df in
  let earliest_date := min_date (rows df) in
  if match earliest_date with
     | Some d => d <=? target_start_date
     | None => false
     end
  then mkExtrapolation df (Ok df) [] []
  else
    let unique_multiunit_ids := unique (map multiunit_id (rows df)) in
    match for_each (extrapolate_unit df) unique_multiunit_ids
                   (mkExState None [] []) with
    | Raise e => mkExtrapolation df (Raise e) [] []
    | Ok st =>
        match extrapolated_data st with
        | _ :: _ =>
            let combined_df := concat df (extrapolated_data st) in
            let combined_df :=
              if negb (has_column c_is_extrapolated df)
              then mkDF (date_dtype combined_df) (columns combined_df)
                        (map fill_flag (rows combined_df))
              else combined_df in
            let combined_df :=
              mkDF (date_dtype combined_df) (columns combined_df)
                   (sort by_unit_and_date (rows combined_df)) in
            mkExtrapolation df (Ok combined_df) (extrapolated_data st)
                            (warnings st)
        | [] =>
            let df :=
              if negb (has_column c_is_extrapolated df)
              then assign_column c_is_extrapolated (set_flag (Some false)) df
              else df in
            mkExtrapolation df (Ok df) [] (warnings st)
        end
    end.

(** *** find_improved_matches *)

Definition start_date : Z := days_from_civil 2025 1 1.
Definition end_date : Z := days_from_civil 2026 3 31.
Definition past_date_limit : Z := days_from_civil 2025 4 21.

(** The dict [new_row] of an improved match, then a row of the frame
    built from those dicts ([event_match] is the column added last). *)
Record MatchRow : Type := mkMatchRow {
  m_multiunit_id : Z;
  m_date : Z;
  matched_from : Z;
  days_diff : Z;
  is_improved_match : bool;
  match_reason : string;
  m_price : option fval;
  m_base : option fval;
  m_seasonality : option fval;
  m_dow : option fval;
  m_event : option fval;
  event_match : option bool
}.

Record MatchFrame : Type := mkMatchFrame {
  has_event_match : bool;      (* whether [event_match] is a label *)
  matches : list MatchRow
}.

(** [pd.DataFrame()] *)
Definition no_matches : MatchFrame :=
  {| has_event_match := false; matches := [] |}.

Definition within (n : Z) (target_date : Z) (r : Row) : bool :=
  Z.abs (date r - target_date) <=? n.

Definition same_weekday (target_date : Z) (r : Row) : bool :=
  dayofweek (date r) =? dayofweek target_date.

Definition low_event (r : Row) : bool :=
  isna (event r) || fleb (event r) (of_Z 10).

(** [frame.iloc[abs(frame['date'] - target_date).argmin()]['date']] of a
    frame that is not empty. *)
Definition closest (target_date : Z) (l : list Row) : option Z :=
  option_map date (argmin (fun r => Z.abs (date r - target_date)) l).

(** Lines 209-224. *)
Definition event_tier (past_group : list Row) (target_date : Z)
  (future_row : Row) : option Z :=
  let future_event := event future_row in
  if fgtb future_event (of_Z 1) then
    closest target_date
      (filter (fun r => within 14 target_date r
                        && fleb (fabs (fsub (event r) future_event))
                                (of_Z 20)) past_group)
  else None.

(** Lines 234-244 (window 14) and 249-259 (window 21). *)
Definition weekday_tier (n : Z) (past_group : list Row) (target_date : Z)
  : option Z :=
  closest target_date
    (filter (fun r => within n target_date r && same_weekday target_date r
                      && low_event r) past_group).

(** Lines 263-267. *)
Definition closest_tier (past_group : list Row) (target_date : Z)
  : option Z :=
  closest target_date (filter (within 14 target_date) past_group).

(** Lines 206-270: the date chosen for one target row and the name of the
    rule that chose it, [None] when the row is skipped.  Lines 249-253
    read [past_group['event']] whether or not the frame has the label. *)
Definition select_match (has_event_column : bool) (past_group : list Row)
  (future_row : Row) : result (option (Z * string)) :=
  let target_date := add_years (-1) (date future_row) in
  let fallback :=
    match closest_tier past_group target_date with
    | Some d => Some (d, "closest_date"%string)
    | None => None
    end in
  let first :=
    if has_event_column
    then event_tier past_group target_date future_row
    else None in
  match first with
  | Some d => Ok (Some (d, "event_match"%string))
  | None =>
      let second :=
        if has_event_column
        then weekday_tier 14 past_group target_date
        else None in
      match second with
      | Some d => Ok (Some (d, "weekday_match_no_event"%string))
      | None =>
          if has_event_column then
            match weekday_tier 21 past_group target_date with
            | Some d => Ok (Some (d, "weekday_match"%string))
            | None => Ok fallback
            end
          else Raise (KeyError c_event)
      end
  end.

(** [col in matching_row and not pd.isna(matching_row[col])] *)
Definition copy_present (cols : list column) (matching_row : Row)
  (c : column) : option fval :=
  if has c cols && negb (isna (cell c matching_row))
  then Some (cell c matching_row) else None.

(** Lines 272-295. *)
Definition improved_row (cols : list column) (past_group : list Row)
  (future_row : Row) (best_match_date : Z) (reason : string)
  : list MatchRow :=
  match filter (fun r => date r =? best_match_date) past_group with
  | matching_row :: _ =>
      let target_date := add_years (-1) (date future_row) in
      [{| m_multiunit_id := multiunit_id future_row;
          m_date := date future_row;
          matched_from := best_match_date;
          days_diff := Z.abs (best_match_date - target_date);
          is_improved_match := true;
          match_reason := reason;
          m_price :=
            if has c_price cols
            then Some (fmul (price matching_row) (Fin (103 # 100)))
            else None;
          m_base := copy_present cols matching_row c_base;
          m_seasonality := copy_present cols matching_row c_seasonality;
          m_dow := copy_present cols matching_row c_dow;
          m_event := copy_present cols matching_row c_event;
          event_match := None |}]
  | [] => []             (* not reached: the date comes from the group *)
  end.

(** Lines 199-295: one target row. *)
Definition match_row (cols : list column) (past_group : list Row)
  (improved_matches : list MatchRow) (future_row : Row)
  : result (list MatchRow) :=
  match select_match (has c_event cols) past_group future_row with
  | Raise e => Raise e
  | Ok None => Ok improved_matches
  | Ok (Some (best_match_date, reason)) =>
      Ok (improved_matches ++
          improved_row cols past_group future_row best_match_date reason)
  end.

(** Lines 190-295: one unit of [target_dates.groupby('multiunit_id')]. *)
Definition match_unit (cols : list column) (target_dates past_data : list Row)
  (improved_matches : list MatchRow) (id : Z) : result (list MatchRow) :=
  let future_group := filter (fun r => multiunit_id r =? id) target_dates in
  let past_group := filter (fun r => multiunit_id r =? id) past_data in
  match past_group with
  | [] => Ok improved_matches
  | _ :: _ => for_each (match_row cols past_group) future_group
                       improved_matches
  end.

Definition with_event_match (m : MatchRow) : MatchRow :=
  mkMatchRow (m_multiunit_id m) (m_date m) (matched_from m) (days_diff m)
             (is_improved_match m) (match_reason m) (m_price m) (m_base m)
             (m_seasonality m) (m_dow m) (m_event m)
             (Some (String.eqb (match_reason m) "event_match")).

Record Matching : Type := mkMatching {
  mt_given : DataFrame;                (* the caller's frame after the call *)
  mt_result : result MatchFrame
}.

Definition find_improved_matches (df : DataFrame) : Matching :=
  let df := to_datetime df in
  let target_dates :=
    filter (fun r => (start_date <=? date r) && (date r <=? end_date))
           (rows df) in
  match target_dates with
  | [] => mkMatching df (Ok no_matches)
  | _ :: _ =>
      let past_data :=
        filter (fun r => date r <? past_date_limit) (rows df) in
      match past_data with
      | [] => mkMatching df (Ok no_matches)
      | _ :: _ =>
          let has_event_column := has_column c_event df in
          match for_each (match_unit (columns df) target_dates past_data)
                         (unit_keys (map multiunit_id target_dates)) [] with
          | Raise e => mkMatching df (Raise e)
          | Ok [] => mkMatching df (Ok no_matches)
          | Ok improved_matches =>
              mkMatching df
                (Ok (if has_event_column
                     then mkMatchFrame true
                            (map with_event_match improved_matches)
                     else mkMatchFrame false improved_matches))
          end
      end
  end.

End PriceProcessor.

(* ------------------------------------------------------------------ *)
(** ** statistics.py *)

Module PriceAnalyzer.

(** A row of [monthly_patterns]; [s_price] is the column [price] of
    [monthly_avg], the monthly mean. *)
Record SeasonRow : Type := mkSeasonRow {
  s_multiunit_id : Z;
  s_month : Z;
  s_price : fval;
  avg_price : fval;
  seasonal_index : fval;
  is_peak_season : bool;
  is_low_season : bool
}.

(** [df.groupby(['multiunit_id', 'month'])['price'].mean().reset_index()] *)
Definition monthly_avg (l : list Row) : list (Z * Z * fval) :=
  map (fun k =>
         (k, mean (map price
                     (filter (fun r => pair_eqb (multiunit_id r,
                                                 month (date r)) k) l))))
      (pair_keys (map (fun r => (multiunit_id r, month (date r))) l)).

(** [df.groupby('multiunit_id')['price'].mean().reset_index()] *)
Definition property_avg (l : list Row) : list (Z * fval) :=
  map (fun id =>
         (id, mean (map price (filter (fun r => multiunit_id r =? id) l))))
      (unit_keys (map multiunit_id l)).

(** [pd.merge(monthly_avg, property_avg, on='multiunit_id')], followed by
    the three assignments of lines 134-138. *)
Definition pattern_row (m : Z * Z * fval) (p : Z * fval) : SeasonRow :=
  let '(id, mon, monthly) := m in
  let index := fdiv monthly (snd p) in
  {| s_multiunit_id := id; s_month := mon; s_price := monthly;
     avg_price := snd p; seasonal_index := index;
     is_peak_season := fgtb index (Fin (11 # 10));
     is_low_season := fltb index (Fin (9 # 10)) |}.

Definition merge (left : list (Z * Z * fval)) (right : list (Z * fval))
  : list SeasonRow :=
  flat_map (fun m =>
              map (pattern_row m)
                  (filter (fun p => fst p =? fst (fst m)) right)) left.

(** The quarterly means of lines 118 and 124 are computed and dropped;
    they read the same two columns as the monthly ones. *)
Definition detect_seasonal_patterns (df : DataFrame)
  : result (list SeasonRow) :=
  match date_dtype df with
  | dt_object => Raise AttributeError
  | dt_datetime64 =>
      if has_column c_price df
      then Ok (merge (monthly_avg (rows df)) (property_avg (rows df)))
      else Raise (KeyError c_price)
  end.

End PriceAnalyzer.

(* ------------------------------------------------------------------ *)
(** ** web_ui.py *)

Module WebUI.
Import PriceProcessor.

(** The first two steps of [_run_all_analysis_steps], lines 856-859, with
    data loaded: [_run_extrapolation] stores what the extrapolation
    returns for the original data, and [_run_find_matches] runs the
    matcher on what was stored.  Neither catches an exception. *)
Record Steps : Type := mkSteps {
  extrapolated_data_of : DataFrame;
  improved_matches_of : MatchFrame
}.

Definition analysis_steps (original_data : DataFrame) : result Steps :=
  match ex_result (extrapolate_prices_backward original_data) with
  | Raise e => Raise e
  | Ok extrapolated =>
      match mt_result (find_improved_matches extrapolated) with
      | Raise e => Raise e
      | Ok improved => Ok (mkSteps extrapolated improved)
      end
  end.

End WebUI.


(* ------------------------------------------------------------------ *)
(** ** The specification's wording, as definitions *)

Module Spec.
Import PriceProcessor.

(** "Missing factors treated as 0", row by row. *)
Definition nan_as_zero (x : fval) : fval := if isna x then of_Z 0 else x.

Definition total_with_zero_for_missing (r : Row) : fval :=
  fadd (fadd (fadd (nan_as_zero (base r)) (nan_as_zero (seasonality r)))
             (nan_as_zero (dow r))) (nan_as_zero (event r)).

(** A factor of an input row as the aggregation sees it: 0 when the label
    is absent from the whole frame, the cell (missing or not) otherwise. *)
Definition factor_or_zero (df : DataFrame) (c : column) (r : Row) : fval :=
  if has_column c df then cell c r else of_Z 0.

Definition with_total (df : DataFrame) (r : Row) : Row :=
  let r' :=
    mkRow (multiunit_id r) (date r)
          (factor_or_zero df c_base r) (factor_or_zero df c_seasonality r)
          (factor_or_zero df c_dow r) (factor_or_zero df c_event r)
          (price r) (total_price r) (is_extrapolated r) in
  set_cell c_total_price (sum_factors r') r'.

(** A synthesized record for unit [id] and day [d]. *)
Definition made_for (id d : Z) (n : NewRow) : Prop :=
  n_multiunit_id n = id /\ n_date n = d /\ n_is_extrapolated n = true.

(** A synthesized record lies in the gap of its unit: on or after the
    start date of the extrapolation and before every record the unit has
    in the input. *)
Definition in_gap (df : DataFrame) (n : NewRow) : Prop :=
  n_is_extrapolated n = true
  /\ target_start_date <= n_date n
  /\ forall r0, In r0 (rows df) -> multiunit_id r0 = n_multiunit_id n ->
                n_date n < date r0.

(** The same, with the date strictly before the start date, as the
    specification words it. *)
Definition before_cutoff (df : DataFrame) (n : NewRow) : Prop :=
  n_date n < target_start_date
  /\ forall r0, In r0 (rows df) -> multiunit_id r0 = n_multiunit_id n ->
                n_date n < date r0.

(** The condition of the early return of the extrapolation (line 44): the
    frame has a row, and its earliest date is on or before the start
    date. *)
Definition returns_early (df : DataFrame) : bool :=
  match min_date (rows df) with
  | Some earliest_date => earliest_date <=? target_start_date
  | None => false
  end.

(** A synthesized record that carries a price. *)
Definition priced (n : NewRow) : Prop := exists p, n_price n = Some p.

Definition same_key (r r0 : Row) : Prop :=
  multiunit_id r = multiunit_id r0 /\ date r = date r0.

(** The two price rules of the backward extrapolation. *)
Definition discount : fval := Fin (97 # 100).

Definition factor_rule (cols : list column) (exact_future_match : list Row)
  (dow_value : fval) : option fval :=
  match copy_factor cols exact_future_match c_base,
        copy_factor cols exact_future_match c_seasonality,
        copy_factor cols exact_future_match c_event with
  | Some b, Some s, Some e =>
      Some (fmul (fadd (fadd (fadd b s) dow_value) e) discount)
  | _, _, _ => None
  end.

Definition price_rule (cols : list column) (nearest : Row) : option fval :=
  if has c_price cols && negb (isna (price nearest))
  then Some (fmul (price nearest) discount) else None.

(** The rows of [group] at [d] plus one year, and the rows on the weekday
    of that day at most 14 days from it. *)
Definition exact_rows (group : list Row) (d : Z) : list Row :=
  filter (fun r => date r =? add_years 1 d) group.

Definition weekday_rows (group : list Row) (d : Z) : list Row :=
  filter (fun r => (dayofweek (date r) =? dayofweek (add_years 1 d))
                   && (add_years 1 d - 14 <=? date r)
                   && (date r <=? add_years 1 d + 14)) group.

(** The tiers of the matcher in the order of the specification, and the
    first of them that finds a date. *)
Definition tiers (past_group : list Row) (t : Row)
  : list (option Z * string) :=
  let target_date := add_years (-1) (date t) in
  [ (event_tier past_group target_date t, "event_match"%string);
    (weekday_tier 14 past_group target_date, "weekday_match_no_event"%string);
    (weekday_tier 21 past_group target_date, "weekday_match"%string);
    (closest_tier past_group target_date, "closest_date"%string) ].

Fixpoint first_found (l : list (option Z * string)) : option (Z * string) :=
  match l with
  | [] => None
  | (Some d, name) :: _ => Some (d, name)
  | (None, _) :: l' => first_found l'
  end.

(** The rows in the forecast window, the rows before the past boundary,
    and of those the rows of the unit of [t]. *)
Definition target_rows (df : DataFrame) : list Row :=
  filter (fun r => (start_date <=? date r) && (date r <=? end_date)) (rows df).

Definition past_rows (df : DataFrame) : list Row :=
  filter (fun r => date r <? past_date_limit) (rows df).

Definition history (df : DataFrame) (t : Row) : list Row :=
  filter (fun r => multiunit_id r =? multiunit_id t) (past_rows df).

(** A match dated inside the window and taken from before the boundary. *)
Definition in_window_from_past (m : MatchRow) : Prop :=
  start_date <= m_date m <= end_date /\ matched_from m < past_date_limit.

(** What the matcher makes of one target row given the history of its
    unit, and of one unit, when no tier raises. *)
Definition emitted (cols : list column) (past_group : list Row) (t : Row)
  : list MatchRow :=
  match first_found (tiers past_group t) with
  | Some (d, reason) => improved_row cols past_group t d reason
  | None => []
  end.

Definition unit_matches (cols : list column) (targets past : list Row)
  (id : Z) : list MatchRow :=
  match filter (fun r => multiunit_id r =? id) past with
  | [] => []
  | _ :: _ =>
      flat_map (emitted cols (filter (fun r => multiunit_id r =? id) past))
               (filter (fun r => multiunit_id r =? id) targets)
  end.

(** Monthly and overall mean price of a unit. *)
Definition monthly_mean (df : DataFrame) (id mon : Z) : fval :=
  mean (map price
          (filter (fun r => (multiunit_id r =? id) && (month (date r) =? mon))
                  (rows df))).

Definition overall_mean (df : DataFrame) (id : Z) : fval :=
  mean (map price (filter (fun r => multiunit_id r =? id) (rows df))).

End Spec.

(* ------------------------------------------------------------------ *)
(** ** Concrete frames *)

Module Examples.
Import PriceProcessor.

Definition all_columns : list column :=
  [c_base; c_seasonality; c_dow; c_event; c_price].

Definition a_row (id : Z) (ymd : Z * Z * Z) (b s w e p : fval) : Row :=
  let '(y, m, d) := ymd in
  mkRow id (days_from_civil y m d) b s w e p NaN None.

Definition plain (id : Z) (ymd : Z * Z * Z) : Row :=
  a_row id ymd (of_Z 100) (of_Z 10) (of_Z 5) (of_Z 0) (of_Z 115).

(** Unit 1 on every day of January 2025, base 100, seasonality 10, dow 5,
    event 0. *)
Definition january_2025 : DataFrame :=
  mkDF dt_datetime64 all_columns
       (map (fun d => plain 1 (2025, 1, d)) (date_range 1 31)).

(** One Wednesday, with its price missing. *)
Definition wednesday_row : Row :=
  a_row 1 (2025, 1, 8) (of_Z 100) (of_Z 10) (of_Z 5) (of_Z 0) NaN.

Definition one_wednesday : DataFrame :=
  mkDF dt_datetime64 all_columns [wednesday_row].

(** What the extrapolation makes of it for 1 January 2024. *)
Definition first_synthesized : NewRow :=
  mkNewRow 1 (days_from_civil 2024 1 1) true None None None
           (Some (of_Z 5)) None.

(** A row whose dow factor is missing although the frame has the label. *)
Definition missing_dow_row : Row :=
  a_row 1 (2025, 1, 8) (of_Z 100) (of_Z 10) NaN (of_Z 0) (of_Z 110).

Definition missing_dow : DataFrame :=
  mkDF dt_datetime64 all_columns [missing_dow_row].

(** 15 June of 2024 and of 2025 for unit 1, in a frame with no [event]
    label. *)
Definition june_2024 : Row :=
  a_row 1 (2024, 6, 15) (of_Z 100) (of_Z 10) (of_Z 5) NaN (of_Z 115).
Definition june_2025 : Row :=
  a_row 1 (2025, 6, 15) (of_Z 100) (of_Z 10) (of_Z 5) NaN (of_Z 115).

Definition no_event : DataFrame :=
  mkDF dt_datetime64 [c_base; c_seasonality; c_dow; c_price]
       [june_2024; june_2025].

(** A frame that starts before 2024 and has no [is_extrapolated] label. *)
Definition starts_in_2023 : DataFrame :=
  mkDF dt_datetime64 all_columns [plain 1 (2023, 12, 31); plain 1 (2024, 1, 1)].

(** Two Wednesdays of January 2025 and no 1 January: for 1 January 2024
    the extrapolation finds both, no record of the day a year later, and
    reads [closest_date] before any record is made. *)
Definition two_wednesdays : DataFrame :=
  mkDF dt_datetime64 all_columns [plain 1 (2025, 1, 8); plain 1 (2025, 1, 15)].

(** A frame as read from a file: the dates are still strings. *)
Definition string_dates : DataFrame :=
  mkDF dt_object all_columns [plain 1 (2025, 6, 15)].

(** Timestamps already, but no [dow] label, so nothing can be
    synthesized. *)
Definition no_dow : DataFrame :=
  mkDF dt_datetime64 [c_base; c_price]
       [a_row 1 (2025, 6, 15) (of_Z 100) NaN NaN NaN (of_Z 115)].

(** A target on 15 June 2025 with event 25; in 2024 the same day has no
    event and 10 June has event 30. *)
Definition june_target : Row :=
  a_row 1 (2025, 6, 15) (of_Z 100) (of_Z 10) (of_Z 5) (of_Z 25) (of_Z 140).
Definition june_quiet : Row := plain 1 (2024, 6, 15).
Definition june_event : Row :=
  a_row 1 (2024, 6, 10) (of_Z 100) (of_Z 10) (of_Z 5) (of_Z 30) (of_Z 145).

Definition with_events : DataFrame :=
  mkDF dt_datetime64 all_columns [june_quiet; june_event; june_target].

(** The match made for [june_target]: 10 June 2024, five days from the
    day a year before. *)
Definition june_match : MatchRow :=
  mkMatchRow 1 (days_from_civil 2025 6 15) (days_from_civil 2024 6 10) 5 true
             "event_match"
             (Some (fmul (of_Z 145) (Fin (103 # 100))))
             (Some (of_Z 100)) (Some (of_Z 10)) (Some (of_Z 5))
             (Some (of_Z 30)) (Some true).

Definition june_matches : MatchFrame := mkMatchFrame true [june_match].

(** Two months of one unit: 100 in January, 200 in July. *)
Definition two_seasons : DataFrame :=
  mkDF dt_datetime64 all_columns
       [a_row 7 (2025, 1, 10) NaN NaN NaN NaN (of_Z 100);
        a_row 7 (2025, 7, 10) NaN NaN NaN NaN (of_Z 200)].

Definition january_pattern : PriceAnalyzer.SeasonRow :=
  PriceAnalyzer.mkSeasonRow 7 1 (of_Z 100) (of_Z 150) (Fin (2 # 3))
                            false true.

Definition july_pattern : PriceAnalyzer.SeasonRow :=
  PriceAnalyzer.mkSeasonRow 7 7 (of_Z 200) (of_Z 150) (Fin (4 # 3))
                            true false.

End Examples.

(* ------------------------------------------------------------------ *)
(** ** Notions used to describe what the operations return *)

Module Behaviour.
Import PriceProcessor PriceAnalyzer Spec.

(** The key of a row and of a synthesized record. *)
Definition row_key (r : Row) : Z * Z := (multiunit_id r, date r).
Definition new_key (n : NewRow) : Z * Z := (n_multiunit_id n, n_date n).

(** The sorted records of one unit, as lines 57-60 build them. *)
Definition unit_group (df : DataFrame) (id : Z) : list Row :=
  Frame.sort (fun a b => date a <=? date b)
             (filter (fun r => multiunit_id r =? id) (rows df)).

(** The dow value and the value of [closest_date] after lines 103-109. *)
Definition dow_and_closest (st_closest : option Row) (weekday : list Row)
  : fval * option Row :=
  match weekday with
  | [m] => (dow m, Some m)
  | _ => (mean (map dow weekday), st_closest)
  end.

(** The record made for a candidate date, given the value of
    [closest_date] before it. *)
Definition record_for (cols : list column) (group : list Row) (id d : Z)
  (st_closest : option Row) : NewRow :=
  let '(w, closest') := dow_and_closest st_closest (weekday_rows group d) in
  mkNewRow id d true
    (copy_factor cols (exact_rows group d) c_event)
    (copy_factor cols (exact_rows group d) c_seasonality)
    (copy_factor cols (exact_rows group d) c_base)
    (Some w)
    (match factor_rule cols (exact_rows group d) w with
     | Some p => Some p
     | None => match closest' with
               | Some cd => price_rule cols cd
               | None => None
               end
     end).

(** A synthesized record is the record made for its unit and date from
    some value of [closest_date] that is unset or a row of the frame. *)
Definition synthesized_as (df : DataFrame) (n : NewRow) : Prop :=
  exists c,
    (forall r, c = Some r -> In r (rows df))
    /\ weekday_rows (unit_group df (n_multiunit_id n)) (n_date n) <> []
    /\ has_column c_dow df = true
    /\ n = record_for (columns df) (unit_group df (n_multiunit_id n))
                      (n_multiunit_id n) (n_date n) c.

Definition run_invariant (df : DataFrame) (st : ExState) : Prop :=
  (forall r, closest_date st = Some r -> In r (rows df))
  /\ forall n, In n (extrapolated_data st) -> synthesized_as df n.

(** A factor of a synthesized record is the cell of a record of the same
    unit exactly one year later, and is absent only when there is no such
    record (or no such label). *)
Definition copied_from_next_year (df : DataFrame) (c : column) (id d : Z)
  (o : option fval) : Prop :=
  (forall v, o = Some v ->
     has_column c df = true
     /\ exists r, In r (rows df) /\ multiunit_id r = id
                  /\ date r = add_years 1 d /\ cell c r = v)
  /\ (o = None -> has_column c df = true ->
      forall r, In r (rows df) -> multiunit_id r = id ->
                date r <> add_years 1 d).

Definition keys (st : ExState) : list (Z * Z) :=
  map new_key (extrapolated_data st).

Definition grows (s s' : ExState) : Prop :=
  incl (extrapolated_data s) (extrapolated_data s').

(** The window of a rule of the matcher, and what a historical row must
    satisfy besides lying in the window to be a candidate of the rule. *)
Definition window_of (reason : string) : Z :=
  if String.eqb reason "weekday_match" then 21 else 14.

Definition qualifies (reason : string) (target_date : Z) (t p : Row) : bool :=
  if String.eqb reason "event_match"
  then fleb (fabs (fsub (event p) (event t))) (of_Z 20)
  else if String.eqb reason "weekday_match_no_event"
          || String.eqb reason "weekday_match"
  then same_weekday target_date p && low_event p
  else true.

(** The date [d] was found for the target row [t] by the rule named
    [reason]: it is the date of a candidate, and no candidate is nearer to
    the target date. *)
Definition found_by (reason : string) (pg : list Row) (t : Row)
  (target_date d : Z) : Prop :=
  (reason = "event_match"%string -> fgtb (event t) (of_Z 1) = true)
  /\ exists p, In p pg /\ date p = d
       /\ within (window_of reason) target_date p = true
       /\ qualifies reason target_date t p = true
       /\ forall x, In x pg ->
            within (window_of reason) target_date x = true ->
            qualifies reason target_date t x = true ->
            Z.abs (d - target_date) <= Z.abs (date x - target_date).

Definition tier_names : list string :=
  ["event_match"; "weekday_match_no_event"; "weekday_match";
   "closest_date"]%string.

(** A unit with a row in the forecast window and a row before the past
    boundary. *)
Definition unit_with_target_and_history (df : DataFrame) : Prop :=
  exists t p,
    In t (rows df) /\ start_date <= date t <= end_date
    /\ In p (rows df) /\ date p < past_date_limit
    /\ multiunit_id p = multiunit_id t.

(** Where a record of the matcher comes from. *)
Definition made_from (df : DataFrame) (t : Row) (m : MatchRow) : Prop :=
  In t (target_rows df)
  /\ exists m', first_found (tiers (history df t) t)
                = Some (matched_from m, match_reason m)
       /\ In m' (improved_row (columns df) (history df t) t
                              (matched_from m) (match_reason m))
       /\ m = with_event_match m'.

(** The factor labels a frame lacks, in the order of the loop, and a list
    of labels with one more when it is new. *)
Definition absent_factors (df : DataFrame) : list column :=
  filter (fun c => negb (has_column c df)) factor_columns.

Definition with_label (cols : list column) (c : column) : list column :=
  if has c cols then cols else cols ++ [c].

(** The seasonal pattern of one key of the monthly means. *)
Definition pattern_of (l : list Row) (k : Z * Z) : SeasonRow :=
  pattern_row
    (k, mean (map price
                  (filter (fun r => pair_eqb (multiunit_id r, month (date r)) k)
                          l)))
    (fst k, mean (map price (filter (fun r => multiunit_id r =? fst k) l))).

End Behaviour.

(* ------------------------------------------------------------------ *)
(** ** More concrete values *)

Module Cases.
Import PriceProcessor PriceAnalyzer WebUI Spec Examples Behaviour.

(** The frame the extrapolation returns for [one_wednesday], and the
    record it makes for 8 January 2024, a year before the one record. *)
Definition wednesday_frame : DataFrame :=
  match ex_result (extrapolate_prices_backward one_wednesday) with
  | Ok out => out
  | Raise _ => empty_frame
  end.

Definition second_synthesized : NewRow :=
  mkNewRow 1 (days_from_civil 2024 1 8) true (Some (of_Z 0))
           (Some (of_Z 10)) (Some (of_Z 100)) (Some (of_Z 5))
           (Some (Fin (2231 # 20))).

(** What the extrapolation returns for [no_dow]. *)
Definition no_dow_frame : DataFrame :=
  match ex_result (extrapolate_prices_backward no_dow) with
  | Ok out => out
  | Raise _ => empty_frame
  end.

(** What the matcher returns for [no_event] once the totals are added, and
    its first record. *)
Definition no_event_matches : MatchFrame :=
  match mt_result (find_improved_matches
                     (totals_result (calculate_total_price no_event))) with
  | Ok out => out
  | Raise _ => no_matches
  end.

Definition no_event_match : MatchRow :=
  hd june_match (matches no_event_matches).

(** The seasonal patterns of [with_events], whose three records are all
    in June. *)
Definition june_patterns : list SeasonRow :=
  match detect_seasonal_patterns with_events with
  | Ok out => out
  | Raise _ => []
  end.

Definition june_pattern : SeasonRow := pattern_of (rows with_events) (1, 6).

End Cases.

(* ------------------------------------------------------------------ *)
(** ** General facts about the loops, sorts and keys *)

Import PriceProcessor PriceAnalyzer Spec Examples.

Section ForEach.
Context {A S : Type} (body : S -> A -> result S).

Lemma for_each_invariant (P : S -> Prop) (l : list A) :
  (forall s a s', In a l -> P s -> body s a = Ok s' -> P s') ->
  forall st st', P st -> for_each body l st = Ok st' -> P st'.
Proof.
  induction l as [|a l IH]; intros Hstep st st' Hst Hrun; cbn in Hrun.
  - now inversion Hrun; subst.
  - destruct (body st a) as [s1|e] eqn:E; [|discriminate].
    apply (IH (fun s x s' Hx => Hstep s x s' (or_intror Hx)) s1 st').
    + apply (Hstep st a s1); [now left|assumption|assumption].
    + exact Hrun.
Qed.

End ForEach.

Section SortFacts.
Context {A : Type} (leb : A -> A -> bool).

Lemma in_insert (x y : A) (l : list A) :
  In y (insert leb x l) <-> y = x \/ In y l.
Proof.
  induction l as [|z l IH]; cbn.
  - intuition.
  - destruct (leb x z); cbn; [intuition|]. rewrite IH. intuition.
Qed.

Lemma in_sort (y : A) (l : list A) : In y (sort leb l) <-> In y l.
Proof.
  induction l as [|x l IH]; cbn; [reflexivity|].
  rewrite in_insert, IH. intuition.
Qed.
End SortFacts.

Section KeyFacts.
Context {K : Type} (ltb eqb : K -> K -> bool).
Hypothesis eqb_eq : forall a b, eqb a b = true <-> a = b.

Lemma in_insert_key (x y : K) (l : list K) :
  In y (insert_key ltb eqb x l) <-> y = x \/ In y l.
Proof.
  induction l as [|z l IH]; cbn.
  - intuition.
  - destruct (ltb x z); cbn; [intuition|].
    destruct (eqb x z) eqn:E; cbn.
    + apply eqb_eq in E. subst. intuition.
    + rewrite IH. intuition.
Qed.

Lemma in_group_keys (y : K) (l : list K) :
  In y (group_keys ltb eqb l) <-> In y l.
Proof.
  induction l as [|x l IH]; cbn; [reflexivity|].
  rewrite in_insert_key, IH. intuition.
Qed.
End KeyFacts.

Lemma in_unit_keys (id : Z) (l : list Z) : In id (unit_keys l) <-> In id l.
Proof. apply in_group_keys. intros a b. apply Z.eqb_eq. Qed.

Lemma pair_eqb_eq (a b : Z * Z) : pair_eqb a b = true <-> a = b.
Proof.
  destruct a as [a1 a2], b as [b1 b2]. unfold pair_eqb. cbn [fst snd].
  rewrite andb_true_iff, !Z.eqb_eq. split.
  - now intros [-> ->].
  - intro H. now inversion H.
Qed.

Lemma in_pair_keys (k : Z * Z) (l : list (Z * Z)) :
  In k (pair_keys l) <-> In k l.
Proof. apply in_group_keys. exact pair_eqb_eq. Qed.

(** The calendar agrees with itself on every day from 2023 to 2027, and
    with the almanac on the days used below. *)
Lemma civil_round_trip_2023_2027 :
  forallb (fun z => let '(y, m, d) := civil_from_days z in
                    days_from_civil y m d =? z)
          (date_range (days_from_civil 2023 1 1) (days_from_civil 2027 12 31))
  = true.
Proof. vm_compute. reflexivity. Qed.

Lemma calendar_samples :
  days_from_civil 1970 1 1 = 0
  /\ civil_from_days 19723 = (2024, 1, 1)
  /\ dayofweek (days_from_civil 2024 1 1) = 0          (* a Monday *)
  /\ dayofweek (days_from_civil 2025 2 1) = 5          (* a Saturday *)
  /\ add_years 1 (days_from_civil 2024 2 29) = days_from_civil 2025 2 28
  /\ add_years (-1) (days_from_civil 2025 6 15) = days_from_civil 2024 6 15
  /\ month (days_from_civil 2025 7 10) = 7.
Proof. vm_compute. repeat split. Qed.

Lemma in_date_range (d start stop : Z) :
  In d (date_range start stop) -> start <= d <= stop.
Proof.
  unfold date_range. rewrite in_map_iff. intros [i [<- Hi]].
  apply in_seq in Hi. lia.
Qed.

Lemma min_date_le (l : list Row) (m : Z) :
  min_date l = Some m -> forall r, In r l -> m <= date r.
Proof.
  revert m. induction l as [|x l IH]; intros m Hm r Hr; [contradiction|].
  cbn in Hm. destruct (min_date l) as [m'|] eqn:E.
  - inversion Hm; subst. destruct Hr as [<-|Hr]; [lia|].
    specialize (IH m' eq_refl r Hr). lia.
  - inversion Hm; subst. destruct Hr as [<-|Hr]; [lia|].
    destruct l; [contradiction|]. cbn in E. destruct (min_date l); discriminate.
Qed.

Lemma argmin_in (f : Row -> Z) (l : list Row) (r : Row) :
  argmin f l = Some r -> In r l.
Proof.
  revert r. induction l as [|x l IH]; intros r H; cbn in H; [discriminate|].
  destruct (argmin f l) as [r'|].
  - destruct (f r' <? f x); inversion H; subst; [right; now apply IH|now left].
  - inversion H. now left.
Qed.

Lemma argmin_some (f : Row -> Z) (l : list Row) :
  l <> [] -> exists r, argmin f l = Some r.
Proof.
  destruct l as [|x l]; [congruence|]. intros _. cbn.
  destruct (argmin f l) as [r'|]; [destruct (f r' <? f x)|]; eauto.
Qed.

Lemma argmin_least (f : Row -> Z) (l : list Row) (r : Row) :
  argmin f l = Some r -> forall x, In x l -> f r <= f x.
Proof.
  revert r. induction l as [|y l IH]; intros r H x Hx; [contradiction|].
  cbn in H. destruct (argmin f l) as [r'|] eqn:E.
  - destruct (f r' <? f y) eqn:C; inversion H; subst.
    + apply Z.ltb_lt in C. destruct Hx as [<-|Hx]; [lia|now apply IH].
    + apply Z.ltb_ge in C. destruct Hx as [<-|Hx]; [lia|].
      specialize (IH r' eq_refl x Hx). lia.
  - inversion H; subst. destruct Hx as [<-|Hx]; [lia|].
    destruct l; [contradiction|]. cbn in E.
    destruct (argmin f l); [destruct (_ <? _)|]; discriminate.
Qed.

Lemma column_eqb_eq (a b : column) : column_eqb a b = true <-> a = b.
Proof.
  destruct a, b; simpl; split; intro H; try reflexivity; discriminate.
Qed.

Lemma has_snoc (c c' : column) (l : list column) :
  has c (l ++ [c']) = has c l || column_eqb c c'.
Proof.
  unfold has. rewrite existsb_app. simpl. now rewrite orb_false_r.
Qed.

(* ------------------------------------------------------------------ *)
(** ** calculate_total_price *)

Lemma default_factor_rows (st : DataFrame * list column) (c : column) :
  rows (fst (default_factor st c)) =
  map (fun r => if has_column c (fst st) then r else set_cell c (of_Z 0) r)
      (rows (fst st)).
Proof.
  destruct st as [df w]. unfold default_factor. cbn [fst].
  destruct (has_column c df); cbn [negb fst assign_column rows].
  - now rewrite map_id.
  - reflexivity.
Qed.

Lemma default_factor_has (st : DataFrame * list column) (c c' : column) :
  has_column c' (fst (default_factor st c)) =
  has_column c' (fst st) || column_eqb c' c.
Proof.
  destruct st as [df w]. unfold default_factor. cbn [fst].
  destruct (has_column c df) eqn:Hc; cbn [negb fst].
  - destruct (column_eqb c' c) eqn:E.
    + apply column_eqb_eq in E. subst. now rewrite Hc.
    + now rewrite orb_false_r.
  - unfold assign_column, has_column. cbn [columns].
    unfold has_column in Hc. rewrite Hc. apply has_snoc.
Qed.

Lemma calculate_total_price_rows (df : DataFrame) :
  rows (totals_result (calculate_total_price df)) =
  map (with_total df) (rows df).
Proof.
  unfold calculate_total_price, factor_columns. cbn [fold_left].
  set (s1 := default_factor (df, []) c_base).
  set (s2 := default_factor s1 c_seasonality).
  set (s3 := default_factor s2 c_dow).
  set (s4 := default_factor s3 c_event).
  assert (R : rows (fst s4) =
              map (fun r =>
                     mkRow (multiunit_id r) (date r)
                       (factor_or_zero df c_base r)
                       (factor_or_zero df c_seasonality r)
                       (factor_or_zero df c_dow r)
                       (factor_or_zero df c_event r)
                       (price r) (total_price r) (is_extrapolated r))
                  (rows df)).
  { subst s4. rewrite default_factor_rows.
    subst s3. rewrite default_factor_rows, default_factor_has.
    subst s2. rewrite default_factor_rows, !default_factor_has.
    subst s1. rewrite default_factor_rows, !default_factor_has.
    cbn [fst column_eqb]. rewrite !orb_false_r, !map_map.
    apply map_ext. intros [i d b s w e p t f]. unfold factor_or_zero.
    destruct (has_column c_base df), (has_column c_seasonality df),
             (has_column c_dow df), (has_column c_event df); reflexivity. }
  destruct s4 as [d4 w4]. cbn [fst] in R.
  cbn [totals_result assign_column rows]. rewrite R, map_map. reflexivity.
Qed.



(** C1, as the code has it.  The rows of the result are the rows of the
    input in the same order, each with the factor of a label the frame
    lacks set to 0 and with [total_price] the sum base + seasonality + dow
    + event of its own four cells.  A cell that is missing in a row whose
    frame has the label is not replaced: the sum, and so [total_price], is
    then missing too. *)
Theorem total_price_is_sum_of_cells (df : DataFrame) :
  rows (totals_result (calculate_total_price df)) =
    map (with_total df) (rows df)
  /\ forall r, In r (rows (totals_result (calculate_total_price df))) ->
       total_price r =
         fadd (fadd (fadd (base r) (seasonality r)) (dow r)) (event r)
       /\ (isna (base r) || isna (seasonality r) || isna (dow r)
           || isna (event r) = true -> total_price r = NaN).
Proof.
  split; [apply calculate_total_price_rows|].
  intros r Hr. rewrite calculate_total_price_rows in Hr.
  apply in_map_iff in Hr. destruct Hr as [r0 [<- _]].
  split; [reflexivity|].
  unfold with_total, sum_factors. cbn.
  destruct (factor_or_zero df c_base r0), (factor_or_zero df c_seasonality r0),
           (factor_or_zero df c_dow r0), (factor_or_zero df c_event r0);
    cbn; intro H; try reflexivity; discriminate.
Qed.

Lemma total_price_is_sum_of_cells_witness :
  total_price (with_total missing_dow missing_dow_row) = NaN.
Proof.
  apply (proj2 (total_price_is_sum_of_cells missing_dow)
               (with_total missing_dow missing_dow_row)).
  - rewrite calculate_total_price_rows. simpl. left. reflexivity.
  - reflexivity.
Defined.

(** C1 as worded fails: with every label present and the dow cell of a row
    missing, the row's total is missing, not 100 + 10 + 0 + 0. *)
Lemma total_price_missing_cell_not_zero :
  ~ (forall df r,
       In r (rows (totals_result (calculate_total_price df))) ->
       total_price r = total_with_zero_for_missing r).
Proof.
  intro H.
  specialize (H missing_dow (with_total missing_dow missing_dow_row)).
  assert (I : In (with_total missing_dow missing_dow_row)
                 (rows (totals_result (calculate_total_price missing_dow)))).
  { rewrite calculate_total_price_rows. simpl. left. reflexivity. }
  specialize (H I). vm_compute in H. discriminate.
Qed.

(* ------------------------------------------------------------------ *)
(** ** extrapolate_prices_backward *)

Lemma extrapolate_date_appends cols group id st d st' :
  extrapolate_date cols group id st d = Ok st' ->
  extrapolated_data st' = extrapolated_data st
  \/ exists n, extrapolated_data st' = extrapolated_data st ++ [n]
               /\ made_for id d n.
Proof.
  unfold extrapolate_date.
  destruct (filter _ group) as [|m swd] eqn:Hswd at 1.
  - intro H. inversion H. now left.
  - rewrite Hswd.
    destruct (has c_dow cols); [|intro H; inversion H; now left].
    unfold try_body. cbn [n_base n_seasonality n_event n_multiunit_id n_date n_is_extrapolated].
    destruct (if (2 <=? List.length (m :: swd))%nat then _ else _) as [dv cl].
    destruct (copy_factor cols _ c_base), (copy_factor cols _ c_seasonality),
             (copy_factor cols _ c_event);
      try (destruct cl as [cd|]; [destruct (has c_price cols && negb (isna (price cd)))|]);
      intro H; inversion H; subst; cbn; right; eexists; split; try reflexivity;
      repeat split.
Qed.

Lemma rows_to_datetime df : rows (to_datetime df) = rows df.
Proof. unfold to_datetime. now destruct (date_dtype df). Qed.

Lemma columns_to_datetime df : columns (to_datetime df) = columns df.
Proof. unfold to_datetime. now destruct (date_dtype df). Qed.

Lemma extrapolate_unit_gap df st id st' :
  (forall n, In n (extrapolated_data st) -> in_gap df n) ->
  extrapolate_unit df st id = Ok st' ->
  forall n, In n (extrapolated_data st') -> in_gap df n.
Proof.
  unfold extrapolate_unit.
  set (group := sort _ (filter _ (rows df))).
  destruct (min_date group) as [e|] eqn:Hmin;
    [|intros H R; inversion R; subst; exact H].
  destruct (e >? target_start_date) eqn:Hlate;
    [|intros H R; inversion R; subst; exact H].
  intros H R.
  refine (for_each_invariant _
            (fun s => forall n, In n (extrapolated_data s) -> in_gap df n)
            _ _ st st' H R).
  intros s d s' Hd Hs Hstep n Hn.
  apply in_date_range in Hd.
  destruct (extrapolate_date_appends _ _ _ _ _ _ Hstep) as [E|[n' [E [Hid [Hdate Hflag]]]]];
    rewrite E in Hn; [now apply Hs|].
  apply in_app_or in Hn. destruct Hn as [Hn|[<-|[]]]; [now apply Hs|].
  repeat split; [assumption|lia|].
  intros r0 Hr0 Hsame.
  assert (In r0 group).
  { subst group. apply in_sort. apply filter_In. split; [assumption|].
    apply Z.eqb_eq. congruence. }
  pose proof (min_date_le _ _ Hmin r0 H0). lia.
Qed.

Lemma extrapolate_units_gap df st ids st' :
  (forall n, In n (extrapolated_data st) -> in_gap df n) ->
  for_each (extrapolate_unit df) ids st = Ok st' ->
  forall n, In n (extrapolated_data st') -> in_gap df n.
Proof.
  intros H R.
  refine (for_each_invariant _
            (fun s => forall n, In n (extrapolated_data s) -> in_gap df n)
            _ _ st st' H R).
  intros s id s' _ Hs Hstep. now apply (extrapolate_unit_gap df s id s').
Qed.

Lemma in_gap_to_datetime df n : in_gap (to_datetime df) n -> in_gap df n.
Proof. unfold in_gap. now rewrite rows_to_datetime. Qed.

Lemma synthesized_in_gap df n :
  In n (ex_synthesized (extrapolate_prices_backward df)) -> in_gap df n.
Proof.
  unfold extrapolate_prices_backward.
  destruct (match min_date (rows (to_datetime df)) with
            | Some d => d <=? target_start_date | None => false end);
    [intros []|].
  destruct (for_each _ _ _) as [st|e] eqn:R; [|intros []].
  destruct (extrapolated_data st) as [|n0 data] eqn:D; [intros []|].
  cbn [ex_synthesized]. intro Hn. apply in_gap_to_datetime.
  apply (extrapolate_units_gap _ _ _ _ (fun n1 (F : In n1 (extrapolated_data (mkExState None [] []))) => False_ind _ F) R).
  now rewrite D.
Qed.


Lemma result_rows df out :
  ex_result (extrapolate_prices_backward df) = Ok out ->
  (forall n, In n (ex_synthesized (extrapolate_prices_backward df)) ->
             In (row_of_new n) (rows out))
  /\ (forall r, In r (rows out) ->
        (exists n, In n (ex_synthesized (extrapolate_prices_backward df))
                   /\ r = row_of_new n)
        \/ (exists r0, In r0 (rows df) /\ same_key r r0)).
Proof.
  unfold extrapolate_prices_backward.
  destruct (match min_date (rows (to_datetime df)) with
            | Some d => d <=? target_start_date | None => false end).
  { cbn. intro H. inversion H; subst. split; [intros _ []|].
    intros r Hr. right. exists r. rewrite rows_to_datetime in Hr. now split. }
  destruct (for_each _ _ _) as [st|e] eqn:R; [|discriminate].
  destruct (extrapolated_data st) as [|n0 data] eqn:D.
  - cbn. intro H. inversion H; subst. split; [intros _ []|].
    intros r Hr. right.
    destruct (negb (has_column c_is_extrapolated (to_datetime df))).
    + cbn in Hr. rewrite rows_to_datetime in Hr.
      apply in_map_iff in Hr. destruct Hr as [r0 [<- Hr0]].
      exists r0. now split.
    + rewrite rows_to_datetime in Hr. exists r. now split.
  - remember (n0 :: data) as synth eqn:Esynth. clear Esynth.
    cbn [ex_result ex_synthesized]. intro H. inversion H; subst. clear H.
    cbn [rows date_dtype columns]. unfold concat.
    rewrite rows_to_datetime, columns_to_datetime.
    destruct (negb (has_column c_is_extrapolated (to_datetime df)));
      cbn [rows]; split.
    + intros n Hn. apply in_sort. apply in_map_iff.
      exists (row_of_new n). split; [reflexivity|].
      apply in_or_app. right. now apply in_map.
    + intros r Hr. apply in_sort in Hr. apply in_map_iff in Hr.
      destruct Hr as [x [<- Hx]]. apply in_app_or in Hx.
      destruct Hx as [Hx|Hx]; apply in_map_iff in Hx;
        destruct Hx as [y [<- Hy]].
      * right. exists y. split; [assumption|].
        unfold fill_flag, same_key. now destruct (is_extrapolated _).
      * left. now exists y.
    + intros n Hn. apply in_sort. apply in_or_app. right. now apply in_map.
    + intros r Hr. apply in_sort in Hr. apply in_app_or in Hr.
      destruct Hr as [Hx|Hx]; apply in_map_iff in Hx;
        destruct Hx as [y [<- Hy]].
      * right. exists y. now split.
      * left. now exists y.
Qed.

(** C3, as the code has it.  Every synthesized record carries
    [is_extrapolated = True], is dated on or after the start date of the
    extrapolation (1 January 2024) and strictly before every record its
    unit has in the input.  When the run returns a frame, the synthesized
    records are among its rows, and every row of it is either one of them
    or has the unit and date of an input row. *)
Theorem synthesized_between_start_and_first_record (df : DataFrame) :
  (forall n, In n (ex_synthesized (extrapolate_prices_backward df)) ->
             in_gap df n)
  /\ forall out,
       ex_result (extrapolate_prices_backward df) = Ok out ->
       (forall n, In n (ex_synthesized (extrapolate_prices_backward df)) ->
                  In (row_of_new n) (rows out))
       /\ (forall r, In r (rows out) ->
             (exists n, In n (ex_synthesized (extrapolate_prices_backward df))
                        /\ r = row_of_new n)
             \/ (exists r0, In r0 (rows df) /\ same_key r r0)).
Proof.
  split.
  - intros n. apply synthesized_in_gap.
  - intros out. apply result_rows.
Qed.

Lemma synthesized_between_start_and_first_record_witness :
  in_gap one_wednesday first_synthesized.
Proof.
  apply (proj1 (synthesized_between_start_and_first_record one_wednesday)).
  vm_compute. left. reflexivity.
Defined.

(** C3 as worded fails: the record synthesized for 1 January 2024 is dated
    on the start date, not before it. *)
Lemma synthesized_on_start_date :
  ~ (forall df n,
       In n (ex_synthesized (extrapolate_prices_backward df)) ->
       before_cutoff df n).
Proof.
  intro H.
  assert (I : In first_synthesized
                 (ex_synthesized (extrapolate_prices_backward one_wednesday))).
  { vm_compute. left. reflexivity. }
  destruct (H one_wednesday first_synthesized I) as [L _].
  vm_compute in L. discriminate.
Qed.

(** *** The price of a synthesized record *)

Lemma extrapolate_date_unfold cols group id st d :
  extrapolate_date cols group id st d =
  match weekday_rows group d with
  | [] => Ok st
  | _ :: _ =>
      if has c_dow cols then
        match try_body cols (add_years 1 d) (weekday_rows group d)
                (mkNewRow id d true
                   (copy_factor cols (exact_rows group d) c_event)
                   (copy_factor cols (exact_rows group d) c_seasonality)
                   (copy_factor cols (exact_rows group d) c_base) None None)
                st with
        | Raise (KeyError _) | Raise ValueError =>
            Ok (mkExState (closest_date st) (extrapolated_data st)
                          (warnings st ++ [d]))
        | r => r
        end
      else Ok st
  end.
Proof. reflexivity. Qed.

Lemma one_match_price cols group id st d m :
  has c_dow cols = true ->
  weekday_rows group d = [m] ->
  exists n,
    extrapolate_date cols group id st d =
      Ok (mkExState (Some m) (extrapolated_data st ++ [n]) (warnings st))
    /\ made_for id d n
    /\ n_dow n = Some (dow m)
    /\ n_price n =
         match factor_rule cols (exact_rows group d) (dow m) with
         | Some p => Some p
         | None => price_rule cols m
         end.
Proof.
  intros Hdow Hone. rewrite extrapolate_date_unfold, Hone, Hdow.
  unfold try_body, factor_rule, price_rule, discount.
  cbn [List.length Nat.leb argmin n_base n_seasonality n_event
       n_multiunit_id n_date n_is_extrapolated].
  destruct (copy_factor cols (exact_rows group d) c_base),
           (copy_factor cols (exact_rows group d) c_seasonality),
           (copy_factor cols (exact_rows group d) c_event);
    try destruct (has c_price cols && negb (isna (price m)));
    eexists; (split; [reflexivity|]); repeat split.
Qed.

Lemma many_matches_price cols group id st d p :
  has c_dow cols = true ->
  (2 <= List.length (weekday_rows group d))%nat ->
  factor_rule cols (exact_rows group d)
              (mean (map dow (weekday_rows group d))) = Some p ->
  exists n,
    extrapolate_date cols group id st d =
      Ok (mkExState (closest_date st) (extrapolated_data st ++ [n])
                    (warnings st))
    /\ made_for id d n
    /\ n_dow n = Some (mean (map dow (weekday_rows group d)))
    /\ n_price n = Some p.
Proof.
  intros Hdow Hmany. rewrite extrapolate_date_unfold, Hdow.
  destruct (weekday_rows group d) as [|m swd] eqn:E; [cbn in Hmany; lia|].
  unfold try_body, factor_rule, discount.
  apply Nat.leb_le in Hmany. rewrite Hmany.
  cbn [n_base n_seasonality n_event n_multiunit_id n_date n_is_extrapolated].
  destruct (copy_factor cols (exact_rows group d) c_base),
           (copy_factor cols (exact_rows group d) c_seasonality),
           (copy_factor cols (exact_rows group d) c_event);
    intro H; inversion H; subst;
    eexists; (split; [reflexivity|]); repeat split.
Qed.

(** C5, as the code has it.  For a candidate date of a frame that has the
    dow label: with exactly one record on the weekday of the date a year
    later within 14 days of it, a record is emitted (and nothing is
    warned about); its price is (base + seasonality + dow + event) x 0.97
    when the three other factors were copied from the record exactly one
    year later, else 0.97 x the price of that one record when the frame
    has prices and it is not missing, else the record is emitted with no
    price at all.  With two or more such records and the three factors
    copied, the record is emitted with the first price, dow being their
    mean. *)
Theorem record_emitted_priced_or_not (cols : list column) (group : list Row)
  (id : Z) (st : ExState) (d : Z) :
  has c_dow cols = true ->
  (forall m, weekday_rows group d = [m] ->
     exists n,
       extrapolate_date cols group id st d =
         Ok (mkExState (Some m) (extrapolated_data st ++ [n]) (warnings st))
       /\ made_for id d n
       /\ n_dow n = Some (dow m)
       /\ n_price n =
            match factor_rule cols (exact_rows group d) (dow m) with
            | Some p => Some p
            | None => price_rule cols m
            end)
  /\ (forall p,
        (2 <= List.length (weekday_rows group d))%nat ->
        factor_rule cols (exact_rows group d)
                    (mean (map dow (weekday_rows group d))) = Some p ->
        exists n,
          extrapolate_date cols group id st d =
            Ok (mkExState (closest_date st) (extrapolated_data st ++ [n])
                          (warnings st))
          /\ made_for id d n
          /\ n_dow n = Some (mean (map dow (weekday_rows group d)))
          /\ n_price n = Some p).
Proof.
  intro Hdow. split.
  - intros m Hone. now apply one_match_price.
  - intros p Hmany Hrule. now apply many_matches_price.
Qed.

Lemma record_emitted_priced_or_not_witness :
  exists n,
    extrapolate_date all_columns [wednesday_row] 1 (mkExState None [] [])
                     (days_from_civil 2024 1 1) =
      Ok (mkExState (Some wednesday_row) ([] ++ [n]) [])
    /\ made_for 1 (days_from_civil 2024 1 1) n
    /\ n_dow n = Some (of_Z 5)
    /\ n_price n = None.
Proof.
  exact (proj1 (record_emitted_priced_or_not all_columns [wednesday_row] 1
                  (mkExState None [] []) (days_from_civil 2024 1 1) eq_refl)
               wednesday_row eq_refl).
Defined.

(** The first day of the January scenario: the three factors are copied
    from 1 January 2025 and the price is 115 x 0.97 = 111.55. *)
Lemma january_first_day_price :
  match extrapolate_date all_columns (rows january_2025) 1
                         (mkExState None [] []) (days_from_civil 2024 1 1)
  with
  | Ok st => map (fun n => (n_base n, n_dow n, n_price n))
                 (extrapolated_data st)
  | Raise _ => []
  end
  = [(Some (of_Z 100), Some (of_Z 5), Some (Fin (2231 # 20)))].
Proof. vm_compute. reflexivity. Qed.

(** C5 as worded fails: for 1 January 2024 neither rule gives a price (no
    record a year later, and the one Wednesday nearby has no price), yet
    the record is emitted, without a price, and nothing is warned about. *)
Lemma unpriced_record_emitted :
  ~ (forall df n,
       In n (ex_synthesized (extrapolate_prices_backward df)) -> priced n).
Proof.
  intro H.
  assert (I : In first_synthesized
                 (ex_synthesized (extrapolate_prices_backward one_wednesday))).
  { vm_compute. left. reflexivity. }
  destruct (H one_wednesday first_synthesized I) as [p Hp].
  discriminate.
Qed.

Lemma unpriced_record_not_warned :
  ex_warnings (extrapolate_prices_backward one_wednesday) = [].
Proof. vm_compute. reflexivity. Qed.

(** *** The early return *)

(** C4: a frame whose earliest date is on or before the start date comes
    back as it is; when it had no [is_extrapolated] label, neither has the
    result. *)
Theorem early_return_adds_no_flag (df : DataFrame) (e : Z) :
  min_date (rows df) = Some e ->
  e <= target_start_date ->
  has_column c_is_extrapolated df = false ->
  exists out,
    ex_result (extrapolate_prices_backward df) = Ok out
    /\ rows out = rows df
    /\ columns out = columns df
    /\ has_column c_is_extrapolated out = false.
Proof.
  intros Hmin Hle Hflag. exists (to_datetime df).
  unfold extrapolate_prices_backward.
  rewrite rows_to_datetime, Hmin.
  apply Z.leb_le in Hle. rewrite Hle. cbn [ex_result].
  split; [reflexivity|]. split; [reflexivity|].
  split; [apply columns_to_datetime|].
  unfold has_column in *. now rewrite columns_to_datetime.
Qed.

Lemma early_return_adds_no_flag_witness :
  exists out,
    ex_result (extrapolate_prices_backward starts_in_2023) = Ok out
    /\ rows out = rows starts_in_2023
    /\ columns out = columns starts_in_2023
    /\ has_column c_is_extrapolated out = false.
Proof.
  apply (early_return_adds_no_flag starts_in_2023
           (days_from_civil 2023 12 31)).
  - reflexivity.
  - vm_compute. discriminate.
  - reflexivity.
Defined.

(** The sibling path, where nothing could be synthesized, does add the
    label. *)
Lemma nothing_synthesized_adds_flag :
  exists out,
    ex_result (extrapolate_prices_backward no_dow) = Ok out
    /\ has_column c_is_extrapolated out = true
    /\ Forall (fun r => is_extrapolated r = Some false) (rows out).
Proof.
  eexists. split; [vm_compute; reflexivity|].
  split; [reflexivity|]. repeat constructor.
Qed.

(** *** A date that stops the run *)

(** With two or more records on the weekday, the three factors not all
    copied and [closest_date] never assigned, line 114 reads the unbound
    local; the [except] clause names other exceptions. *)
Lemma unbound_closest_date (cols : list column) (group : list Row) (id : Z)
  (st : ExState) (d : Z) :
  has c_dow cols = true ->
  (2 <= List.length (weekday_rows group d))%nat ->
  factor_rule cols (exact_rows group d)
              (mean (map dow (weekday_rows group d))) = None ->
  closest_date st = None ->
  extrapolate_date cols group id st d = Raise UnboundLocalError.
Proof.
  intros Hdow Hmany Hrule Hnone. rewrite extrapolate_date_unfold, Hdow.
  destruct (weekday_rows group d) as [|m swd] eqn:E; [cbn in Hmany; lia|].
  unfold try_body. unfold factor_rule in Hrule.
  apply Nat.leb_le in Hmany. rewrite Hmany, Hnone.
  cbn [n_base n_seasonality n_event].
  destruct (copy_factor cols (exact_rows group d) c_base),
           (copy_factor cols (exact_rows group d) c_seasonality),
           (copy_factor cols (exact_rows group d) c_event);
    try discriminate; reflexivity.
Qed.

(** C6: one month of daily records, January 2025.  The candidate
    1 February 2024 has the Saturdays 18 and 25 January 2025 nearby and no
    record a year later; the run ends there with the exception and
    returns nothing. *)
Theorem january_run_aborts :
  ex_result (extrapolate_prices_backward january_2025)
  = Raise UnboundLocalError.
Proof. vm_compute. reflexivity. Qed.

(* ------------------------------------------------------------------ *)
(** ** find_improved_matches *)

Lemma find_improved_matches_unfold df :
  mt_result (find_improved_matches df) =
  match target_rows df with
  | [] => Ok no_matches
  | _ :: _ =>
      match past_rows df with
      | [] => Ok no_matches
      | _ :: _ =>
          match for_each (match_unit (columns df) (target_rows df)
                                     (past_rows df))
                         (unit_keys (map multiunit_id (target_rows df))) []
          with
          | Raise e => Raise e
          | Ok [] => Ok no_matches
          | Ok (m :: l) =>
              Ok (if has_column c_event df
                  then mkMatchFrame true (map with_event_match (m :: l))
                  else mkMatchFrame false (m :: l))
          end
      end
  end.
Proof.
  unfold find_improved_matches, target_rows, past_rows, has_column.
  rewrite rows_to_datetime, columns_to_datetime.
  destruct (filter _ (rows df)) as [|t ts]; [reflexivity|].
  destruct (filter (fun r => date r <? past_date_limit) (rows df)) as [|p ps];
    [reflexivity|].
  destruct (for_each _ _ _) as [[|m l]|e]; reflexivity.
Qed.

Lemma improved_row_fields cols pg t d reason m :
  In m (improved_row cols pg t d reason) ->
  m_multiunit_id m = multiunit_id t /\ m_date m = date t
  /\ matched_from m = d /\ match_reason m = reason
  /\ days_diff m = Z.abs (d - add_years (-1) (date t))
  /\ is_improved_match m = true
  /\ exists p, In p pg /\ date p = d.
Proof.
  unfold improved_row.
  destruct (filter (fun r => date r =? d) pg) as [|p l] eqn:E; [intros []|].
  intros [<-|[]]. cbn. repeat split.
  exists p.
  assert (I : In p (filter (fun r => date r =? d) pg)) by (rewrite E; now left).
  apply filter_In in I. destruct I as [I1 I2]. apply Z.eqb_eq in I2.
  now split.
Qed.

Lemma match_row_grows cols pg acc t acc' :
  match_row cols pg acc t = Ok acc' ->
  exists d reason,
    acc' = acc \/ acc' = acc ++ improved_row cols pg t d reason.
Proof.
  unfold match_row. destruct (select_match _ pg t) as [[[d reason]|]|e];
    intro H; inversion H; subst.
  - exists d, reason. now right.
  - exists 0, ""%string. now left.
Qed.

Section MatchInvariant.
Variable P : MatchRow -> Prop.
Variables (cols : list column) (targets past : list Row).
Hypothesis step :
  forall id t d reason m,
    In t targets -> multiunit_id t = id ->
    In m (improved_row cols (filter (fun r => multiunit_id r =? id) past)
                       t d reason) ->
    P m.

Lemma match_unit_invariant acc id acc' :
  (forall m, In m acc -> P m) ->
  match_unit cols targets past acc id = Ok acc' ->
  forall m, In m acc' -> P m.
Proof.
  unfold match_unit.
  set (pg := filter (fun r => multiunit_id r =? id) past).
  destruct pg as [|p0 pg'] eqn:Epg;
    [intros H R; inversion R; subst; exact H|].
  rewrite <- Epg. intros H R.
  refine (for_each_invariant _ (fun a => forall m, In m a -> P m)
            _ _ acc acc' H R).
  intros a t a' Ht Ha Hstep m Hm.
  apply filter_In in Ht. destruct Ht as [Ht Hid]. apply Z.eqb_eq in Hid.
  destruct (match_row_grows _ _ _ _ _ Hstep) as [d [reason [->| ->]]];
    [now apply Ha|].
  apply in_app_or in Hm. destruct Hm as [Hm|Hm]; [now apply Ha|].
  apply (step id t d reason m Ht Hid). exact Hm.
Qed.

Lemma match_units_invariant ids acc acc' :
  (forall m, In m acc -> P m) ->
  for_each (match_unit cols targets past) ids acc = Ok acc' ->
  forall m, In m acc' -> P m.
Proof.
  intros H R.
  refine (for_each_invariant _ (fun a => forall m, In m a -> P m)
            _ _ acc acc' H R).
  intros a id a' _ Ha Hstep. now apply (match_unit_invariant a id a').
Qed.
End MatchInvariant.


(** C8.  Every record of a frame the matcher returns is dated inside the
    forecast window, 1 January 2025 to 31 March 2026, and its
    [matched_from] is strictly before the past boundary, 21 April 2025. *)
Theorem matches_in_window_from_past df out m :
  mt_result (find_improved_matches df) = Ok out ->
  In m (matches out) ->
  in_window_from_past m.
Proof.
  rewrite find_improved_matches_unfold.
  destruct (target_rows df) as [|t0 ts] eqn:Et; [intro H; inversion H; subst; intros []|].
  destruct (past_rows df) as [|p0 ps] eqn:Ep; [intro H; inversion H; subst; intros []|].
  rewrite <- Et, <- Ep.
  destruct (for_each _ _ _) as [acc|e] eqn:R; [|discriminate].
  assert (G : forall x, In x acc -> in_window_from_past x).
  { refine (match_units_invariant in_window_from_past _ _ _ _ _ [] acc
              (fun _ F => False_ind _ F) R).
    intros id t d reason x Ht Hid Hx.
    apply improved_row_fields in Hx.
    destruct Hx as [_ [Hd [Hf [_ [_ [_ [p [Hp Hpd]]]]]]]].
    unfold in_window_from_past. rewrite Hd, Hf.
    apply filter_In in Ht. destruct Ht as [_ Ht].
    apply andb_true_iff in Ht. destruct Ht as [H1 H2].
    apply Z.leb_le in H1, H2.
    apply filter_In in Hp. destruct Hp as [Hp _].
    apply filter_In in Hp. destruct Hp as [_ Hp]. apply Z.ltb_lt in Hp.
    lia. }
  destruct acc as [|m0 l]; [intro H; inversion H; subst; intros []|].
  destruct (has_column c_event df); intro H; inversion H; subst; cbn [matches].
  - intro Hm. change (In m (map with_event_match (m0 :: l))) in Hm.
    apply in_map_iff in Hm. destruct Hm as [x [<- Hx]].
    apply (G x Hx).
  - apply G.
Qed.

Lemma matches_in_window_from_past_witness : in_window_from_past june_match.
Proof.
  apply (matches_in_window_from_past with_events june_matches june_match).
  - vm_compute. reflexivity.
  - simpl. left. reflexivity.
Defined.

(** *** A frame with no event label *)

Lemma match_row_no_event cols pg acc t :
  has c_event cols = false ->
  match_row cols pg acc t = Raise (KeyError c_event).
Proof. intro H. unfold match_row, select_match. now rewrite H. Qed.

Lemma match_unit_no_event cols targets past acc id :
  has c_event cols = false ->
  In id (map multiunit_id targets) ->
  match_unit cols targets past acc id =
  match filter (fun r => multiunit_id r =? id) past with
  | [] => Ok acc
  | _ :: _ => Raise (KeyError c_event)
  end.
Proof.
  intros H Hid. unfold match_unit.
  destruct (filter (fun r => multiunit_id r =? id) past) as [|p pg] eqn:E;
    [reflexivity|].
  apply in_map_iff in Hid. destruct Hid as [t [Ht Hin]].
  assert (I : In t (filter (fun r => multiunit_id r =? id) targets)).
  { apply filter_In. split; [assumption|]. now apply Z.eqb_eq. }
  destruct (filter (fun r => multiunit_id r =? id) targets) as [|t0 fg];
    [contradiction|].
  cbn [for_each]. now rewrite match_row_no_event.
Qed.

Lemma match_units_no_event cols targets past ids acc id :
  has c_event cols = false ->
  (forall x, In x ids -> In x (map multiunit_id targets)) ->
  In id ids ->
  filter (fun r => multiunit_id r =? id) past <> [] ->
  for_each (match_unit cols targets past) ids acc = Raise (KeyError c_event).
Proof.
  intros H. revert acc. induction ids as [|x ids IH]; intros acc Hsub Hin Hne;
    [contradiction|].
  cbn [for_each]. rewrite (match_unit_no_event _ _ _ _ _ H (Hsub x (or_introl eq_refl))).
  destruct (filter (fun r => multiunit_id r =? x) past) as [|p pg] eqn:E;
    [|reflexivity].
  destruct Hin as [->|Hin]; [congruence|].
  apply IH; [|assumption|assumption].
  intros y Hy. apply Hsub. now right.
Qed.


(** C2: in a frame with no [event] label, as soon as one unit has a row in
    the forecast window and a row before the past boundary, the matcher
    raises [KeyError] for that label (the 21-day search reads the column)
    and returns no frame. *)
Theorem no_event_column_raises df t p :
  has_column c_event df = false ->
  In t (rows df) -> start_date <= date t <= end_date ->
  In p (rows df) -> date p < past_date_limit ->
  multiunit_id p = multiunit_id t ->
  mt_result (find_improved_matches df) = Raise (KeyError c_event).
Proof.
  intros Hev Ht Hw Hp Hpast Hid.
  assert (It : In t (target_rows df)).
  { apply filter_In. split; [assumption|].
    apply andb_true_iff. split; apply Z.leb_le; lia. }
  assert (Ip : In p (past_rows df)).
  { apply filter_In. split; [assumption|]. now apply Z.ltb_lt. }
  unfold find_improved_matches.
  rewrite rows_to_datetime, columns_to_datetime.
  fold (target_rows df). fold (past_rows df).
  destruct (target_rows df) as [|t0 ts] eqn:Et; [contradiction|].
  destruct (past_rows df) as [|p0 ps] eqn:Ep; [contradiction|].
  rewrite <- Et, <- Ep. rewrite <- Et in It. rewrite <- Ep in Ip.
  rewrite (match_units_no_event _ _ _ _ _ (multiunit_id t) Hev);
    [reflexivity| | |].
  - intros x Hx. exact (proj1 (in_unit_keys _ _) Hx).
  - apply in_unit_keys. now apply in_map.
  - intro E.
    assert (I : In p (filter (fun r => multiunit_id r =? multiunit_id t)
                             (past_rows df))).
    { apply filter_In. split; [assumption|]. now apply Z.eqb_eq. }
    rewrite E in I. contradiction.
Qed.


Lemma no_event_column_raises_witness :
  mt_result (find_improved_matches no_event) = Raise (KeyError c_event).
Proof.
  apply (no_event_column_raises no_event june_2025 june_2024).
  - reflexivity.
  - simpl. right. left. reflexivity.
  - split; apply Z.leb_le; reflexivity.
  - simpl. left. reflexivity.
  - apply Z.ltb_lt. reflexivity.
  - reflexivity.
Defined.

(** *** The order of the tiers *)

Lemma select_match_order pg t :
  select_match true pg t = Ok (first_found (tiers pg t)).
Proof.
  unfold select_match, tiers. cbn [first_found].
  destruct (event_tier pg _ t); [reflexivity|].
  destruct (weekday_tier 14 pg _); [reflexivity|].
  destruct (weekday_tier 21 pg _); [reflexivity|].
  destruct (closest_tier pg _); reflexivity.
Qed.

Lemma match_row_with_event cols pg acc t :
  has c_event cols = true ->
  match_row cols pg acc t = Ok (acc ++ emitted cols pg t).
Proof.
  intro H. unfold match_row, emitted. rewrite H, select_match_order.
  destruct (first_found (tiers pg t)) as [[d reason]|]; [reflexivity|].
  now rewrite app_nil_r.
Qed.

Lemma match_rows_with_event cols pg fg acc :
  has c_event cols = true ->
  for_each (match_row cols pg) fg acc = Ok (acc ++ flat_map (emitted cols pg) fg).
Proof.
  intro H. revert acc. induction fg as [|t fg IH]; intro acc; cbn.
  - now rewrite app_nil_r.
  - rewrite match_row_with_event by assumption. rewrite IH. now rewrite app_assoc.
Qed.

Lemma match_unit_with_event cols targets past acc id :
  has c_event cols = true ->
  match_unit cols targets past acc id =
  Ok (acc ++ unit_matches cols targets past id).
Proof.
  intro H. unfold match_unit, unit_matches.
  destruct (filter (fun r => multiunit_id r =? id) past) as [|p pg];
    [now rewrite app_nil_r|].
  now apply match_rows_with_event.
Qed.

Lemma match_units_with_event cols targets past ids acc :
  has c_event cols = true ->
  for_each (match_unit cols targets past) ids acc =
  Ok (acc ++ flat_map (unit_matches cols targets past) ids).
Proof.
  intro H. revert acc. induction ids as [|id ids IH]; intro acc; cbn.
  - now rewrite app_nil_r.
  - rewrite match_unit_with_event by assumption. rewrite IH.
    now rewrite app_assoc.
Qed.

Lemma improved_row_of_group cols pg t r reason :
  In r pg ->
  exists m, improved_row cols pg t (date r) reason = [m]
            /\ m_multiunit_id m = multiunit_id t /\ m_date m = date t
            /\ matched_from m = date r /\ match_reason m = reason.
Proof.
  intro Hr. unfold improved_row.
  assert (I : In r (filter (fun x => date x =? date r) pg)).
  { apply filter_In. split; [assumption|]. apply Z.eqb_refl. }
  destruct (filter (fun x => date x =? date r) pg) as [|x l]; [contradiction|].
  eexists. split; [reflexivity|]. cbn. repeat split.
Qed.
Lemma event_tier_nearest pg t p :
  fgtb (event t) (of_Z 1) = true ->
  In p pg ->
  within 14 (add_years (-1) (date t)) p = true ->
  fleb (fabs (fsub (event p) (event t))) (of_Z 20) = true ->
  exists r, In r pg
            /\ event_tier pg (add_years (-1) (date t)) t = Some (date r)
            /\ within 14 (add_years (-1) (date t)) r = true
            /\ fleb (fabs (fsub (event r) (event t))) (of_Z 20) = true
            /\ forall q, In q pg ->
                 within 14 (add_years (-1) (date t)) q = true ->
                 fleb (fabs (fsub (event q) (event t))) (of_Z 20) = true ->
                 Z.abs (date r - add_years (-1) (date t))
                 <= Z.abs (date q - add_years (-1) (date t)).
Proof.
  intros Hq Hp Hnear Hband. unfold event_tier, closest. rewrite Hq.
  set (cands := filter (fun r => within 14 (add_years (-1) (date t)) r
                                 && fleb (fabs (fsub (event r) (event t)))
                                         (of_Z 20)) pg).
  assert (Ip : In p cands).
  { apply filter_In. split; [assumption|]. now rewrite Hnear, Hband. }
  destruct (argmin_some (fun r => Z.abs (date r - add_years (-1) (date t)))
              cands) as [r Hr].
  { intro E. rewrite E in Ip. contradiction. }
  pose proof (argmin_in _ _ _ Hr) as Ir.
  apply filter_In in Ir. destruct Ir as [Ir Hcond].
  apply andb_true_iff in Hcond. destruct Hcond as [H1 H2].
  exists r. rewrite Hr. cbn [option_map].
  split; [assumption|]. split; [reflexivity|].
  split; [assumption|]. split; [assumption|].
  intros q Iq Q1 Q2.
  apply (argmin_least _ _ _ Hr q).
  apply filter_In. split; [assumption|]. now rewrite Q1, Q2.
Qed.

(** C9.  In a frame with the event label the rules are tried in the order
    event match, weekday match without event within 14 days, weekday match
    within 21 days, closest date, and the first that finds a date decides.
    So for a target row whose event exceeds 1 and whose unit has a
    historical row within 14 days of the day a year before with an event
    at most 20 away, the date selected is the date of an event-rule
    candidate [r]: a row of the unit before the past boundary, within 14
    days of the day a year before, with an event at most 20 from the
    target's, and no row of the unit that meets these conditions is
    nearer to that day.  It is selected whatever weekday candidates there
    are: the pass of the loop for the target row appends exactly one
    record, and the returned frame holds it, for that unit and date,
    matched from the date of [r], with [match_reason = "event_match"]. *)
Theorem event_tier_wins df t p :
  has_column c_event df = true ->
  In t (rows df) -> start_date <= date t <= end_date ->
  fgtb (event t) (of_Z 1) = true ->
  In p (rows df) -> date p < past_date_limit ->
  multiunit_id p = multiunit_id t ->
  within 14 (add_years (-1) (date t)) p = true ->
  fleb (fabs (fsub (event p) (event t))) (of_Z 20) = true ->
  (forall pg t', select_match true pg t' = Ok (first_found (tiers pg t')))
  /\ exists d,
       event_tier (history df t) (add_years (-1) (date t)) t = Some d
       /\ select_match true (history df t) t
          = Ok (Some (d, "event_match"%string))
       /\ (exists r,
             date r = d
             /\ In r (rows df) /\ date r < past_date_limit
             /\ multiunit_id r = multiunit_id t
             /\ within 14 (add_years (-1) (date t)) r = true
             /\ fleb (fabs (fsub (event r) (event t))) (of_Z 20) = true
             /\ forall q,
                  In q (rows df) -> date q < past_date_limit ->
                  multiunit_id q = multiunit_id t ->
                  within 14 (add_years (-1) (date t)) q = true ->
                  fleb (fabs (fsub (event q) (event t))) (of_Z 20) = true ->
                  Z.abs (date r - add_years (-1) (date t))
                  <= Z.abs (date q - add_years (-1) (date t)))
       /\ exists out m m0,
            (forall improved_matches,
               match_row (columns df) (history df t) improved_matches t
               = Ok (improved_matches ++ [m0]))
            /\ m = with_event_match m0
            /\ mt_result (find_improved_matches df) = Ok out
            /\ In m (matches out)
            /\ m_multiunit_id m = multiunit_id t /\ m_date m = date t
            /\ matched_from m = d
            /\ match_reason m = "event_match"%string
            /\ event_match m = Some true.
Proof.
  intros Hev Ht Hw Hq Hp Hpast Hid Hnear Hband.
  split; [exact select_match_order|].
  assert (It : In t (target_rows df)).
  { apply filter_In. split; [assumption|].
    apply andb_true_iff. split; apply Z.leb_le; lia. }
  assert (Hh : forall x, In x (history df t) <->
                 In x (rows df) /\ date x < past_date_limit
                 /\ multiunit_id x = multiunit_id t).
  { intro x. unfold history, past_rows. rewrite !filter_In.
    rewrite Z.ltb_lt, Z.eqb_eq. tauto. }
  assert (Ip : In p (history df t)) by (apply Hh; tauto).
  destruct (event_tier_nearest _ t p Hq Ip Hnear Hband)
    as [r [Hr [Htier [Rnear [Rband Rleast]]]]].
  exists (date r). split; [exact Htier|].
  assert (Hsel : first_found (tiers (history df t) t)
                 = Some (date r, "event_match"%string)).
  { unfold tiers. cbn [first_found]. now rewrite Htier. }
  split; [now rewrite select_match_order, Hsel|].
  split.
  { exists r. split; [reflexivity|].
    destruct (proj1 (Hh r) Hr) as [R1 [R2 R3]].
    repeat (split; [assumption|]).
    intros q Q1 Q2 Q3 Q4 Q5. apply Rleast; [apply Hh; tauto|assumption..]. }
  destruct (improved_row_of_group (columns df) (history df t) t r
              "event_match"%string Hr) as [m [Hm [F1 [F2 [F3 F4]]]]].
  assert (Im : In m (flat_map (unit_matches (columns df) (target_rows df)
                                            (past_rows df))
                              (unit_keys (map multiunit_id (target_rows df))))).
  { apply in_flat_map. exists (multiunit_id t). split.
    - apply in_unit_keys. now apply in_map.
    - assert (Hu : unit_matches (columns df) (target_rows df) (past_rows df)
                                  (multiunit_id t)
                     = flat_map (emitted (columns df) (history df t))
                         (filter (fun x => multiunit_id x =? multiunit_id t)
                                 (target_rows df))).
      { unfold unit_matches. fold (history df t).
        destruct (history df t); [contradiction|reflexivity]. }
      rewrite Hu. apply in_flat_map. exists t. split.
      + apply filter_In. split; [assumption|]. apply Z.eqb_refl.
      + unfold emitted. rewrite Hsel, Hm. now left. }
  assert (Hrow : forall improved_matches,
             match_row (columns df) (history df t) improved_matches t
             = Ok (improved_matches ++ [m])).
  { intro acc. unfold match_row. unfold has_column in Hev. rewrite Hev.
    rewrite select_match_order, Hsel. now rewrite Hm. }
  rewrite find_improved_matches_unfold.
  destruct (target_rows df) as [|t0 ts] eqn:Et; [contradiction|].
  assert (Ipr : In p (past_rows df)).
  { apply filter_In. split; [assumption|]. now apply Z.ltb_lt. }
  destruct (past_rows df) as [|p0 ps] eqn:Ep; [contradiction|].
  rewrite <- Et, <- Ep in *.
  rewrite match_units_with_event by exact Hev. cbn [app].
  destruct (flat_map _ _) as [|m0 l] eqn:Ef; [contradiction|].
  rewrite Hev. eexists. exists (with_event_match m), m.
  split; [exact Hrow|]. split; [reflexivity|].
  split; [reflexivity|]. cbn [matches].
  split; [now apply (in_map with_event_match (m0 :: l))|].
  cbn. rewrite F4. repeat split; assumption.
Qed.

Lemma event_tier_wins_witness :
  exists d,
    event_tier (history with_events june_target)
               (add_years (-1) (date june_target)) june_target = Some d
    /\ select_match true (history with_events june_target) june_target
       = Ok (Some (d, "event_match"%string))
    /\ (exists r,
          date r = d
          /\ In r (rows with_events) /\ date r < past_date_limit
          /\ multiunit_id r = multiunit_id june_target
          /\ within 14 (add_years (-1) (date june_target)) r = true
          /\ fleb (fabs (fsub (event r) (event june_target))) (of_Z 20) = true
          /\ forall q,
               In q (rows with_events) -> date q < past_date_limit ->
               multiunit_id q = multiunit_id june_target ->
               within 14 (add_years (-1) (date june_target)) q = true ->
               fleb (fabs (fsub (event q) (event june_target))) (of_Z 20)
               = true ->
               Z.abs (date r - add_years (-1) (date june_target))
               <= Z.abs (date q - add_years (-1) (date june_target)))
    /\ exists out m m0,
         (forall improved_matches,
            match_row (columns with_events) (history with_events june_target)
                      improved_matches june_target
            = Ok (improved_matches ++ [m0]))
         /\ m = with_event_match m0
         /\ mt_result (find_improved_matches with_events) = Ok out
         /\ In m (matches out)
         /\ m_multiunit_id m = multiunit_id june_target
         /\ m_date m = date june_target
         /\ matched_from m = d
         /\ match_reason m = "event_match"%string
         /\ event_match m = Some true.
Proof.
  apply (event_tier_wins with_events june_target june_event).
  - reflexivity.
  - simpl. right. right. left. reflexivity.
  - split; apply Z.leb_le; reflexivity.
  - reflexivity.
  - simpl. right. left. reflexivity.
  - apply Z.ltb_lt. reflexivity.
  - reflexivity.
  - reflexivity.
  - reflexivity.
Defined.

(** The weekday candidate that loses: the same day a year before, a
    Saturday like the target, with no event. *)
Lemma quiet_june_is_a_weekday_candidate :
  weekday_tier 14 (history with_events june_target)
               (add_years (-1) (date june_target))
  = Some (date june_quiet).
Proof. vm_compute. reflexivity. Qed.

(* ------------------------------------------------------------------ *)
(** ** detect_seasonal_patterns *)

Lemma in_monthly_avg l m :
  In m (monthly_avg l) ->
  exists r0, In r0 l
    /\ fst (fst m) = multiunit_id r0 /\ snd (fst m) = month (date r0)
    /\ snd m = mean (map price
                      (filter (fun r => (multiunit_id r =? fst (fst m))
                                        && (month (date r) =? snd (fst m))) l)).
Proof.
  unfold monthly_avg. intro H. apply in_map_iff in H.
  destruct H as [k [<- Hk]]. apply (proj1 (in_pair_keys _ _)) in Hk.
  apply in_map_iff in Hk. destruct Hk as [r0 [<- Hr0]].
  exists r0. cbn [fst snd]. split; [assumption|].
  split; [reflexivity|]. split; reflexivity.
Qed.

Lemma in_property_avg l p :
  In p (property_avg l) ->
  snd p = mean (map price (filter (fun r => multiunit_id r =? fst p) l)).
Proof.
  unfold property_avg. intro H. apply in_map_iff in H.
  destruct H as [id [<- _]]. reflexivity.
Qed.

Lemma property_avg_has l r0 :
  In r0 l ->
  In (multiunit_id r0,
      mean (map price (filter (fun r => multiunit_id r =? multiunit_id r0) l)))
     (property_avg l).
Proof.
  intro H. unfold property_avg.
  apply (in_map (fun id => (id, mean (map price (filter (fun r => multiunit_id r =? id) l))))).
  apply in_unit_keys. now apply in_map.
Qed.


(** C10.  Every row of the seasonal patterns stands for a unit and a month
    that occur in the data; its [price] is the mean price of the unit in
    that month, its [avg_price] the mean price of the unit, its
    [seasonal_index] the first divided by the second, [is_peak_season] is
    [seasonal_index > 1.1] and [is_low_season] is [seasonal_index < 0.9]. *)
Theorem seasonal_index_is_ratio df out r :
  detect_seasonal_patterns df = Ok out ->
  In r out ->
  s_price r = monthly_mean df (s_multiunit_id r) (s_month r)
  /\ avg_price r = overall_mean df (s_multiunit_id r)
  /\ seasonal_index r =
       fdiv (monthly_mean df (s_multiunit_id r) (s_month r))
            (overall_mean df (s_multiunit_id r))
  /\ is_peak_season r = fgtb (seasonal_index r) (Fin (11 # 10))
  /\ is_low_season r = fltb (seasonal_index r) (Fin (9 # 10))
  /\ exists r0, In r0 (rows df) /\ multiunit_id r0 = s_multiunit_id r
                /\ month (date r0) = s_month r.
Proof.
  unfold detect_seasonal_patterns.
  destruct (date_dtype df); [discriminate|].
  destruct (has_column c_price df); [|discriminate].
  intro H. inversion H; subst; clear H.
  unfold merge. intro Hr. apply in_flat_map in Hr.
  destruct Hr as [m [Hm Hr]]. apply in_map_iff in Hr.
  destruct Hr as [p [<- Hp]]. apply filter_In in Hp.
  destruct Hp as [Hp Hid]. apply Z.eqb_eq in Hid.
  apply in_monthly_avg in Hm. destruct Hm as [r0 [Hr0 [Ei [Em Hmean]]]].
  apply in_property_avg in Hp.
  destruct m as [[id mon] monthly]. cbn [fst snd] in *.
  unfold pattern_row, monthly_mean, overall_mean.
  cbn [s_price avg_price seasonal_index is_peak_season is_low_season
       s_multiunit_id s_month].
  rewrite Hp, Hid, Hmean.
  repeat split. exists r0. now repeat split.
Qed.


Lemma seasonal_index_is_ratio_witness :
  seasonal_index july_pattern =
    fdiv (monthly_mean two_seasons 7 7) (overall_mean two_seasons 7)
  /\ is_peak_season july_pattern = true
  /\ is_low_season july_pattern = false.
Proof.
  destruct (seasonal_index_is_ratio two_seasons
              [january_pattern; july_pattern] july_pattern)
    as [_ [_ [H1 [H2 H3]]]].
  - vm_compute. reflexivity.
  - simpl. right. left. reflexivity.
  - split; [exact H1|]. split; [exact H2|exact (proj1 H3)].
Defined.

Lemma every_month_has_a_row df r0 :
  date_dtype df = dt_datetime64 -> has_column c_price df = true ->
  In r0 (rows df) ->
  exists out r, detect_seasonal_patterns df = Ok out /\ In r out
     /\ s_multiunit_id r = multiunit_id r0 /\ s_month r = month (date r0).
Proof.
  intros Hd Hp Hr0. unfold detect_seasonal_patterns. rewrite Hd, Hp.
  eexists. eexists. split; [reflexivity|].
  split.
  - unfold merge. apply in_flat_map.
    exists (multiunit_id r0, month (date r0),
            mean (map price (filter (fun r => pair_eqb (multiunit_id r, month (date r)) (multiunit_id r0, month (date r0))) (rows df)))).
    split.
    + unfold monthly_avg.
      apply (in_map (fun k => (k, mean (map price (filter (fun r => pair_eqb (multiunit_id r, month (date r)) k) (rows df)))))).
      apply in_pair_keys.
      now apply (in_map (fun r => (multiunit_id r, month (date r)))).
    + apply in_map. apply filter_In. split.
      * apply (property_avg_has _ r0 Hr0).
      * cbn. apply Z.eqb_refl.
  - cbn. split; reflexivity.
Qed.

(* ------------------------------------------------------------------ *)
(** ** The frame the caller gave *)

Lemma to_datetime_of_timestamps (df : DataFrame) :
  date_dtype df = dt_datetime64 -> to_datetime df = df.
Proof. unfold to_datetime. now intros ->. Qed.

Lemma extrapolation_given_early (df : DataFrame) :
  returns_early df = true ->
  ex_given (extrapolate_prices_backward df) = to_datetime df
  /\ ex_result (extrapolate_prices_backward df) = Ok (to_datetime df).
Proof.
  unfold returns_early, extrapolate_prices_backward.
  rewrite rows_to_datetime. intros ->. now split.
Qed.

Lemma extrapolation_given_raised (df : DataFrame) (e : exn) :
  ex_result (extrapolate_prices_backward df) = Raise e ->
  ex_given (extrapolate_prices_backward df) = to_datetime df.
Proof.
  unfold extrapolate_prices_backward.
  destruct (match min_date (rows (to_datetime df)) with
            | Some d => d <=? target_start_date | None => false end);
    [reflexivity|].
  destruct (for_each _ _ _) as [st|e']; [|reflexivity].
  destruct (extrapolated_data st) as [|n0 data]; [|reflexivity].
  destruct (negb _); discriminate.
Qed.

Lemma extrapolation_given_synthesized (df : DataFrame) :
  ex_synthesized (extrapolate_prices_backward df) <> [] ->
  ex_given (extrapolate_prices_backward df) = to_datetime df.
Proof.
  unfold extrapolate_prices_backward.
  destruct (match min_date (rows (to_datetime df)) with
            | Some d => d <=? target_start_date | None => false end);
    [reflexivity|].
  destruct (for_each _ _ _) as [st|e']; [|reflexivity].
  destruct (extrapolated_data st) as [|n0 data]; [|reflexivity].
  destruct (negb _); cbn [ex_synthesized]; congruence.
Qed.

Lemma extrapolation_given_nothing (df out : DataFrame) :
  returns_early df = false ->
  ex_result (extrapolate_prices_backward df) = Ok out ->
  ex_synthesized (extrapolate_prices_backward df) = [] ->
  out = ex_given (extrapolate_prices_backward df)
  /\ ex_given (extrapolate_prices_backward df)
     = if has_column c_is_extrapolated df
       then to_datetime df
       else assign_column c_is_extrapolated (set_flag (Some false))
                          (to_datetime df).
Proof.
  unfold returns_early, extrapolate_prices_backward.
  rewrite rows_to_datetime. intros ->.
  destruct (for_each _ _ _) as [st|e']; [|discriminate].
  assert (F : has_column c_is_extrapolated (to_datetime df)
              = has_column c_is_extrapolated df).
  { unfold has_column. now rewrite columns_to_datetime. }
  destruct (extrapolated_data st) as [|n0 data].
  - rewrite F. destruct (has_column c_is_extrapolated df);
      cbn [negb ex_result ex_given]; intros R _; inversion R; now split.
  - cbn [ex_synthesized]. discriminate.
Qed.

Lemma flag_column_is_a_change (df : DataFrame) :
  has_column c_is_extrapolated df = false ->
  assign_column c_is_extrapolated (set_flag (Some false)) (to_datetime df)
  <> to_datetime df.
Proof.
  intros Hno E. apply (f_equal columns) in E.
  unfold assign_column, has_column in E. cbn [columns] in E.
  rewrite columns_to_datetime in E. unfold has_column in Hno.
  rewrite Hno in E. apply (f_equal (@List.length column)) in E.
  rewrite length_app in E. cbn in E. lia.
Qed.

Lemma totals_given_unchanged (df : DataFrame) :
  totals_given (calculate_total_price df) = df.
Proof.
  unfold calculate_total_price.
  now destruct (fold_left default_factor factor_columns (df, [])).
Qed.

Lemma matching_given (df : DataFrame) :
  mt_given (find_improved_matches df) = to_datetime df.
Proof.
  unfold find_improved_matches.
  destruct (filter _ (rows (to_datetime df))) as [|t ts]; [reflexivity|].
  destruct (filter _ (rows (to_datetime df))) as [|p ps]; [reflexivity|].
  destruct (for_each _ _ _) as [[|m ms]|e]; reflexivity.
Qed.

(** C7, as the code has it.  [calculate_total_price] works on a copy and
    leaves the frame it was given as it was.  The two other operations
    first turn a [date] column of strings into timestamps in the frame
    they were given (same rows, same labels; a frame that already holds
    timestamps is not changed by this), and [find_improved_matches]
    changes nothing else.  For [extrapolate_prices_backward], case by
    case: on the early return it changes nothing else and returns the
    frame it was given; when it raises and when it synthesized a record
    it changes nothing else; when it returns, not early, without a
    synthesized record, it returns the frame it was given, to which it
    has added the [is_extrapolated] label, false on every row, if the
    label was absent, and that is a change of the frame. *)
Theorem given_frame_after_the_call (df : DataFrame) :
  totals_given (calculate_total_price df) = df
  /\ mt_given (find_improved_matches df) = to_datetime df
  /\ (returns_early df = true ->
      ex_given (extrapolate_prices_backward df) = to_datetime df
      /\ ex_result (extrapolate_prices_backward df) = Ok (to_datetime df))
  /\ (forall e, ex_result (extrapolate_prices_backward df) = Raise e ->
      ex_given (extrapolate_prices_backward df) = to_datetime df)
  /\ (ex_synthesized (extrapolate_prices_backward df) <> [] ->
      ex_given (extrapolate_prices_backward df) = to_datetime df)
  /\ (returns_early df = false ->
      forall out,
        ex_result (extrapolate_prices_backward df) = Ok out ->
        ex_synthesized (extrapolate_prices_backward df) = [] ->
        out = ex_given (extrapolate_prices_backward df)
        /\ ex_given (extrapolate_prices_backward df)
           = if has_column c_is_extrapolated df
             then to_datetime df
             else assign_column c_is_extrapolated (set_flag (Some false))
                                (to_datetime df))
  /\ (has_column c_is_extrapolated df = false ->
      assign_column c_is_extrapolated (set_flag (Some false)) (to_datetime df)
      <> to_datetime df)
  /\ rows (to_datetime df) = rows df
  /\ columns (to_datetime df) = columns df
  /\ (date_dtype df = dt_datetime64 -> to_datetime df = df).
Proof.
  split; [apply totals_given_unchanged|].
  split; [apply matching_given|].
  split; [apply extrapolation_given_early|].
  split; [apply extrapolation_given_raised|].
  split; [apply extrapolation_given_synthesized|].
  split; [intros E out; now apply extrapolation_given_nothing|].
  split; [apply flag_column_is_a_change|].
  split; [apply rows_to_datetime|].
  split; [apply columns_to_datetime|].
  apply to_datetime_of_timestamps.
Qed.

Lemma given_frame_after_the_call_witness :
  mt_given (find_improved_matches with_events) = with_events
  /\ ex_given (extrapolate_prices_backward starts_in_2023) = starts_in_2023
  /\ ex_given (extrapolate_prices_backward two_wednesdays) = two_wednesdays
  /\ ex_given (extrapolate_prices_backward one_wednesday) = one_wednesday
  /\ ex_given (extrapolate_prices_backward no_dow)
     = assign_column c_is_extrapolated (set_flag (Some false)) no_dow.
Proof.
  split.
  { destruct (given_frame_after_the_call with_events)
      as [_ [H [_ [_ [_ [_ [_ [_ [_ T]]]]]]]]].
    rewrite H. apply T. reflexivity. }
  split.
  { destruct (given_frame_after_the_call starts_in_2023)
      as [_ [_ [H [_ [_ [_ [_ [_ [_ T]]]]]]]]].
    rewrite (proj1 (H eq_refl)). apply T. reflexivity. }
  split.
  { destruct (given_frame_after_the_call two_wednesdays)
      as [_ [_ [_ [H [_ [_ [_ [_ [_ T]]]]]]]]].
    rewrite (H UnboundLocalError); [apply T|vm_compute]; reflexivity. }
  split.
  { destruct (given_frame_after_the_call one_wednesday)
      as [_ [_ [_ [_ [H [_ [_ [_ [_ T]]]]]]]]].
    rewrite H; [apply T; reflexivity|vm_compute; discriminate]. }
  destruct (given_frame_after_the_call no_dow)
    as [_ [_ [_ [_ [_ [H [_ [_ [_ T]]]]]]]]].
  destruct (H eq_refl (ex_given (extrapolate_prices_backward no_dow)))
    as [_ G]; [vm_compute; reflexivity|vm_compute; reflexivity|].
  rewrite G. rewrite T by reflexivity. reflexivity.
Defined.

(** C7 as worded fails: a frame of timestamps with no [dow] label, in
    which nothing can be synthesized, comes out of the extrapolation with
    one more label. *)
Lemma given_frame_gets_flag_column :
  ~ (forall df,
       totals_given (calculate_total_price df) = df
       /\ ex_given (extrapolate_prices_backward df) = df
       /\ mt_given (find_improved_matches df) = df).
Proof.
  intro H. destruct (H no_dow) as [_ [E _]].
  apply (f_equal columns) in E. vm_compute in E. discriminate.
Qed.

(** The matcher too writes into the frame it was given when the dates are
    strings. *)
Lemma string_dates_converted_in_place :
  mt_given (find_improved_matches string_dates) <> string_dates.
Proof.
  intro E. apply (f_equal date_dtype) in E. vm_compute in E. discriminate.
Qed.

(* ------------------------------------------------------------------ *)
(** ** Further properties of the operations *)

Import WebUI Behaviour Cases.

Section SortMore.
Context {A : Type} (leb : A -> A -> bool).

Lemma insert_permutation (x : A) (l : list A) :
  Permutation (insert leb x l) (x :: l).
Proof.
  induction l as [|y l IH]; cbn; [reflexivity|].
  destruct (leb x y); [reflexivity|].
  rewrite IH. apply perm_swap.
Qed.

Lemma sort_permutation (l : list A) : Permutation (Frame.sort leb l) l.
Proof.
  induction l as [|x l IH]; cbn; [reflexivity|].
  rewrite insert_permutation. now constructor.
Qed.

Hypothesis leb_total : forall a b, leb a b = false -> leb b a = true.

Lemma insert_sorted (x : A) (l : list A) :
  Sorted (fun a b => leb a b = true) l ->
  Sorted (fun a b => leb a b = true) (insert leb x l).
Proof.
  induction l as [|y l IH]; intro S; cbn.
  - repeat constructor.
  - destruct (leb x y) eqn:E.
    + constructor; [assumption|]. now constructor.
    + inversion S as [|? ? S' Hd]; subst. constructor; [now apply IH|].
      destruct l as [|z l]; cbn.
      * constructor. now apply leb_total.
      * destruct (leb x z); constructor; [now apply leb_total|].
        now inversion Hd.
Qed.

Lemma sort_sorted (l : list A) :
  Sorted (fun a b => leb a b = true) (Frame.sort leb l).
Proof.
  induction l as [|x l IH]; cbn; [constructor|]. now apply insert_sorted.
Qed.
End SortMore.

Lemma by_unit_and_date_total a b :
  by_unit_and_date a b = false -> by_unit_and_date b a = true.
Proof.
  unfold by_unit_and_date. intro H.
  apply orb_false_iff in H. destruct H as [H1 H2].
  apply Z.ltb_ge in H1.
  destruct (multiunit_id a =? multiunit_id b) eqn:E.
  - apply Z.eqb_eq in E. cbn in H2. apply Z.leb_gt in H2.
    apply orb_true_iff. right. apply andb_true_iff.
    split; [apply Z.eqb_eq; lia|apply Z.leb_le; lia].
  - apply Z.eqb_neq in E. apply orb_true_iff. left. apply Z.ltb_lt. lia.
Qed.

Lemma date_range_NoDup a b : NoDup (date_range a b).
Proof.
  unfold date_range. apply Injective_map_NoDup; [|apply seq_NoDup].
  intros x y H. lia.
Qed.

Lemma in_date_range_iff d a b : In d (date_range a b) <-> a <= d <= b.
Proof.
  split; [apply in_date_range|]. intro H. unfold date_range.
  apply in_map_iff. exists (Z.to_nat (d - a)). split; [lia|].
  apply in_seq. lia.
Qed.

Lemma existsb_eqb_in x seen : existsb (Z.eqb x) seen = true <-> In x seen.
Proof.
  rewrite existsb_exists. split.
  - intros [y [Hy E]]. apply Z.eqb_eq in E. now subst.
  - intro H. exists x. split; [assumption|apply Z.eqb_refl].
Qed.

Lemma in_unique_from seen l x :
  In x (unique_from seen l) <-> In x l /\ ~ In x seen.
Proof.
  revert seen. induction l as [|y l IH]; intro seen; cbn; [tauto|].
  destruct (existsb (Z.eqb y) seen) eqn:E.
  - apply existsb_eqb_in in E. rewrite IH. split.
    + intros [H1 H2]. tauto.
    + intros [[->|H1] H2]; [contradiction|tauto].
  - assert (N : ~ In y seen).
    { intro H. apply existsb_eqb_in in H. congruence. }
    cbn. rewrite IH. cbn. split.
    + intros [->|[H1 H2]]; [tauto|]. split; [tauto|]. intro; apply H2. now right.
    + intros [[->|H1] H2]; [now left|].
      destruct (Z.eq_dec y x) as [->|D]; [now left|]. right.
      split; [assumption|]. intros [?|?]; [congruence|contradiction].
Qed.

Lemma unique_from_NoDup seen l : NoDup (unique_from seen l).
Proof.
  revert seen. induction l as [|y l IH]; intro seen; cbn; [constructor|].
  destruct (existsb (Z.eqb y) seen); [apply IH|].
  constructor; [|apply IH]. intro H. apply in_unique_from in H.
  destruct H as [_ H]. apply H. now left.
Qed.

Lemma in_unique l x : In x (unique l) <-> In x l.
Proof. unfold unique. rewrite in_unique_from. cbn. tauto. Qed.

Lemma unique_NoDup l : NoDup (unique l).
Proof. apply unique_from_NoDup. Qed.

Lemma extrapolate_date_cases cols group id st d st' :
  extrapolate_date cols group id st d = Ok st' ->
  (st' = st /\ (weekday_rows group d = [] \/ has c_dow cols = false))
  \/ (weekday_rows group d <> [] /\ has c_dow cols = true
      /\ st' = mkExState (snd (dow_and_closest (closest_date st)
                                               (weekday_rows group d)))
                         (extrapolated_data st
                          ++ [record_for cols group id d (closest_date st)])
                         (warnings st)).
Proof.
  rewrite extrapolate_date_unfold.
  destruct (weekday_rows group d) as [|m swd] eqn:E.
  { intro H. inversion H. left. split; [reflexivity|now left]. }
  destruct (has c_dow cols) eqn:Hdow.
  2:{ intro H. inversion H. left. split; [reflexivity|now right]. }
  intro H. right. split; [discriminate|]. split; [reflexivity|].
  unfold record_for. rewrite E.
  unfold try_body, factor_rule, price_rule, discount in *.
  cbn [n_base n_seasonality n_event n_multiunit_id n_date n_is_extrapolated] in H.
  destruct swd as [|m2 swd].
  - cbn [List.length Nat.leb argmin dow_and_closest snd] in *.
    destruct (copy_factor cols (exact_rows group d) c_base),
             (copy_factor cols (exact_rows group d) c_seasonality),
             (copy_factor cols (exact_rows group d) c_event);
      try destruct (has c_price cols && negb (isna (price m)));
      inversion H; reflexivity.
  - change ((2 <=? List.length (m :: m2 :: swd))%nat) with true in H.
    cbn [dow_and_closest snd] in *.
    destruct (copy_factor cols (exact_rows group d) c_base),
             (copy_factor cols (exact_rows group d) c_seasonality),
             (copy_factor cols (exact_rows group d) c_event);
      try (destruct (closest_date st) as [cd|];
           [destruct (has c_price cols && negb (isna (price cd)))|discriminate]);
      inversion H; reflexivity.
Qed.

Lemma in_unit_group df id r :
  In r (unit_group df id) <-> In r (rows df) /\ multiunit_id r = id.
Proof.
  unfold unit_group. rewrite in_sort, filter_In, Z.eqb_eq. tauto.
Qed.

Lemma in_weekday_rows group d r :
  In r (weekday_rows group d) <->
  In r group /\ dayofweek (date r) = dayofweek (add_years 1 d)
  /\ Z.abs (date r - add_years 1 d) <= 14.
Proof.
  unfold weekday_rows. rewrite filter_In, !andb_true_iff, Z.eqb_eq, !Z.leb_le.
  split; intros [H1 H2]; (split; [assumption|]); lia.
Qed.

Lemma record_for_keys cols group id d c :
  n_multiunit_id (record_for cols group id d c) = id
  /\ n_date (record_for cols group id d c) = d
  /\ n_is_extrapolated (record_for cols group id d c) = true.
Proof.
  unfold record_for. destruct (dow_and_closest c (weekday_rows group d)).
  now repeat split.
Qed.

Lemma dow_and_closest_in df id d c :
  (forall r, c = Some r -> In r (rows df)) ->
  forall r, snd (dow_and_closest c (weekday_rows (unit_group df id) d)) = Some r ->
            In r (rows df).
Proof.
  intros Hc r. unfold dow_and_closest.
  destruct (weekday_rows (unit_group df id) d) as [|m [|m2 l]] eqn:E;
    cbn [snd]; try apply Hc.
  intro H. inversion H; subst.
  assert (I : In r (weekday_rows (unit_group df id) d)) by (rewrite E; now left).
  apply in_weekday_rows in I. destruct I as [I _].
  now apply in_unit_group in I.
Qed.

Lemma extrapolate_date_invariant df id st d st' :
  run_invariant df st ->
  extrapolate_date (columns df) (unit_group df id) id st d = Ok st' ->
  run_invariant df st'.
Proof.
  intros [Hc Hd] H. apply extrapolate_date_cases in H.
  destruct H as [[-> _]|[Hne [Hdow ->]]]; [now split|].
  split; cbn [closest_date extrapolated_data].
  - now apply dow_and_closest_in.
  - intros n Hn. apply in_app_or in Hn. destruct Hn as [Hn|[<-|[]]];
      [now apply Hd|].
    exists (closest_date st).
    destruct (record_for_keys (columns df) (unit_group df id) id d
                              (closest_date st)) as [-> [-> _]].
    now repeat split.
Qed.

Lemma extrapolate_unit_invariant df st id st' :
  run_invariant df st ->
  extrapolate_unit df st id = Ok st' ->
  run_invariant df st'.
Proof.
  unfold extrapolate_unit. fold (unit_group df id).
  destruct (min_date (unit_group df id)) as [e|];
    [|intros H R; now inversion R; subst].
  destruct (e >? target_start_date); [|intros H R; now inversion R; subst].
  intros H R.
  refine (for_each_invariant _ (run_invariant df) _ _ st st' H R).
  intros s d s' _ Hs Hstep. now apply (extrapolate_date_invariant df id s d s').
Qed.

Lemma unit_group_to_datetime df id :
  unit_group (to_datetime df) id = unit_group df id.
Proof. unfold unit_group. now rewrite rows_to_datetime. Qed.

Lemma synthesized_as_to_datetime df n :
  synthesized_as (to_datetime df) n -> synthesized_as df n.
Proof.
  unfold synthesized_as, has_column.
  now rewrite rows_to_datetime, columns_to_datetime, unit_group_to_datetime.
Qed.

Lemma synthesized_described df n :
  In n (ex_synthesized (extrapolate_prices_backward df)) ->
  synthesized_as df n.
Proof.
  unfold extrapolate_prices_backward.
  destruct (match min_date (rows (to_datetime df)) with
            | Some d => d <=? target_start_date | None => false end);
    [intros []|].
  destruct (for_each _ _ _) as [st|e] eqn:R; [|intros []].
  destruct (extrapolated_data st) as [|n0 data] eqn:D; [intros []|].
  cbn [ex_synthesized]. intro Hn. apply synthesized_as_to_datetime.
  assert (I : run_invariant (to_datetime df) st).
  { refine (for_each_invariant _ (run_invariant (to_datetime df)) _ _ _ st _ R).
    - intros s id s' _ Hs Hstep.
      now apply (extrapolate_unit_invariant _ s id s').
    - split; [discriminate|intros ? []]. }
  apply (proj2 I). now rewrite D.
Qed.

(** X1.  Every synthesized record has a dow value.  When base,
    seasonality and event were all copied, its price is their sum with dow
    times 0.97; a price on a record that lacks one of them is 0.97 times
    the price, not missing, of some row of the input, in a frame that has
    the price label. *)
Theorem synthesized_price_rules df n :
  In n (ex_synthesized (extrapolate_prices_backward df)) ->
  exists w,
    n_dow n = Some w
    /\ (forall b s e,
          n_base n = Some b -> n_seasonality n = Some s ->
          n_event n = Some e ->
          n_price n = Some (fmul (fadd (fadd (fadd b s) w) e) (Fin (97 # 100))))
    /\ (forall p,
          n_price n = Some p ->
          n_base n = None \/ n_seasonality n = None \/ n_event n = None ->
          has_column c_price df = true
          /\ exists r, In r (rows df) /\ isna (price r) = false
                       /\ p = fmul (price r) (Fin (97 # 100))).
Proof.
  intro Hn. destruct (synthesized_described df n Hn) as [c [Hc [_ [_ E]]]].
  set (id := n_multiunit_id n) in *. set (d := n_date n) in *.
  unfold record_for in E.
  destruct (dow_and_closest c (weekday_rows (unit_group df id) d))
    as [w c'] eqn:Edc.
  assert (Hc' : forall r, c' = Some r -> In r (rows df)).
  { intros r Hr. apply (dow_and_closest_in df id d c Hc). now rewrite Edc. }
  exists w. rewrite E. cbn [n_dow n_base n_seasonality n_event n_price].
  unfold factor_rule, discount.
  split; [reflexivity|]. split.
  - intros b s e -> -> ->. reflexivity.
  - intros p Hp Hmiss.
    destruct (copy_factor (columns df) _ c_base),
             (copy_factor (columns df) _ c_seasonality),
             (copy_factor (columns df) _ c_event);
      try (destruct Hmiss as [?|[?|?]]; discriminate);
      (destruct c' as [cd|]; [|discriminate]);
      unfold price_rule, discount in Hp;
      (destruct (has c_price (columns df)) eqn:P; [|discriminate]);
      (destruct (isna (price cd)) eqn:N; [discriminate|]);
      cbn in Hp; inversion Hp; (split; [exact P|]);
      exists cd; (split; [now apply Hc'|]); now split.
Qed.

Lemma synthesized_price_rules_witness :
  exists w,
    n_dow second_synthesized = Some w
    /\ (forall b s e,
          n_base second_synthesized = Some b ->
          n_seasonality second_synthesized = Some s ->
          n_event second_synthesized = Some e ->
          n_price second_synthesized
          = Some (fmul (fadd (fadd (fadd b s) w) e) (Fin (97 # 100))))
    /\ (forall p,
          n_price second_synthesized = Some p ->
          n_base second_synthesized = None
          \/ n_seasonality second_synthesized = None
          \/ n_event second_synthesized = None ->
          has_column c_price one_wednesday = true
          /\ exists r, In r (rows one_wednesday) /\ isna (price r) = false
                       /\ p = fmul (price r) (Fin (97 # 100))).
Proof.
  apply (synthesized_price_rules one_wednesday second_synthesized).
  vm_compute. right. left. reflexivity.
Defined.

Lemma copy_factor_some cols group d c v :
  copy_factor cols (exact_rows group d) c = Some v ->
  has c cols = true
  /\ exists r, In r group /\ date r = add_years 1 d /\ cell c r = v.
Proof.
  unfold copy_factor.
  destruct (exact_rows group d) as [|r l] eqn:E; [discriminate|].
  destruct (has c cols); [|discriminate].
  intro H. inversion H. split; [reflexivity|]. exists r.
  assert (I : In r (exact_rows group d)) by (rewrite E; now left).
  unfold exact_rows in I. apply filter_In in I. destruct I as [I1 I2].
  apply Z.eqb_eq in I2. now repeat split.
Qed.

Lemma copy_factor_none cols group d c r :
  copy_factor cols (exact_rows group d) c = None ->
  has c cols = true -> In r group -> date r <> add_years 1 d.
Proof.
  unfold copy_factor. intros H Hc Hr E.
  assert (I : In r (exact_rows group d)).
  { unfold exact_rows. apply filter_In. split; [assumption|]. now apply Z.eqb_eq. }
  destruct (exact_rows group d); [contradiction|].
  rewrite Hc in H. discriminate.
Qed.

Lemma copy_factor_copied df c id d :
  copied_from_next_year df c id d
    (copy_factor (columns df) (exact_rows (unit_group df id) d) c).
Proof.
  split.
  - intros v H. apply copy_factor_some in H. destruct H as [Hc [r [Hr [Hd Hv]]]].
    apply in_unit_group in Hr. destruct Hr as [Hr Hid].
    split; [exact Hc|]. exists r. now repeat split.
  - intros H Hc r Hr Hid.
    apply (copy_factor_none _ _ _ _ r H Hc). now apply in_unit_group.
Qed.

(** X2.  Base, seasonality and event of a synthesized record are the
    cells of a record of the same unit exactly one year later, and are
    absent only when the unit has no record on that day (or the frame no
    such label).  Its dow is the dow of the one record of the unit on the
    same weekday within 14 days of that day, or the mean over them when
    there are several. *)
Theorem synthesized_factors_copied df n :
  In n (ex_synthesized (extrapolate_prices_backward df)) ->
  copied_from_next_year df c_base (n_multiunit_id n) (n_date n) (n_base n)
  /\ copied_from_next_year df c_seasonality (n_multiunit_id n) (n_date n)
                           (n_seasonality n)
  /\ copied_from_next_year df c_event (n_multiunit_id n) (n_date n)
                           (n_event n)
  /\ exists ws,
       ws <> []
       /\ (forall r, In r ws ->
             In r (rows df) /\ multiunit_id r = n_multiunit_id n
             /\ dayofweek (date r) = dayofweek (add_years 1 (n_date n))
             /\ Z.abs (date r - add_years 1 (n_date n)) <= 14)
       /\ (forall r, In r (rows df) -> multiunit_id r = n_multiunit_id n ->
             dayofweek (date r) = dayofweek (add_years 1 (n_date n)) ->
             Z.abs (date r - add_years 1 (n_date n)) <= 14 -> In r ws)
       /\ n_dow n = Some (match ws with
                          | [m] => dow m
                          | _ => mean (map dow ws)
                          end).
Proof.
  intro Hn. destruct (synthesized_described df n Hn) as [c [Hc [Hne [_ E]]]].
  set (id := n_multiunit_id n) in *. set (d := n_date n) in *.
  unfold record_for in E.
  destruct (dow_and_closest c (weekday_rows (unit_group df id) d))
    as [w c'] eqn:Edc.
  rewrite E. cbn [n_base n_seasonality n_event n_dow].
  split; [apply copy_factor_copied|].
  split; [apply copy_factor_copied|].
  split; [apply copy_factor_copied|].
  exists (weekday_rows (unit_group df id) d).
  split; [exact Hne|]. split; [|split].
  - intros r Hr. apply in_weekday_rows in Hr. destruct Hr as [Hr [H1 H2]].
    apply in_unit_group in Hr. destruct Hr as [Hr Hid]. now repeat split.
  - intros r Hr Hid H1 H2. apply in_weekday_rows. split; [|now split].
    now apply in_unit_group.
  - unfold dow_and_closest in Edc.
    destruct (weekday_rows (unit_group df id) d) as [|m [|m2 l]];
      inversion Edc; reflexivity.
Qed.

Lemma synthesized_factors_copied_witness :
  copied_from_next_year one_wednesday c_base 1 (days_from_civil 2024 1 8)
                        (Some (of_Z 100)).
Proof.
  apply (synthesized_factors_copied one_wednesday second_synthesized).
  vm_compute. right. left. reflexivity.
Defined.

Lemma extrapolate_date_keys cols group id st d st' :
  extrapolate_date cols group id st d = Ok st' ->
  keys st' = keys st \/ keys st' = keys st ++ [(id, d)].
Proof.
  intro H. apply extrapolate_date_cases in H.
  destruct H as [[-> _]|[_ [_ ->]]]; [now left|]. right.
  unfold keys. cbn [extrapolated_data]. rewrite map_app. cbn [map].
  unfold new_key.
  now destruct (record_for_keys cols group id d (closest_date st)) as [-> [-> _]].
Qed.

Lemma dates_loop_keys cols group id l : forall st st',
  NoDup l -> NoDup (keys st) ->
  (forall d, In d l -> ~ In (id, d) (keys st)) ->
  for_each (extrapolate_date cols group id) l st = Ok st' ->
  NoDup (keys st')
  /\ forall k, In k (keys st') -> In k (keys st) \/ (fst k = id /\ In (snd k) l).
Proof.
  induction l as [|a l IH]; intros st st' Hl Hk Hfresh R; cbn in R.
  - inversion R; subst. split; [assumption|]. intros k Hin. now left.
  - destruct (extrapolate_date cols group id st a) as [s1|e] eqn:E; [|discriminate].
    inversion Hl as [|? ? Ha Hl']; subst.
    assert (K1 : NoDup (keys s1)
                 /\ forall k, In k (keys s1) -> In k (keys st) \/ k = (id, a)).
    { destruct (extrapolate_date_keys _ _ _ _ _ _ E) as [->| ->].
      - split; [assumption|]. intros k Hin. now left.
      - split.
        + apply NoDup_app; [assumption|repeat constructor; intros []|].
          intros k Hin [<-|[]]. apply (Hfresh a); [now left|assumption].
        + intros k Hin. apply in_app_or in Hin.
          destruct Hin as [Hin|[<-|[]]]; [now left|now right]. }
    destruct K1 as [N1 S1].
    destruct (IH s1 st' Hl' N1) as [N S]; [|exact R|].
    + intros d Hd Hin. destruct (S1 _ Hin) as [Hin'|Heq].
      * apply (Hfresh d); [now right|assumption].
      * inversion Heq; subst. contradiction.
    + split; [assumption|]. intros k Hin.
      destruct (S k Hin) as [Hin'|[H1 H2]].
      * destruct (S1 k Hin') as [?| ->]; [now left|].
        right. cbn. split; [reflexivity|now left].
      * right. split; [assumption|now right].
Qed.

Lemma extrapolate_unit_keys df st id st' :
  NoDup (keys st) ->
  (forall d, ~ In (id, d) (keys st)) ->
  extrapolate_unit df st id = Ok st' ->
  NoDup (keys st')
  /\ forall k, In k (keys st') -> In k (keys st) \/ fst k = id.
Proof.
  unfold extrapolate_unit. intros Hk Hfresh.
  destruct (min_date _) as [e|];
    [|intro R; inversion R; subst; split; [assumption|now left]].
  destruct (e >? target_start_date);
    [|intro R; inversion R; subst; split; [assumption|now left]].
  intro R.
  destruct (dates_loop_keys _ _ _ _ _ _ (date_range_NoDup _ _) Hk
              (fun d _ => Hfresh d) R) as [N S].
  split; [assumption|]. intros k Hin. destruct (S k Hin) as [?|[? _]]; tauto.
Qed.

Lemma units_loop_keys df ids : forall st st',
  NoDup ids -> NoDup (keys st) ->
  (forall id d, In id ids -> ~ In (id, d) (keys st)) ->
  for_each (extrapolate_unit df) ids st = Ok st' ->
  NoDup (keys st').
Proof.
  induction ids as [|a ids IH]; intros st st' Hl Hk Hfresh R; cbn in R.
  - now inversion R; subst.
  - destruct (extrapolate_unit df st a) as [s1|e] eqn:E; [|discriminate].
    inversion Hl as [|? ? Ha Hl']; subst.
    destruct (extrapolate_unit_keys _ _ _ _ Hk
                (fun d => Hfresh a d (or_introl eq_refl)) E) as [N1 S1].
    apply (IH s1 st' Hl' N1); [|exact R].
    intros id d Hid Hin. destruct (S1 _ Hin) as [Hin'|Heq].
    + apply (Hfresh id d); [now right|assumption].
    + cbn in Heq. subst. contradiction.
Qed.

Lemma synthesized_keys_NoDup df :
  NoDup (map new_key (ex_synthesized (extrapolate_prices_backward df))).
Proof.
  unfold extrapolate_prices_backward.
  destruct (match min_date (rows (to_datetime df)) with
            | Some d => d <=? target_start_date | None => false end);
    [constructor|].
  destruct (for_each _ _ _) as [st|e] eqn:R; [|constructor].
  destruct (extrapolated_data st) as [|n0 data] eqn:D; [constructor|].
  cbn [ex_synthesized]. rewrite <- D.
  apply (units_loop_keys _ _ _ _ (unique_NoDup _)) in R;
    [exact R|constructor|intros id d _ []].
Qed.

Lemma map_key_fill_flag l : map row_key (map fill_flag l) = map row_key l.
Proof.
  rewrite map_map. apply map_ext. intro r. unfold fill_flag.
  now destruct (is_extrapolated r).
Qed.

Lemma map_key_reindex cols l : map row_key (map (reindex cols) l) = map row_key l.
Proof. rewrite map_map. now apply map_ext. Qed.

Lemma map_key_set_flag b l : map row_key (map (set_flag b) l) = map row_key l.
Proof. rewrite map_map. now apply map_ext. Qed.

Lemma map_key_row_of_new l : map row_key (map row_of_new l) = map new_key l.
Proof. rewrite map_map. now apply map_ext. Qed.

Lemma output_keys_permutation df out :
  ex_result (extrapolate_prices_backward df) = Ok out ->
  Permutation (map row_key (rows out))
              (map row_key (rows df)
               ++ map new_key (ex_synthesized (extrapolate_prices_backward df))).
Proof.
  unfold extrapolate_prices_backward.
  destruct (match min_date (rows (to_datetime df)) with
            | Some d => d <=? target_start_date | None => false end).
  { cbn. intros R. inversion R; subst.
    now rewrite rows_to_datetime, app_nil_r. }
  destruct (for_each _ _ _) as [st|e] eqn:F; [|discriminate].
  destruct (extrapolated_data st) as [|n0 data] eqn:D.
  - cbn. intros R. inversion R; subst. rewrite app_nil_r.
    destruct (negb _); cbn [rows assign_column]; rewrite rows_to_datetime;
      [now rewrite map_key_set_flag|reflexivity].
  - remember (n0 :: data) as synth eqn:Esynth. clear Esynth.
    cbn [ex_result ex_synthesized]. intros R. inversion R; subst. clear R.
    cbn [rows]. unfold concat.
    rewrite rows_to_datetime, columns_to_datetime.
    rewrite (Permutation_map row_key (sort_permutation by_unit_and_date _)).
    destruct (negb _); cbn [rows]; rewrite ?map_key_fill_flag;
      now rewrite map_app, map_key_reindex, map_key_row_of_new.
Qed.

(** X3.  When no two rows of the input share unit and date, no two rows of
    the frame the extrapolation returns do; and that frame has as many
    rows as the input plus the synthesized records. *)
Theorem output_keys_unique df out :
  NoDup (map row_key (rows df)) ->
  ex_result (extrapolate_prices_backward df) = Ok out ->
  NoDup (map row_key (rows out))
  /\ List.length (rows out)
     = (List.length (rows df)
        + List.length (ex_synthesized (extrapolate_prices_backward df)))%nat.
Proof.
  intros Hin R. pose proof (output_keys_permutation df out R) as P.
  split.
  - apply (Permutation_NoDup (Permutation_sym P)).
    apply NoDup_app; [assumption|apply synthesized_keys_NoDup|].
    intros k Hk Hk'. apply in_map_iff in Hk. destruct Hk as [r [<- Hr]].
    apply in_map_iff in Hk'. destruct Hk' as [n [E Hn]].
    apply synthesized_in_gap in Hn. destruct Hn as [_ [_ G]].
    unfold new_key, row_key in E. inversion E as [[E1 E2]].
    specialize (G r Hr (eq_sym E1)). lia.
  - apply Permutation_length in P.
    now rewrite !length_map, length_app, !length_map in P.
Qed.

Lemma output_keys_unique_witness :
  NoDup (map row_key (rows wednesday_frame))
  /\ List.length (rows wednesday_frame)
     = (List.length (rows one_wednesday)
        + List.length (ex_synthesized
                         (extrapolate_prices_backward one_wednesday)))%nat.
Proof.
  apply (output_keys_unique one_wednesday wednesday_frame).
  - repeat constructor. intros [].
  - vm_compute. reflexivity.
Defined.

(** X4.  A frame returned with synthesized records in it is sorted by unit
    and, within a unit, by date. *)
Theorem combined_frame_sorted df out :
  ex_result (extrapolate_prices_backward df) = Ok out ->
  ex_synthesized (extrapolate_prices_backward df) <> [] ->
  Sorted (fun a b => by_unit_and_date a b = true) (rows out).
Proof.
  unfold extrapolate_prices_backward.
  destruct (match min_date (rows (to_datetime df)) with
            | Some d => d <=? target_start_date | None => false end);
    [cbn; congruence|].
  destruct (for_each _ _ _) as [st|e] eqn:F; [|discriminate].
  destruct (extrapolated_data st) as [|n0 data] eqn:D; [cbn; congruence|].
  cbn [ex_result]. intros R _. inversion R; subst. cbn [rows].
  apply sort_sorted. exact by_unit_and_date_total.
Qed.

Lemma combined_frame_sorted_witness :
  Sorted (fun a b => by_unit_and_date a b = true) (rows wednesday_frame).
Proof.
  apply (combined_frame_sorted one_wednesday wednesday_frame).
  - vm_compute. reflexivity.
  - vm_compute. discriminate.
Defined.

Section ForEachMore.
Context {A S : Type} (body : S -> A -> result S).

Lemma for_each_unchanged (l : list A) (st : S) :
  (forall a, In a l -> body st a = Ok st) -> for_each body l st = Ok st.
Proof.
  induction l as [|a l IH]; intro H; cbn; [reflexivity|].
  rewrite (H a (or_introl eq_refl)). apply IH. intros x Hx. apply H. now right.
Qed.

Variable M : S -> S -> Prop.
Hypothesis M_refl : forall s, M s s.
Hypothesis M_trans : forall s1 s2 s3, M s1 s2 -> M s2 s3 -> M s1 s3.

Lemma for_each_respects (l : list A) :
  (forall s a s', In a l -> body s a = Ok s' -> M s s') ->
  forall st st', for_each body l st = Ok st' -> M st st'.
Proof.
  induction l as [|x l IH]; intros Hstep st st' R; cbn in R.
  - inversion R; subst. apply M_refl.
  - destruct (body st x) as [s1|e] eqn:E; [|discriminate].
    apply (M_trans st s1 st').
    + apply (Hstep st x s1); [now left|assumption].
    + apply IH; [|assumption]. intros s a s' Hin. apply Hstep. now right.
Qed.

(** In a loop that ends, the turn of every element was taken from some
    state, and what a relation that every turn respects links is linked
    from the start to that state and from the next to the end. *)
Lemma for_each_turn (l : list A) :
  (forall s a s', In a l -> body s a = Ok s' -> M s s') ->
  forall st st' a, for_each body l st = Ok st' -> In a l ->
    exists s s', body s a = Ok s' /\ M st s /\ M s' st'.
Proof.
  induction l as [|x l IH]; intros Hstep st st' a R Ha; [contradiction|].
  cbn in R. destruct (body st x) as [s1|e] eqn:E; [|discriminate].
  destruct Ha as [->|Ha].
  - exists st, s1. split; [assumption|]. split; [apply M_refl|].
    apply (for_each_respects l); [|assumption].
    intros s a0 s' Hin. apply Hstep. now right.
  - destruct (IH (fun s a0 s' Hin => Hstep s a0 s' (or_intror Hin)) s1 st' a R Ha)
      as [s [s' [B [M1 M2]]]].
    exists s, s'. split; [assumption|]. split; [|assumption].
    apply (M_trans st s1 s); [|assumption].
    apply (Hstep st x s1); [now left|assumption].
Qed.
End ForEachMore.

Lemma grows_refl s : grows s s.
Proof. apply incl_refl. Qed.

Lemma grows_trans s1 s2 s3 : grows s1 s2 -> grows s2 s3 -> grows s1 s3.
Proof. apply incl_tran. Qed.

Lemma extrapolate_date_grows cols group id s d s' :
  extrapolate_date cols group id s d = Ok s' -> grows s s'.
Proof.
  intro H. apply extrapolate_date_cases in H.
  destruct H as [[-> _]|[_ [_ ->]]]; [apply grows_refl|].
  unfold grows. cbn. now apply incl_appl, incl_refl.
Qed.

Lemma extrapolate_unit_grows df s id s' :
  extrapolate_unit df s id = Ok s' -> grows s s'.
Proof.
  unfold extrapolate_unit.
  destruct (min_date _) as [e|]; [|intro H; inversion H; apply grows_refl].
  destruct (e >? target_start_date); [|intro H; inversion H; apply grows_refl].
  apply (for_each_respects _ grows grows_refl grows_trans).
  intros s0 a s0' _. apply extrapolate_date_grows.
Qed.

Lemma min_date_in (l : list Row) (m : Z) :
  min_date l = Some m -> exists r, In r l /\ date r = m.
Proof.
  revert m. induction l as [|x l IH]; intros m H; cbn in H; [discriminate|].
  destruct (min_date l) as [m'|] eqn:E.
  - inversion H; subst. destruct (Z.min_spec (date x) m') as [[_ ->]|[_ ->]].
    + exists x. split; [now left|reflexivity].
    + destruct (IH m' eq_refl) as [r [Hr Hd]]. exists r. split; [now right|assumption].
  - inversion H; subst. exists x. split; [now left|reflexivity].
Qed.

Lemma min_date_some (l : list Row) : l <> [] -> exists m, min_date l = Some m.
Proof.
  destruct l as [|x l]; [congruence|]. intros _. cbn.
  destruct (min_date l); eauto.
Qed.

(** The test of line 44 on a frame all of whose dates are after the start
    date. *)
Lemma late_frame_not_returned_early (l : list Row) :
  (forall r, In r l -> target_start_date < date r) ->
  match min_date l with
  | Some d => d <=? target_start_date
  | None => false
  end = false.
Proof.
  intro H. destruct (min_date l) as [m|] eqn:E; [|reflexivity].
  destruct (min_date_in l m E) as [r [Hr <-]].
  apply Z.leb_gt. now apply H.
Qed.

(** X5.  In a run that returns, on a frame with the dow label whose dates
    are all after the start date: every day from the start date to the day
    before the first record of a unit that has, a year later, a record of
    the unit on the same weekday within 14 days, gets a synthesized record,
    and that record is in the returned frame. *)
Theorem candidate_with_weekday_record_is_synthesized df out r0 d :
  ex_result (extrapolate_prices_backward df) = Ok out ->
  (forall r, In r (rows df) -> target_start_date < date r) ->
  has_column c_dow df = true ->
  In r0 (rows df) ->
  target_start_date <= d ->
  (forall r, In r (rows df) -> multiunit_id r = multiunit_id r0 -> d < date r) ->
  weekday_rows (unit_group df (multiunit_id r0)) d <> [] ->
  exists n,
    In n (ex_synthesized (extrapolate_prices_backward df))
    /\ n_multiunit_id n = multiunit_id r0 /\ n_date n = d
    /\ In (row_of_new n) (rows out).
Proof.
  intros R Hlate Hdow Hr0 Hd Hfirst Hweek.
  assert (G : exists n, In n (ex_synthesized (extrapolate_prices_backward df))
                        /\ n_multiunit_id n = multiunit_id r0 /\ n_date n = d).
  { revert R. unfold extrapolate_prices_backward.
    rewrite rows_to_datetime, (late_frame_not_returned_early _ Hlate).
    destruct (for_each _ _ _) as [st|e] eqn:F; [|discriminate]. intros _.
    destruct (for_each_turn _ grows grows_refl grows_trans _
                (fun s a s' _ => extrapolate_unit_grows _ s a s')
                _ _ (multiunit_id r0) F) as [s [s' [B [_ M2]]]].
    { apply in_unique. now apply in_map. }
    unfold extrapolate_unit in B. fold (unit_group (to_datetime df) (multiunit_id r0)) in B.
    rewrite unit_group_to_datetime, columns_to_datetime in B.
    assert (I0 : In r0 (unit_group df (multiunit_id r0))).
    { now apply in_unit_group. }
    destruct (min_date_some (unit_group df (multiunit_id r0))) as [e E].
    { intro N. rewrite N in I0. contradiction. }
    rewrite E in B. destruct (min_date_in _ _ E) as [re [Hre Hdate]].
    apply in_unit_group in Hre. destruct Hre as [Hre Hreid].
    assert (L : (e >? target_start_date) = true).
    { apply Z.gtb_lt. rewrite <- Hdate. now apply Hlate. }
    rewrite L in B.
    destruct (for_each_turn _ grows grows_refl grows_trans _
                (fun s0 a s0' _ => extrapolate_date_grows _ _ _ s0 a s0')
                _ _ d B) as [u [u' [Bd [_ Md]]]].
    { apply in_date_range_iff. specialize (Hfirst re Hre Hreid). lia. }
    apply extrapolate_date_cases in Bd.
    destruct Bd as [[_ [W|W]]|[_ [_ ->]]].
    - contradiction.
    - unfold has_column in Hdow. congruence.
    - set (n := record_for (columns df) (unit_group df (multiunit_id r0))
                           (multiunit_id r0) d (closest_date u)) in *.
      assert (In n (extrapolated_data st)).
      { apply M2, Md. cbn. apply in_or_app. right. now left. }
      destruct (extrapolated_data st) as [|n0 data] eqn:D; [contradiction|].
      exists n. cbn [ex_synthesized]. split; [assumption|].
      subst n. destruct (record_for_keys (columns df)
                           (unit_group df (multiunit_id r0)) (multiunit_id r0) d
                           (closest_date u)) as [K1 [K2 _]].
      now split. }
  destruct G as [n [Hn [K1 K2]]]. exists n.
  split; [assumption|]. split; [assumption|]. split; [assumption|].
  now apply (proj1 (result_rows df out R)).
Qed.

Lemma candidate_with_weekday_record_is_synthesized_witness :
  exists n,
    In n (ex_synthesized (extrapolate_prices_backward one_wednesday))
    /\ n_multiunit_id n = multiunit_id wednesday_row
    /\ n_date n = days_from_civil 2024 1 1
    /\ In (row_of_new n) (rows wednesday_frame).
Proof.
  apply (candidate_with_weekday_record_is_synthesized one_wednesday
           wednesday_frame wednesday_row (days_from_civil 2024 1 1)).
  - vm_compute. reflexivity.
  - intros r [<-|[]]. vm_compute. reflexivity.
  - reflexivity.
  - simpl. left. reflexivity.
  - vm_compute. discriminate.
  - intros r [<-|[]] _. vm_compute. reflexivity.
  - vm_compute. discriminate.
Defined.

(** X6.  On a frame without the dow label nothing is synthesized, nothing
    is warned about and nothing is raised: the rows come back as they
    were, or each with the flag set to false. *)
Theorem nothing_synthesized_without_dow df :
  has_column c_dow df = false ->
  ex_synthesized (extrapolate_prices_backward df) = []
  /\ ex_warnings (extrapolate_prices_backward df) = []
  /\ exists out,
       ex_result (extrapolate_prices_backward df) = Ok out
       /\ (rows out = rows df
           \/ rows out = map (set_flag (Some false)) (rows df)).
Proof.
  intro Hdow. unfold extrapolate_prices_backward.
  destruct (match min_date (rows (to_datetime df)) with
            | Some d => d <=? target_start_date | None => false end).
  { cbn. split; [reflexivity|]. split; [reflexivity|].
    eexists. split; [reflexivity|]. left. apply rows_to_datetime. }
  rewrite for_each_unchanged.
  - cbn. split; [reflexivity|]. split; [reflexivity|].
    eexists. split; [reflexivity|].
    destruct (negb _); cbn [rows assign_column]; rewrite rows_to_datetime;
      [now right|now left].
  - intros id _. unfold extrapolate_unit.
    destruct (min_date _) as [e|]; [|reflexivity].
    destruct (e >? target_start_date); [|reflexivity].
    apply for_each_unchanged. intros d _.
    rewrite extrapolate_date_unfold, columns_to_datetime.
    unfold has_column in Hdow. rewrite Hdow.
    now destruct (weekday_rows _ d).
Qed.

Lemma nothing_synthesized_without_dow_witness :
  ex_synthesized (extrapolate_prices_backward no_dow) = []
  /\ ex_warnings (extrapolate_prices_backward no_dow) = []
  /\ exists out,
       ex_result (extrapolate_prices_backward no_dow) = Ok out
       /\ (rows out = rows no_dow
           \/ rows out = map (set_flag (Some false)) (rows no_dow)).
Proof.
  apply (nothing_synthesized_without_dow no_dow). reflexivity.
Defined.

Lemma has_fold_add c l acc :
  has c (fold_left (fun a x => if has x a then a else a ++ [x]) l acc)
  = has c acc || has c l.
Proof.
  revert acc. induction l as [|x l IH]; intro acc; cbn [fold_left].
  - cbn. now rewrite orb_false_r.
  - rewrite IH.
    change (has c (x :: l)) with (column_eqb c x || has c l).
    destruct (has x acc) eqn:E.
    + destruct (column_eqb c x) eqn:Ec; [|reflexivity].
      apply column_eqb_eq in Ec. subst. rewrite E. reflexivity.
    + rewrite has_snoc. now rewrite orb_assoc.
Qed.

Lemma new_columns_has_flag n data :
  has c_is_extrapolated (new_columns (n :: data)) = true.
Proof.
  unfold new_columns. rewrite has_fold_add. cbn. reflexivity.
Qed.

(** X7.  On a frame without the flag label whose dates are all after the
    start date, the returned frame has the label and no row with a missing
    flag: the flag is true on the synthesized records and false on the
    rows that have the unit and date of an input row. *)
Theorem every_row_flagged df out :
  has_column c_is_extrapolated df = false ->
  (forall r, In r (rows df) -> target_start_date < date r) ->
  ex_result (extrapolate_prices_backward df) = Ok out ->
  has_column c_is_extrapolated out = true
  /\ forall r, In r (rows out) ->
       (is_extrapolated r = Some true
        /\ exists n, In n (ex_synthesized (extrapolate_prices_backward df))
                     /\ r = row_of_new n)
       \/ (is_extrapolated r = Some false
           /\ exists r0, In r0 (rows df) /\ same_key r r0).
Proof.
  intros Hflag Hlate.
  pose proof (synthesized_in_gap df) as Hg. revert Hg.
  unfold extrapolate_prices_backward.
  rewrite rows_to_datetime, (late_frame_not_returned_early _ Hlate).
  assert (Hflag' : has_column c_is_extrapolated (to_datetime df) = false).
  { unfold has_column in *. now rewrite columns_to_datetime. }
  rewrite Hflag'. cbn [negb].
  destruct (for_each _ _ _) as [st|e] eqn:F; [|discriminate].
  destruct (extrapolated_data st) as [|n0 data] eqn:D.
  - cbn [ex_result ex_synthesized]. intros _ R. inversion R; subst. split.
    + unfold has_column, assign_column. cbn [columns]. rewrite Hflag'.
      rewrite has_snoc. cbn. now rewrite orb_true_r.
    + intros r Hr. right. cbn in Hr. rewrite rows_to_datetime in Hr.
      apply in_map_iff in Hr. destruct Hr as [r0 [<- Hr0]].
      split; [reflexivity|]. exists r0. now split.
  - pose proof (new_columns_has_flag n0 data) as Hnew.
    remember (n0 :: data) as synth eqn:Esynth. clear Esynth.
    cbn [ex_result ex_synthesized]. intros Hg R. inversion R; subst. split.
    + unfold has_column, concat. cbn [columns].
      rewrite has_fold_add, Hnew. apply orb_true_r.
    + cbn [rows]. unfold concat. cbn [rows].
      rewrite rows_to_datetime, columns_to_datetime.
      intros r Hr. apply in_sort in Hr. apply in_map_iff in Hr.
      destruct Hr as [x [<- Hx]]. apply in_app_or in Hx.
      destruct Hx as [Hx|Hx]; apply in_map_iff in Hx;
        destruct Hx as [y [<- Hy]].
      * right. unfold fill_flag, reindex. cbn [is_extrapolated].
        unfold has_column in Hflag. rewrite Hflag. cbn.
        split; [reflexivity|]. exists y. now split.
      * left. destruct (Hg y Hy) as [T _].
        split; [cbn; now rewrite T|].
        exists y. split; [assumption|]. reflexivity.
Qed.

Lemma every_row_flagged_witness :
  has_column c_is_extrapolated wednesday_frame = true.
Proof.
  apply (every_row_flagged one_wednesday wednesday_frame).
  - reflexivity.
  - intros r [<-|[]]. vm_compute. reflexivity.
  - vm_compute. reflexivity.
Defined.

Lemma closest_found target (l : list Row) d :
  closest target l = Some d ->
  exists r, In r l /\ date r = d
            /\ forall x, In x l -> Z.abs (d - target) <= Z.abs (date x - target).
Proof.
  unfold closest. destruct (argmin _ l) as [r|] eqn:E; [|discriminate].
  intro H. inversion H; subst. exists r.
  split; [now apply argmin_in in E|]. split; [reflexivity|].
  intros x Hx. apply (argmin_least _ _ _ E x Hx).
Qed.

Lemma event_tier_found pg t target d :
  event_tier pg target t = Some d ->
  found_by "event_match" pg t target d.
Proof.
  unfold event_tier. destruct (fgtb (event t) (of_Z 1)) eqn:Q; [|discriminate].
  intro H. apply closest_found in H. destruct H as [p [Hp [Hd Hmin]]].
  apply filter_In in Hp. destruct Hp as [Hp Hc].
  apply andb_true_iff in Hc. destruct Hc as [H1 H2].
  split; [intros _; exact Q|]. exists p.
  change (window_of "event_match") with 14.
  split; [assumption|]. split; [assumption|]. split; [assumption|].
  split; [exact H2|].
  intros x Hx W B. apply Hmin. apply filter_In. split; [assumption|].
  change (qualifies "event_match" target t x)
    with (fleb (fabs (fsub (event x) (event t))) (of_Z 20)) in B.
  now rewrite W, B.
Qed.

Lemma weekday_tier_found n reason pg t target d :
  (n = 14 /\ reason = "weekday_match_no_event"%string)
  \/ (n = 21 /\ reason = "weekday_match"%string) ->
  weekday_tier n pg target = Some d ->
  found_by reason pg t target d.
Proof.
  intros Hn H. unfold weekday_tier in H.
  apply closest_found in H. destruct H as [p [Hp [Hd Hmin]]].
  apply filter_In in Hp. destruct Hp as [Hp Hc].
  apply andb_true_iff in Hc. destruct Hc as [Hc H3].
  apply andb_true_iff in Hc. destruct Hc as [H1 H2].
  destruct Hn as [[-> ->]|[-> ->]].
  - split; [discriminate|]. exists p.
    change (window_of "weekday_match_no_event") with 14.
    change (qualifies "weekday_match_no_event" target t p)
      with (same_weekday target p && low_event p).
    split; [assumption|]. split; [assumption|]. split; [assumption|].
    split; [now rewrite H2, H3|].
    intros x Hx W B. apply Hmin. apply filter_In. split; [assumption|].
    change (qualifies "weekday_match_no_event" target t x)
      with (same_weekday target x && low_event x) in B.
    rewrite W. exact B.
  - split; [discriminate|]. exists p.
    change (window_of "weekday_match") with 21.
    change (qualifies "weekday_match" target t p)
      with (same_weekday target p && low_event p).
    split; [assumption|]. split; [assumption|]. split; [assumption|].
    split; [now rewrite H2, H3|].
    intros x Hx W B. apply Hmin. apply filter_In. split; [assumption|].
    change (qualifies "weekday_match" target t x)
      with (same_weekday target x && low_event x) in B.
    rewrite W. exact B.
Qed.

Lemma closest_tier_found pg t target d :
  closest_tier pg target = Some d ->
  found_by "closest_date" pg t target d.
Proof.
  unfold closest_tier. intro H.
  apply closest_found in H. destruct H as [p [Hp [Hd Hmin]]].
  apply filter_In in Hp. destruct Hp as [Hp Hc].
  split; [discriminate|]. exists p.
  change (window_of "closest_date") with 14.
  split; [assumption|]. split; [assumption|]. split; [assumption|].
  split; [reflexivity|].
  intros x Hx W _. apply Hmin. apply filter_In. now split.
Qed.

Lemma first_found_by pg t d reason :
  first_found (tiers pg t) = Some (d, reason) ->
  In reason tier_names /\ found_by reason pg t (add_years (-1) (date t)) d.
Proof.
  unfold tiers. cbn [first_found].
  destruct (event_tier pg _ t) as [d1|] eqn:E1.
  { intro H. inversion H; subst. split; [cbn; tauto|].
    now apply event_tier_found. }
  destruct (weekday_tier 14 pg _) as [d2|] eqn:E2.
  { intro H. inversion H; subst. split; [cbn; tauto|].
    apply (weekday_tier_found 14); [now left|assumption]. }
  destruct (weekday_tier 21 pg _) as [d3|] eqn:E3.
  { intro H. inversion H; subst. split; [cbn; tauto|].
    apply (weekday_tier_found 21); [now right|assumption]. }
  destruct (closest_tier pg _) as [d4|] eqn:E4; [|discriminate].
  intro H. inversion H; subst. split; [cbn; tauto|].
  now apply closest_tier_found.
Qed.

(** The records of a frame the matcher returns. *)
Lemma flat_map_all_nil {A B} (f : A -> list B) (l : list A) :
  (forall a, In a l -> f a = []) -> flat_map f l = [].
Proof.
  induction l as [|a l IH]; intro H; cbn; [reflexivity|].
  rewrite (H a (or_introl eq_refl)). apply IH. intros x Hx. apply H. now right.
Qed.

Lemma matches_with_event df :
  has_column c_event df = true ->
  exists out,
    mt_result (find_improved_matches df) = Ok out
    /\ matches out =
       map with_event_match
           (flat_map (unit_matches (columns df) (target_rows df) (past_rows df))
                     (unit_keys (map multiunit_id (target_rows df)))).
Proof.
  intro Hev. rewrite find_improved_matches_unfold.
  destruct (target_rows df) as [|t0 ts] eqn:Et.
  { eexists. split; reflexivity. }
  destruct (past_rows df) as [|p0 ps] eqn:Ep.
  { eexists. split; [reflexivity|]. rewrite flat_map_all_nil; [reflexivity|].
    intros id _. reflexivity. }
  rewrite <- Et, <- Ep.
  rewrite match_units_with_event by exact Hev. cbn [app].
  destruct (flat_map _ _) as [|m0 l]; [eexists; split; reflexivity|].
  rewrite Hev. eexists. split; reflexivity.
Qed.

Lemma matches_without_event df out :
  has_column c_event df = false ->
  mt_result (find_improved_matches df) = Ok out ->
  out = no_matches.
Proof.
  intros Hev. rewrite find_improved_matches_unfold.
  destruct (target_rows df) as [|t0 ts] eqn:Et; [intro H; now inversion H|].
  destruct (past_rows df) as [|p0 ps] eqn:Ep; [intro H; now inversion H|].
  rewrite <- Et, <- Ep.
  destruct (for_each _ _ _) as [acc|e] eqn:R; [|discriminate].
  assert (A : acc = []).
  { refine (for_each_invariant _ (fun a => a = []) _ _ [] acc eq_refl R).
    intros s id s' Hid Hs Hstep. subst s.
    apply (proj1 (in_unit_keys _ _)) in Hid.
    rewrite (match_unit_no_event _ _ _ _ _ Hev Hid) in Hstep.
    destruct (filter _ (past_rows df)); [now inversion Hstep|discriminate]. }
  subst acc. intro H. now inversion H.
Qed.

Lemma record_origin df out m :
  mt_result (find_improved_matches df) = Ok out ->
  In m (matches out) ->
  has_column c_event df = true /\ exists t, made_from df t m.
Proof.
  intros R Hm.
  destruct (has_column c_event df) eqn:Hev.
  2:{ rewrite (matches_without_event df out Hev R) in Hm. contradiction. }
  split; [reflexivity|].
  destruct (matches_with_event df Hev) as [out' [R' M]].
  rewrite R in R'. inversion R'; subst out'. rewrite M in Hm.
  apply in_map_iff in Hm. destruct Hm as [m' [<- Hm']].
  apply in_flat_map in Hm'. destruct Hm' as [id [_ Hm']].
  unfold unit_matches in Hm'.
  destruct (filter (fun r => multiunit_id r =? id) (past_rows df)) as [|h hs] eqn:Eh;
    [contradiction|].
  rewrite <- Eh in Hm'. apply in_flat_map in Hm'.
  destruct Hm' as [t [Ht Hm']]. apply filter_In in Ht.
  destruct Ht as [Ht Hid]. apply Z.eqb_eq in Hid. subst id.
  fold (history df t) in Hm'. unfold emitted in Hm'.
  destruct (first_found (tiers (history df t) t)) as [[d reason]|] eqn:F;
    [|contradiction].
  pose proof (improved_row_fields _ _ _ _ _ _ Hm') as [_ [_ [Hd [Hr _]]]].
  exists t. split; [assumption|]. exists m'. cbn [with_event_match matched_from match_reason].
  rewrite Hd, Hr. now repeat split.
Qed.

Lemma improved_row_source cols pg t d reason m :
  In m (improved_row cols pg t d reason) ->
  exists p, In p pg /\ date p = d
    /\ (forall x rest, filter (fun r => date r =? d) pg = x :: rest -> x = p)
    /\ m_price m = (if has c_price cols
                    then Some (fmul (price p) (Fin (103 # 100))) else None)
    /\ m_base m = copy_present cols p c_base
    /\ m_seasonality m = copy_present cols p c_seasonality
    /\ m_dow m = copy_present cols p c_dow
    /\ m_event m = copy_present cols p c_event.
Proof.
  unfold improved_row.
  destruct (filter (fun r => date r =? d) pg) as [|p l] eqn:E; [intros []|].
  intros [<-|[]]. exists p.
  assert (I : In p (filter (fun r => date r =? d) pg)) by (rewrite E; now left).
  apply filter_In in I. destruct I as [I1 I2]. apply Z.eqb_eq in I2.
  split; [assumption|]. split; [assumption|].
  split; [intros x rest H; now inversion H|].
  cbn. repeat split.
Qed.

Lemma in_history df t p :
  In p (history df t) <->
  In p (rows df) /\ date p < past_date_limit
  /\ multiunit_id p = multiunit_id t.
Proof.
  unfold history, past_rows. rewrite !filter_In, Z.ltb_lt, Z.eqb_eq. tauto.
Qed.

Lemma in_target_rows df t :
  In t (target_rows df) <->
  In t (rows df) /\ start_date <= date t <= end_date.
Proof.
  unfold target_rows. rewrite filter_In, andb_true_iff, !Z.leb_le. tauto.
Qed.

Lemma window_of_le reason : 14 <= window_of reason <= 21.
Proof. unfold window_of. destruct (String.eqb reason _); lia. Qed.

Lemma window_of_14 reason :
  reason <> "weekday_match"%string -> window_of reason = 14.
Proof.
  intro H. unfold window_of.
  destruct (String.eqb reason "weekday_match") eqn:E; [|reflexivity].
  apply String.eqb_eq in E. contradiction.
Qed.

(** X8.  In every match, [days_diff] is the distance in days between
    [matched_from] and the date one year before the target; it is at most
    21, and at most 14 unless the rule is the 21-day weekday search. *)
Theorem days_diff_exact_and_bounded df out m :
  mt_result (find_improved_matches df) = Ok out ->
  In m (matches out) ->
  days_diff m = Z.abs (matched_from m - add_years (-1) (m_date m))
  /\ 0 <= days_diff m <= 21
  /\ (match_reason m <> "weekday_match"%string -> days_diff m <= 14).
Proof.
  intros R Hm. destruct (record_origin df out m R Hm) as [_ [t [Ht [m' [F [Hm' ->]]]]]].
  pose proof (improved_row_fields _ _ _ _ _ _ Hm') as [_ [Hdate [Hd [Hr [Hdiff _]]]]].
  cbn [with_event_match days_diff matched_from m_date match_reason] in *.
  apply first_found_by in F. destruct F as [_ [_ [p [_ [Hp [W _]]]]]].
  unfold within in W. apply Z.leb_le in W.
  rewrite Hdiff, Hdate. split; [reflexivity|].
  rewrite Hp in W. pose proof (window_of_le (match_reason m')).
  pose proof (Z.abs_nonneg (matched_from m' - add_years (-1) (date t))).
  split; [lia|]. intro N. rewrite (window_of_14 _ N) in W. lia.
Qed.

Lemma days_diff_exact_and_bounded_witness :
  days_diff june_match
  = Z.abs (matched_from june_match - add_years (-1) (m_date june_match))
  /\ 0 <= days_diff june_match <= 21
  /\ (match_reason june_match <> "weekday_match"%string ->
      days_diff june_match <= 14).
Proof.
  apply (days_diff_exact_and_bounded with_events june_matches june_match).
  - vm_compute. reflexivity.
  - simpl. left. reflexivity.
Defined.

(** X9.  Every match stands for a row of the input dated as the match and
    was taken from a row of the same unit dated [matched_from], before the
    past boundary: its price is 1.03 times the price of that row when the
    frame has prices, and its factors are the cells of that row that are
    not missing. *)
Theorem match_copied_from_history df out m :
  mt_result (find_improved_matches df) = Ok out ->
  In m (matches out) ->
  exists t p,
    In t (rows df) /\ In p (rows df)
    /\ multiunit_id t = m_multiunit_id m /\ date t = m_date m
    /\ multiunit_id p = m_multiunit_id m /\ date p = matched_from m
    /\ date p < past_date_limit
    /\ is_improved_match m = true
    /\ m_price m = (if has_column c_price df
                    then Some (fmul (price p) (Fin (103 # 100))) else None)
    /\ m_base m = copy_present (columns df) p c_base
    /\ m_seasonality m = copy_present (columns df) p c_seasonality
    /\ m_dow m = copy_present (columns df) p c_dow
    /\ m_event m = copy_present (columns df) p c_event.
Proof.
  intros R Hm. destruct (record_origin df out m R Hm) as [_ [t [Ht [m' [F [Hm' ->]]]]]].
  pose proof (improved_row_fields _ _ _ _ _ _ Hm') as [Hid [Hdate [_ [_ [_ [Himp _]]]]]].
  cbn [with_event_match matched_from match_reason] in Hm'.
  destruct (improved_row_source _ _ _ _ _ _ Hm')
    as [p [Hp [Hd [_ [P1 [P2 [P3 [P4 P5]]]]]]]].
  apply in_history in Hp. destruct Hp as [Hp [Hpast Hpid]].
  apply in_target_rows in Ht. destruct Ht as [Ht _].
  exists t, p. cbn [with_event_match m_multiunit_id m_date matched_from
                    is_improved_match m_price m_base m_seasonality m_dow m_event].
  unfold has_column.
  repeat split; try assumption; try congruence.
Qed.

Lemma match_copied_from_history_witness :
  exists t p,
    In t (rows with_events) /\ In p (rows with_events)
    /\ multiunit_id t = m_multiunit_id june_match
    /\ date t = m_date june_match
    /\ multiunit_id p = m_multiunit_id june_match
    /\ date p = matched_from june_match
    /\ date p < past_date_limit
    /\ is_improved_match june_match = true
    /\ m_price june_match
       = (if has_column c_price with_events
          then Some (fmul (price p) (Fin (103 # 100))) else None)
    /\ m_base june_match = copy_present (columns with_events) p c_base
    /\ m_seasonality june_match
       = copy_present (columns with_events) p c_seasonality
    /\ m_dow june_match = copy_present (columns with_events) p c_dow
    /\ m_event june_match = copy_present (columns with_events) p c_event.
Proof.
  apply (match_copied_from_history with_events june_matches june_match).
  - vm_compute. reflexivity.
  - simpl. left. reflexivity.
Defined.

(** X10.  The reason of a match is one of the four rule names, the
    [event_match] column says whether it is the event rule, and the row
    matched satisfies what the rule asks: an event within 20 of the
    target's (whose own event exceeds 1) for the event rule, the weekday of
    the target date and a low or missing event for the two weekday rules. *)
Theorem reason_names_the_rule_that_holds df out m :
  mt_result (find_improved_matches df) = Ok out ->
  In m (matches out) ->
  In (match_reason m) tier_names
  /\ event_match m = Some (String.eqb (match_reason m) "event_match")
  /\ exists t p,
       In t (rows df) /\ multiunit_id t = m_multiunit_id m
       /\ date t = m_date m
       /\ In p (history df t) /\ date p = matched_from m
       /\ qualifies (match_reason m) (add_years (-1) (m_date m)) t p = true
       /\ (match_reason m = "event_match"%string ->
           fgtb (event t) (of_Z 1) = true).
Proof.
  intros R Hm. destruct (record_origin df out m R Hm) as [_ [t [Ht [m' [F [Hm' ->]]]]]].
  pose proof (improved_row_fields _ _ _ _ _ _ Hm') as [Hid [Hdate [_ [_ _]]]].
  cbn [with_event_match matched_from match_reason m_multiunit_id m_date
       event_match] in *.
  apply first_found_by in F. destruct F as [Hn [Hq [p [Hp [Hd [_ [Q _]]]]]]].
  apply in_target_rows in Ht. destruct Ht as [Ht _].
  split; [assumption|]. split; [reflexivity|].
  exists t, p. rewrite Hdate.
  split; [assumption|]. split; [congruence|]. split; [reflexivity|].
  split; [assumption|]. split; [assumption|]. split; [assumption|exact Hq].
Qed.

Lemma reason_names_the_rule_that_holds_witness :
  In (match_reason june_match) tier_names
  /\ event_match june_match
     = Some (String.eqb (match_reason june_match) "event_match")
  /\ exists t p,
       In t (rows with_events)
       /\ multiunit_id t = m_multiunit_id june_match
       /\ date t = m_date june_match
       /\ In p (history with_events t) /\ date p = matched_from june_match
       /\ qualifies (match_reason june_match)
                    (add_years (-1) (m_date june_match)) t p = true
       /\ (match_reason june_match = "event_match"%string ->
           fgtb (event t) (of_Z 1) = true).
Proof.
  apply (reason_names_the_rule_that_holds with_events june_matches june_match).
  - vm_compute. reflexivity.
  - simpl. left. reflexivity.
Defined.

(** X11.  No historical row of the unit that satisfies the condition of
    the rule that made a match is nearer to the target date than the row
    matched; for the closest-date rule, no historical row of the unit at
    all. *)
Theorem matched_record_is_nearest df out m :
  mt_result (find_improved_matches df) = Ok out ->
  In m (matches out) ->
  exists t,
    In t (rows df) /\ multiunit_id t = m_multiunit_id m /\ date t = m_date m
    /\ forall x, In x (rows df) -> multiunit_id x = m_multiunit_id m ->
         date x < past_date_limit ->
         qualifies (match_reason m) (add_years (-1) (m_date m)) t x = true ->
         days_diff m <= Z.abs (date x - add_years (-1) (m_date m)).
Proof.
  intros R Hm. destruct (record_origin df out m R Hm) as [_ [t [Ht [m' [F [Hm' ->]]]]]].
  pose proof (improved_row_fields _ _ _ _ _ _ Hm') as [Hid [Hdate [_ [_ [Hdiff _]]]]].
  cbn [with_event_match matched_from match_reason m_multiunit_id m_date
       days_diff] in *.
  apply first_found_by in F. destruct F as [_ [_ [p [_ [Hd [W [_ Hmin]]]]]]].
  apply in_target_rows in Ht. destruct Ht as [Ht _].
  exists t. rewrite Hdate, Hdiff.
  split; [assumption|]. split; [congruence|]. split; [reflexivity|].
  intros x Hx Hxid Hpast Q.
  destruct (within (window_of (match_reason m')) (add_years (-1) (date t)) x)
    eqn:Wx.
  - apply Hmin; [|assumption|assumption].
    apply in_history. repeat split; [assumption|assumption|congruence].
  - unfold within in *. apply Z.leb_le in W. apply Z.leb_gt in Wx.
    rewrite Hd in W. lia.
Qed.

Lemma matched_record_is_nearest_witness :
  exists t,
    In t (rows with_events)
    /\ multiunit_id t = m_multiunit_id june_match
    /\ date t = m_date june_match
    /\ forall x, In x (rows with_events) ->
         multiunit_id x = m_multiunit_id june_match ->
         date x < past_date_limit ->
         qualifies (match_reason june_match)
                   (add_years (-1) (m_date june_match)) t x = true ->
         days_diff june_match
         <= Z.abs (date x - add_years (-1) (m_date june_match)).
Proof.
  apply (matched_record_is_nearest with_events june_matches june_match).
  - vm_compute. reflexivity.
  - simpl. left. reflexivity.
Defined.

Section Raises.
Context {A S : Type} (body : S -> A -> result S).

Lemma for_each_raises (Q : exn -> Prop) (l : list A) :
  (forall s a e, In a l -> body s a = Raise e -> Q e) ->
  forall st e, for_each body l st = Raise e -> Q e.
Proof.
  induction l as [|a l IH]; intros H st e R; cbn in R; [discriminate|].
  destruct (body st a) as [s1|e1] eqn:E.
  - apply (IH (fun s x e' Hx => H s x e' (or_intror Hx)) s1 e R).
  - inversion R; subst. apply (H st a e (or_introl eq_refl) E).
Qed.
End Raises.

Lemma match_units_raise_no_event cols targets past ids acc e :
  has c_event cols = false ->
  (forall x, In x ids -> In x (map multiunit_id targets)) ->
  for_each (match_unit cols targets past) ids acc = Raise e ->
  exists id, In id ids /\ filter (fun r => multiunit_id r =? id) past <> [].
Proof.
  intro H. revert acc. induction ids as [|x ids IH]; intros acc Hsub R;
    cbn [for_each] in R; [discriminate|].
  rewrite (match_unit_no_event _ _ _ _ _ H (Hsub x (or_introl eq_refl))) in R.
  destruct (filter (fun r => multiunit_id r =? x) past) as [|p pg] eqn:E.
  - destruct (IH acc (fun y Hy => Hsub y (or_intror Hy)) R) as [id [Hid Hne]].
    exists id. split; [now right|assumption].
  - exists x. split; [now left|]. rewrite E. discriminate.
Qed.

Lemma raises_with_target_and_history df :
  has_column c_event df = false ->
  unit_with_target_and_history df ->
  mt_result (find_improved_matches df) = Raise (KeyError c_event).
Proof.
  intros Hev [t [p [Ht [Hw [Hp [Hpast Hid]]]]]].
  assert (It : In t (target_rows df)) by now apply in_target_rows.
  assert (Ip : In p (history df t)) by now apply in_history.
  rewrite find_improved_matches_unfold.
  destruct (target_rows df) as [|t0 ts] eqn:Et; [contradiction|].
  assert (Ipr : In p (past_rows df)).
  { apply filter_In. split; [assumption|]. now apply Z.ltb_lt. }
  destruct (past_rows df) as [|p0 ps] eqn:Ep; [contradiction|].
  rewrite <- Et, <- Ep in *.
  rewrite (match_units_no_event _ _ _ _ _ (multiunit_id t) Hev); [reflexivity| | |].
  - intros x Hx. exact (proj1 (in_unit_keys _ _) Hx).
  - apply in_unit_keys. now apply in_map.
  - intro E. unfold history in Ip. rewrite E in Ip. contradiction.
Qed.

(** X12.  On a frame without the event label the matcher never returns a
    record: it returns the empty frame when no unit has both a row in the
    forecast window and a row before the past boundary, and raises
    [KeyError] for the label exactly when some unit has both. *)
Theorem no_record_without_event_column df :
  has_column c_event df = false ->
  (mt_result (find_improved_matches df) = Ok no_matches
   /\ ~ unit_with_target_and_history df)
  \/ (mt_result (find_improved_matches df) = Raise (KeyError c_event)
      /\ unit_with_target_and_history df).
Proof.
  intro Hev.
  destruct (mt_result (find_improved_matches df)) as [out|e] eqn:R.
  - left. split; [now rewrite (matches_without_event df out Hev R)|].
    intro U. rewrite (raises_with_target_and_history df Hev U) in R.
    discriminate.
  - right. revert R. rewrite find_improved_matches_unfold.
    destruct (target_rows df) as [|t0 ts] eqn:Et; [discriminate|].
    destruct (past_rows df) as [|p0 ps] eqn:Ep; [discriminate|].
    rewrite <- Et, <- Ep.
    destruct (for_each _ _ _) as [[|m l]|e'] eqn:F;
      [discriminate|destruct (has_column c_event df); discriminate|].
    intro H. inversion H; subst e'. split.
    + f_equal.
      refine (for_each_raises _ (fun x => x = KeyError c_event) _ _ _ _ F).
      intros s id x Hid Hstep.
      apply (proj1 (in_unit_keys _ _)) in Hid.
      rewrite (match_unit_no_event _ _ _ _ _ Hev Hid) in Hstep.
      destruct (filter _ (past_rows df)); [discriminate|now inversion Hstep].
    + apply match_units_raise_no_event in F;
        [|exact Hev|intros x Hx; exact (proj1 (in_unit_keys _ _) Hx)].
      destruct F as [id [Hid Hne]].
      apply (proj1 (in_unit_keys _ _)) in Hid. apply in_map_iff in Hid.
      destruct Hid as [t [Htid Ht]].
      destruct (filter (fun r => multiunit_id r =? id) (past_rows df))
        as [|p pg] eqn:E; [congruence|].
      assert (Ip : In p (filter (fun r => multiunit_id r =? id) (past_rows df)))
        by (rewrite E; now left).
      apply filter_In in Ip. destruct Ip as [Ip Hpid]. apply Z.eqb_eq in Hpid.
      apply filter_In in Ip. destruct Ip as [Ip Hpast]. apply Z.ltb_lt in Hpast.
      apply in_target_rows in Ht. destruct Ht as [Ht Hw].
      exists t, p. repeat split; try assumption; try lia; congruence.
Qed.

Lemma no_record_without_event_column_witness :
  (mt_result (find_improved_matches no_event) = Ok no_matches
   /\ ~ unit_with_target_and_history no_event)
  \/ (mt_result (find_improved_matches no_event) = Raise (KeyError c_event)
      /\ unit_with_target_and_history no_event).
Proof.
  apply (no_record_without_event_column no_event). reflexivity.
Defined.

(** X13.  On a frame with the event label the matcher always returns a
    frame, and the [event_match] column is there exactly when the frame
    has a record. *)
Theorem matcher_returns_with_event_column df :
  has_column c_event df = true ->
  exists out,
    mt_result (find_improved_matches df) = Ok out
    /\ (has_event_match out = true <-> matches out <> []).
Proof.
  intro Hev. rewrite find_improved_matches_unfold.
  destruct (target_rows df) as [|t0 ts] eqn:Et.
  { eexists. split; [reflexivity|]. cbn. split; [discriminate|congruence]. }
  destruct (past_rows df) as [|p0 ps] eqn:Ep.
  { eexists. split; [reflexivity|]. cbn. split; [discriminate|congruence]. }
  rewrite <- Et, <- Ep.
  rewrite match_units_with_event by exact Hev. cbn [app].
  destruct (flat_map _ _) as [|m0 l].
  { eexists. split; [reflexivity|]. cbn. split; [discriminate|congruence]. }
  rewrite Hev. eexists. split; [reflexivity|]. cbn. split; [discriminate|reflexivity].
Qed.

Lemma matcher_returns_with_event_column_witness :
  exists out,
    mt_result (find_improved_matches with_events) = Ok out
    /\ (has_event_match out = true <-> matches out <> []).
Proof.
  apply (matcher_returns_with_event_column with_events). reflexivity.
Defined.

Lemma calculate_total_price_frame df :
  totals_result (calculate_total_price df)
  = mkDF (date_dtype df)
         (with_label (columns df ++ absent_factors df) c_total_price)
         (map (with_total df) (rows df))
  /\ totals_warned (calculate_total_price df) = absent_factors df.
Proof.
  pose proof (calculate_total_price_rows df) as Hrows. revert Hrows.
  unfold calculate_total_price, absent_factors, factor_columns, with_label.
  cbn [fold_left filter]. destruct df as [dt cols rs].
  cbv beta iota zeta delta [default_factor has_column assign_column columns
                            rows date_dtype negb].
  destruct (has c_base cols) eqn:Hb; cbv beta iota;
    rewrite ?has_snoc, ?Hb; cbn [column_eqb]; rewrite ?orb_false_r;
    destruct (has c_seasonality cols) eqn:Hs; cbv beta iota;
    rewrite ?has_snoc, ?Hb, ?Hs; cbn [column_eqb]; rewrite ?orb_false_r;
    destruct (has c_dow cols) eqn:Hd; cbv beta iota;
    rewrite ?has_snoc, ?Hb, ?Hs, ?Hd; cbn [column_eqb]; rewrite ?orb_false_r;
    destruct (has c_event cols) eqn:He; cbv beta iota;
    cbn [totals_result totals_warned rows app];
    rewrite ?app_nil_r, <- ?app_assoc; cbn [app];
    intros ->; split; reflexivity.
Qed.

Lemma has_with_label c cols x :
  has c (with_label cols x) = has c cols || column_eqb c x.
Proof.
  unfold with_label. destruct (has x cols) eqn:E; [|apply has_snoc].
  destruct (column_eqb c x) eqn:Ec; [|now rewrite orb_false_r].
  apply column_eqb_eq in Ec. subst. now rewrite E.
Qed.

Lemma has_app c l1 l2 : has c (l1 ++ l2) = has c l1 || has c l2.
Proof. unfold has. apply existsb_app. Qed.

Lemma factor_present_after df c :
  In c factor_columns ->
  has c (columns df ++ absent_factors df) = true.
Proof.
  intro Hc. rewrite has_app. destruct (has c (columns df)) eqn:E; [reflexivity|].
  cbn [orb]. unfold absent_factors, has. apply existsb_exists. exists c.
  split; [|now apply column_eqb_eq].
  apply filter_In. split; [assumption|]. unfold has_column. now rewrite E.
Qed.

Lemma with_total_fixed res r :
  has_column c_base res = true -> has_column c_seasonality res = true ->
  has_column c_dow res = true -> has_column c_event res = true ->
  total_price r = sum_factors r ->
  with_total res r = r.
Proof.
  intros Hb Hs Hd He Ht. unfold with_total, factor_or_zero.
  rewrite Hb, Hs, Hd, He. destruct r as [i d b s w e p t f].
  cbn in *. now rewrite Ht.
Qed.

Lemma with_total_sum df r :
  total_price (with_total df r) = sum_factors (with_total df r).
Proof. reflexivity. Qed.

(** X14.  Adding the totals to a frame that already went through
    [calculate_total_price] gives the same frame again, and warns about no
    label. *)
Theorem calculate_total_price_idempotent df :
  totals_result (calculate_total_price (totals_result (calculate_total_price df)))
  = totals_result (calculate_total_price df)
  /\ totals_warned
       (calculate_total_price (totals_result (calculate_total_price df))) = [].
Proof.
  destruct (calculate_total_price_frame df) as [E _].
  set (res := totals_result (calculate_total_price df)) in *.
  destruct (calculate_total_price_frame res) as [E2 W2].
  assert (F : forall c, In c factor_columns -> has_column c res = true).
  { intros c Hc. unfold has_column. rewrite E. cbn [columns].
    rewrite has_with_label, factor_present_after by assumption. reflexivity. }
  assert (A : absent_factors res = []).
  { unfold absent_factors, factor_columns.
    cbn [filter]. rewrite !F by (cbn; tauto). reflexivity. }
  rewrite W2, A. split; [|reflexivity].
  rewrite E2, A, app_nil_r.
  assert (T : has c_total_price (columns res) = true).
  { rewrite E. cbn [columns]. rewrite has_with_label. cbn. apply orb_true_r. }
  unfold with_label at 1. rewrite T.
  assert (R : map (with_total res) (rows res) = rows res).
  { rewrite E at 2 3. cbn [rows]. rewrite map_map. apply map_ext. intro r.
    apply with_total_fixed; try (apply F; cbn; tauto). apply with_total_sum. }
  rewrite R. now destruct res.
Qed.

Lemma Forall2_map_same {A B} (R : A -> B -> Prop) (f : A -> B) (l : list A) :
  (forall x, R x (f x)) -> Forall2 R l (map f l).
Proof. intro H. induction l; cbn; constructor; auto. Qed.

(** X15.  The frame with the totals has the dtype of the input, its labels
    followed by the factor labels it lacked and by [total_price], and its
    rows in the same order with unit, date, price, flag and the factors it
    had unchanged; the labels warned about are the factor labels it
    lacked, once each, in the order base, seasonality, dow, event. *)
Theorem aggregated_frame_shape df :
  date_dtype (totals_result (calculate_total_price df)) = date_dtype df
  /\ columns (totals_result (calculate_total_price df))
     = with_label (columns df ++ absent_factors df) c_total_price
  /\ totals_warned (calculate_total_price df) = absent_factors df
  /\ List.length (rows (totals_result (calculate_total_price df)))
     = List.length (rows df)
  /\ Forall2 (fun r r' =>
                multiunit_id r' = multiunit_id r /\ date r' = date r
                /\ price r' = price r
                /\ is_extrapolated r' = is_extrapolated r
                /\ forall c, In c factor_columns ->
                     has_column c df = true -> cell c r' = cell c r)
             (rows df) (rows (totals_result (calculate_total_price df))).
Proof.
  destruct (calculate_total_price_frame df) as [E W]. rewrite E, W.
  cbn [date_dtype columns rows].
  split; [reflexivity|]. split; [reflexivity|]. split; [reflexivity|].
  split; [apply length_map|].
  apply Forall2_map_same. intro r.
  unfold with_total, factor_or_zero. cbn.
  repeat split. intros c Hc Hhas.
  destruct Hc as [<-|[<-|[<-|[<-|[]]]]]; cbn; now rewrite Hhas.
Qed.

Section KeyOrder.
Context {K : Type} (ltb eqb : K -> K -> bool).
Hypothesis eqb_eq : forall a b, eqb a b = true <-> a = b.
Hypothesis ltb_trans : forall a b c, ltb a b = true -> ltb b c = true -> ltb a c = true.
Hypothesis ltb_irrefl : forall a, ltb a a = false.
Hypothesis ltb_total : forall a b, ltb a b = false -> eqb a b = false -> ltb b a = true.

Lemma insert_key_sorted (x : K) (l : list K) :
  Sorted (fun a b => ltb a b = true) l ->
  Sorted (fun a b => ltb a b = true) (insert_key ltb eqb x l).
Proof.
  induction l as [|y l IH]; intro S; cbn.
  - repeat constructor.
  - destruct (ltb x y) eqn:E.
    + constructor; [assumption|]. now constructor.
    + destruct (eqb x y) eqn:Q; [assumption|].
      inversion S as [|? ? S' Hd]; subst. constructor; [now apply IH|].
      destruct l as [|z l]; cbn.
      * constructor. now apply ltb_total.
      * destruct (ltb x z) eqn:Ez.
        -- constructor. now apply ltb_total.
        -- destruct (eqb x z); constructor; now inversion Hd.
Qed.

Lemma group_keys_sorted (l : list K) :
  Sorted (fun a b => ltb a b = true) (group_keys ltb eqb l).
Proof.
  induction l as [|x l IH]; cbn; [constructor|]. now apply insert_key_sorted.
Qed.

Lemma group_keys_NoDup (l : list K) : NoDup (group_keys ltb eqb l).
Proof.
  pose proof (group_keys_sorted l) as S.
  apply Sorted_StronglySorted in S.
  2:{ intros a b c. apply ltb_trans. }
  induction S as [|a l' S IH H]; constructor; [|assumption].
  intro Hin. rewrite Forall_forall in H. specialize (H a Hin).
  cbv beta in H. now rewrite ltb_irrefl in H.
Qed.
End KeyOrder.

Lemma Z_ltb_total a b : (a <? b) = false -> (a =? b) = false -> (b <? a) = true.
Proof. rewrite Z.ltb_ge, Z.eqb_neq, Z.ltb_lt. lia. Qed.

Lemma Z_ltb_trans a b c : (a <? b) = true -> (b <? c) = true -> (a <? c) = true.
Proof. rewrite !Z.ltb_lt. lia. Qed.

Lemma pair_ltb_lt a b :
  pair_ltb a b = true <->
  fst a < fst b \/ (fst a = fst b /\ snd a < snd b).
Proof.
  unfold pair_ltb.
  rewrite orb_true_iff, andb_true_iff, !Z.ltb_lt, Z.eqb_eq. tauto.
Qed.

Lemma pair_ltb_total a b :
  pair_ltb a b = false -> pair_eqb a b = false -> pair_ltb b a = true.
Proof.
  intros H1 H2. apply pair_ltb_lt.
  destruct (pair_ltb b a) eqn:E; [now apply pair_ltb_lt|].
  exfalso.
  assert (N1 : ~ (fst a < fst b \/ (fst a = fst b /\ snd a < snd b))).
  { intro H. apply pair_ltb_lt in H. congruence. }
  assert (N2 : ~ (fst b < fst a \/ (fst b = fst a /\ snd b < snd a))).
  { intro H. apply pair_ltb_lt in H. congruence. }
  assert (Q : pair_eqb a b = true).
  { unfold pair_eqb. apply andb_true_iff. rewrite !Z.eqb_eq. lia. }
  congruence.
Qed.

Lemma pair_ltb_trans a b c :
  pair_ltb a b = true -> pair_ltb b c = true -> pair_ltb a c = true.
Proof. rewrite !pair_ltb_lt. lia. Qed.

Lemma pair_ltb_irrefl a : pair_ltb a a = false.
Proof.
  destruct (pair_ltb a a) eqn:E; [|reflexivity].
  apply pair_ltb_lt in E. lia.
Qed.

Lemma unit_keys_NoDup l : NoDup (unit_keys l).
Proof.
  apply group_keys_NoDup.
  - exact Z_ltb_trans.
  - exact Z.ltb_irrefl.
  - exact Z_ltb_total.
Qed.

Lemma pair_keys_NoDup l : NoDup (pair_keys l).
Proof.
  apply group_keys_NoDup.
  - exact pair_ltb_trans.
  - exact pair_ltb_irrefl.
  - exact pair_ltb_total.
Qed.

Lemma pair_keys_sorted l :
  Sorted (fun a b => pair_ltb a b = true) (pair_keys l).
Proof. apply group_keys_sorted. exact pair_ltb_total. Qed.

Lemma filter_unique_key {V} (f : Z -> V) (ks : list Z) (id : Z) :
  NoDup ks -> In id ks ->
  filter (fun p => fst p =? id) (map (fun k => (k, f k)) ks) = [(id, f id)].
Proof.
  induction ks as [|k ks IH]; intros N H; [contradiction|].
  inversion N as [|? ? Hk N']; subst. cbn [map filter fst].
  destruct (k =? id) eqn:E.
  - apply Z.eqb_eq in E. subst k. f_equal.
    clear IH H N. induction ks as [|x ks IH]; [reflexivity|].
    cbn [map filter fst]. destruct (x =? id) eqn:Ex.
    + apply Z.eqb_eq in Ex. subst. exfalso. apply Hk. now left.
    + apply IH.
      * intro Hin. apply Hk. now right.
      * now inversion N'.
  - apply Z.eqb_neq in E. destruct H as [->|H]; [congruence|]. now apply IH.
Qed.

Lemma merge_one_row_per_key l :
  merge (monthly_avg l) (property_avg l)
  = map (pattern_of l)
        (pair_keys (map (fun r => (multiunit_id r, month (date r))) l)).
Proof.
  unfold merge, monthly_avg. rewrite flat_map_concat_map, map_map.
  rewrite <- flat_map_concat_map.
  assert (H : forall k,
             In k (pair_keys (map (fun r => (multiunit_id r, month (date r))) l)) ->
             map (pattern_row (k, mean (map price (filter (fun r => pair_eqb (multiunit_id r, month (date r)) k) l))))
                 (filter (fun p => fst p =? fst k) (property_avg l))
             = [pattern_of l k]).
  { intros k Hk. unfold property_avg.
    rewrite filter_unique_key; [reflexivity|apply unit_keys_NoDup|].
    apply in_unit_keys. apply (proj1 (in_pair_keys _ _)) in Hk.
    apply in_map_iff in Hk. destruct Hk as [r [<- Hr]]. cbn [fst].
    now apply in_map. }
  induction (pair_keys _) as [|k ks IH]; [reflexivity|].
  cbn [flat_map map fst]. rewrite (H k (or_introl eq_refl)). cbn [app].
  f_equal. apply IH. intros k' Hk'. apply H. now right.
Qed.

(** X16.  The seasonal patterns have exactly one row for each unit and
    month that occur in the data, sorted by unit and month. *)
Theorem one_row_per_unit_and_month df out :
  detect_seasonal_patterns df = Ok out ->
  map (fun r => (s_multiunit_id r, s_month r)) out
  = pair_keys (map (fun r => (multiunit_id r, month (date r))) (rows df))
  /\ NoDup (map (fun r => (s_multiunit_id r, s_month r)) out)
  /\ Sorted (fun a b => pair_ltb a b = true)
            (map (fun r => (s_multiunit_id r, s_month r)) out)
  /\ forall id mon,
       In (id, mon) (map (fun r => (s_multiunit_id r, s_month r)) out)
       <-> exists r0, In r0 (rows df) /\ multiunit_id r0 = id
                      /\ month (date r0) = mon.
Proof.
  unfold detect_seasonal_patterns.
  destruct (date_dtype df); [discriminate|].
  destruct (has_column c_price df); [|discriminate].
  intro H. inversion H; subst; clear H.
  rewrite merge_one_row_per_key, map_map.
  assert (E : map (fun x => (s_multiunit_id (pattern_of (rows df) x),
                             s_month (pattern_of (rows df) x)))
                  (pair_keys (map (fun r => (multiunit_id r, month (date r))) (rows df)))
              = pair_keys (map (fun r => (multiunit_id r, month (date r))) (rows df))).
  { rewrite <- (map_id (pair_keys _)) at 2. apply map_ext. now intros [a b]. }
  rewrite E. split; [reflexivity|]. split; [apply pair_keys_NoDup|].
  split; [apply pair_keys_sorted|].
  intros id mon. rewrite in_pair_keys, in_map_iff. split.
  - intros [r0 [Hk Hr0]]. inversion Hk; subst. now exists r0.
  - intros [r0 [Hr0 [<- <-]]]. now exists r0.
Qed.

Lemma one_row_per_unit_and_month_witness :
  NoDup (map (fun r => (s_multiunit_id r, s_month r))
             [january_pattern; july_pattern]).
Proof.
  apply (one_row_per_unit_and_month two_seasons
           [january_pattern; july_pattern]).
  vm_compute. reflexivity.
Defined.

Lemma fval_not_above_and_below (x : fval) :
  fgtb x (Fin (11 # 10)) && fltb x (Fin (9 # 10)) = false.
Proof.
  destruct x as [| |q|]; try reflexivity.
  unfold fgtb, fltb.
  destruct (Qle_bool q (11 # 10)) eqn:A; [reflexivity|].
  destruct (Qle_bool (9 # 10) q) eqn:B; [apply andb_false_r|].
  exfalso.
  assert (NA : ~ (q <= 11 # 10)%Q) by (rewrite <- Qle_bool_iff; congruence).
  assert (NB : ~ (9 # 10 <= q)%Q) by (rewrite <- Qle_bool_iff; congruence).
  destruct q as [n d]. unfold Qle in *. cbn in *. lia.
Qed.

Lemma pattern_in_output df out r :
  detect_seasonal_patterns df = Ok out -> In r out ->
  exists k, r = pattern_of (rows df) k
            /\ In k (map (fun x => (multiunit_id x, month (date x))) (rows df)).
Proof.
  unfold detect_seasonal_patterns.
  destruct (date_dtype df); [discriminate|].
  destruct (has_column c_price df); [|discriminate].
  intro H. inversion H; subst; clear H.
  rewrite merge_one_row_per_key. intro Hr. apply in_map_iff in Hr.
  destruct Hr as [k [<- Hk]]. exists k. split; [reflexivity|].
  now apply in_pair_keys.
Qed.

(** X17.  No row of the seasonal patterns is both peak and low season, and
    a row whose index is missing is neither. *)
Theorem never_peak_and_low df out r :
  detect_seasonal_patterns df = Ok out -> In r out ->
  is_peak_season r && is_low_season r = false
  /\ (isna (seasonal_index r) = true ->
      is_peak_season r = false /\ is_low_season r = false).
Proof.
  intros H Hr. destruct (pattern_in_output df out r H Hr) as [[id mon] [-> _]].
  unfold pattern_of, pattern_row.
  cbn [is_peak_season is_low_season seasonal_index snd].
  split; [apply fval_not_above_and_below|].
  destruct (fdiv _ _); try discriminate. now split.
Qed.

Lemma never_peak_and_low_witness :
  is_peak_season july_pattern && is_low_season july_pattern = false
  /\ (isna (seasonal_index july_pattern) = true ->
      is_peak_season july_pattern = false
      /\ is_low_season july_pattern = false).
Proof.
  apply (never_peak_and_low two_seasons [january_pattern; july_pattern]
                            july_pattern).
  - vm_compute. reflexivity.
  - simpl. right. left. reflexivity.
Defined.

Lemma fdiv_self (q : Q) : ~ (q == 0)%Q -> fdiv (Fin q) (Fin q) = Fin 1.
Proof.
  intro N. unfold fdiv, qsign.
  assert (Z0 : Qnum q <> 0).
  { intro E. apply N. destruct q as [n d]. cbn in E. subst. reflexivity. }
  destruct (Qnum q ?= 0) eqn:C.
  - apply Z.compare_eq in C. contradiction.
  - f_equal. apply (Qred_complete (q / q) 1). now apply Qmult_inv_r.
  - f_equal. apply (Qred_complete (q / q) 1). now apply Qmult_inv_r.
Qed.

(** X18.  A unit all of whose records fall in one month has seasonal
    index 1 there, neither peak nor low, when its mean price is finite and
    not zero. *)
Theorem single_month_unit_has_index_one df out r q :
  detect_seasonal_patterns df = Ok out -> In r out ->
  (forall x, In x (rows df) -> multiunit_id x = s_multiunit_id r ->
             month (date x) = s_month r) ->
  avg_price r = Fin q -> ~ (q == 0)%Q ->
  seasonal_index r = Fin 1
  /\ is_peak_season r = false /\ is_low_season r = false.
Proof.
  intros H Hr Hone Havg Hq.
  destruct (pattern_in_output df out r H Hr) as [[id mon] [-> _]].
  unfold pattern_of, pattern_row in *.
  cbn [is_peak_season is_low_season seasonal_index snd fst avg_price
       s_multiunit_id s_month] in *.
  assert (E : filter (fun x => pair_eqb (multiunit_id x, month (date x)) (id, mon))
                     (rows df)
              = filter (fun x => multiunit_id x =? id) (rows df)).
  { apply filter_ext_in. intros x Hx. unfold pair_eqb. cbn [fst snd].
    destruct (multiunit_id x =? id) eqn:Ei; [|reflexivity].
    apply Z.eqb_eq in Ei. rewrite (Hone x Hx Ei). cbn. apply Z.eqb_refl. }
  rewrite E, Havg, (fdiv_self q Hq). now repeat split.
Qed.

Lemma single_month_unit_has_index_one_witness :
  seasonal_index june_pattern = Fin 1
  /\ is_peak_season june_pattern = false
  /\ is_low_season june_pattern = false.
Proof.
  apply (single_month_unit_has_index_one with_events june_patterns
           june_pattern (400 # 3)).
  - vm_compute. reflexivity.
  - vm_compute. left. reflexivity.
  - intros x [<-|[<-|[<-|[]]]] _; vm_compute; reflexivity.
  - vm_compute. reflexivity.
  - intro H. discriminate H.
Defined.

Lemma aggregated_has_event x :
  has_column c_event (totals_result (calculate_total_price x)) = true.
Proof.
  destruct (calculate_total_price_frame x) as [E _]. rewrite E.
  unfold has_column. cbn [columns].
  rewrite has_with_label, factor_present_after; [reflexivity|].
  cbn. tauto.
Qed.

Lemma extrapolate_date_raises cols group id st d e :
  extrapolate_date cols group id st d = Raise e -> e = UnboundLocalError.
Proof.
  rewrite extrapolate_date_unfold.
  destruct (weekday_rows group d) as [|m swd]; [discriminate|].
  destruct (has c_dow cols); [|discriminate].
  unfold try_body.
  destruct (if (2 <=? List.length (m :: swd))%nat then _ else _) as [dv cl].
  cbn [n_base n_seasonality n_event].
  destruct (copy_factor cols _ c_base), (copy_factor cols _ c_seasonality),
           (copy_factor cols _ c_event);
    try (destruct cl as [cd|]; [destruct (has c_price cols && negb (isna (price cd)))|]);
    intro H; inversion H; reflexivity.
Qed.

Lemma extrapolation_raises df e :
  ex_result (extrapolate_prices_backward df) = Raise e ->
  e = UnboundLocalError.
Proof.
  unfold extrapolate_prices_backward.
  destruct (match min_date (rows (to_datetime df)) with
            | Some d => d <=? target_start_date | None => false end);
    [discriminate|].
  destruct (for_each _ _ _) as [st|e'] eqn:F.
  { destruct (extrapolated_data st); discriminate. }
  cbn. intro H. inversion H; subst e'.
  refine (for_each_raises _ (fun x => x = UnboundLocalError) _ _ _ _ F).
  intros s id x _. unfold extrapolate_unit.
  destruct (min_date _) as [m|]; [|discriminate].
  destruct (m >? target_start_date); [|discriminate].
  apply (for_each_raises _ (fun x => x = UnboundLocalError)).
  intros s0 d x0 _. apply extrapolate_date_raises.
Qed.

(** X19.  The matcher never raises on a frame that comes out of
    [calculate_total_price], whatever labels the frame given to the
    aggregation had: the aggregation supplies the event label where it
    was absent, and with it the matcher returns, with the [event_match]
    label exactly when it made a record. *)
Theorem matcher_after_totals_never_raises df :
  has_column c_event (totals_result (calculate_total_price df)) = true
  /\ exists out,
       mt_result (find_improved_matches
                    (totals_result (calculate_total_price df))) = Ok out
       /\ (has_event_match out = true <-> matches out <> []).
Proof.
  split; [apply aggregated_has_event|].
  pose proof (aggregated_has_event df) as Hev.
  remember (totals_result (calculate_total_price df)) as x eqn:Ex.
  clear Ex. rewrite find_improved_matches_unfold.
  destruct (target_rows x) as [|t0 ts] eqn:Et.
  { eexists. split; [reflexivity|]. cbn. split; [discriminate|congruence]. }
  destruct (past_rows x) as [|p0 ps] eqn:Ep.
  { eexists. split; [reflexivity|]. cbn. split; [discriminate|congruence]. }
  rewrite <- Et, <- Ep.
  rewrite match_units_with_event by exact Hev. cbn [app].
  destruct (flat_map _ _) as [|m0 l].
  { eexists. split; [reflexivity|]. cbn. split; [discriminate|congruence]. }
  rewrite Hev. eexists. split; [reflexivity|]. cbn.
  split; [discriminate|reflexivity].
Qed.

Lemma has_new_columns c data :
  has c (new_columns data) = true ->
  c = c_is_extrapolated
  \/ exists n, In n data
       /\ ((c = c_event /\ n_event n <> None)
           \/ (c = c_seasonality /\ n_seasonality n <> None)
           \/ (c = c_base /\ n_base n <> None)
           \/ (c = c_dow /\ n_dow n <> None)
           \/ (c = c_price /\ n_price n <> None)).
Proof.
  unfold new_columns. rewrite has_fold_add. cbn [has existsb orb].
  intro H. apply existsb_exists in H. destruct H as [x [Hx Ex]].
  apply column_eqb_eq in Ex. subst x.
  apply in_flat_map in Hx. destruct Hx as [n [Hn Hc]].
  destruct Hc as [<-|Hc]; [now left|]. right. exists n. split; [assumption|].
  repeat (apply in_app_or in Hc; destruct Hc as [Hc|Hc]).
  - destruct (n_event n); [|contradiction]. destruct Hc as [<-|[]].
    left. split; [reflexivity|discriminate].
  - destruct (n_seasonality n); [|contradiction]. destruct Hc as [<-|[]].
    right; left. split; [reflexivity|discriminate].
  - destruct (n_base n); [|contradiction]. destruct Hc as [<-|[]].
    right; right; left. split; [reflexivity|discriminate].
  - destruct (n_dow n); [|contradiction]. destruct Hc as [<-|[]].
    right; right; right; left. split; [reflexivity|discriminate].
  - destruct (n_price n); [|contradiction]. destruct Hc as [<-|[]].
    right; right; right; right. split; [reflexivity|discriminate].
Qed.

Lemma extrapolation_columns df out c :
  ex_result (extrapolate_prices_backward df) = Ok out ->
  (has_column c df = true -> has_column c out = true)
  /\ (has_column c out = true ->
      has_column c df = true \/ c = c_is_extrapolated
      \/ exists n, In n (ex_synthesized (extrapolate_prices_backward df))
           /\ ((c = c_event /\ n_event n <> None)
               \/ (c = c_seasonality /\ n_seasonality n <> None)
               \/ (c = c_base /\ n_base n <> None)
               \/ (c = c_dow /\ n_dow n <> None)
               \/ (c = c_price /\ n_price n <> None))).
Proof.
  unfold extrapolate_prices_backward, has_column.
  destruct (match min_date (rows (to_datetime df)) with
            | Some d => d <=? target_start_date | None => false end).
  { cbn. intro H. inversion H; subst. rewrite columns_to_datetime. tauto. }
  destruct (for_each _ _ _) as [st|e] eqn:F; [|discriminate].
  destruct (extrapolated_data st) as [|n0 data] eqn:D.
  - cbn [ex_result]. intro H. inversion H; subst.
    destruct (negb _) eqn:N; cbn [columns assign_column];
      rewrite ?columns_to_datetime; [|tauto].
    unfold has_column. rewrite columns_to_datetime.
    apply negb_true_iff in N. unfold has_column in N.
    rewrite columns_to_datetime in N. rewrite N, has_snoc. split.
    + intros ->. reflexivity.
    + intro Hc. apply orb_true_iff in Hc. destruct Hc as [Hc|Hc]; [now left|].
      apply column_eqb_eq in Hc. right; now left.
  - cbn [ex_result ex_synthesized]. intro H. inversion H; subst. clear H.
    unfold concat.
    destruct (negb _); cbn [columns];
      rewrite has_fold_add, columns_to_datetime; (split;
      [ intros ->; reflexivity
      | intro Hc; apply orb_true_iff in Hc; destruct Hc as [Hc|Hc]; [now left|];
        right; apply has_new_columns in Hc;
        destruct Hc as [->|Hc]; [now left|]; right; exact Hc ]).
Qed.

Lemma event_column_not_added df out :
  ex_result (extrapolate_prices_backward df) = Ok out ->
  has_column c_event df = false -> has_column c_event out = false.
Proof.
  intros R Hno. destruct (has_column c_event out) eqn:E; [|reflexivity].
  destruct (proj2 (extrapolation_columns df out c_event R) E)
    as [H|[H|[n [Hn H]]]]; [congruence|discriminate|].
  destruct H as [[_ H]|[[H _]|[[H _]|[[H _]|[H _]]]]]; try discriminate.
  destruct (synthesized_described df n Hn) as [c [_ [_ [_ En]]]].
  unfold record_for in En.
  destruct (dow_and_closest c _) as [w c'].
  rewrite En in H. cbn [n_event] in H.
  destruct (copy_factor (columns df) _ c_event) as [v|] eqn:C; [|congruence].
  apply copy_factor_some in C. destruct C as [C _].
  unfold has_column in Hno. congruence.
Qed.

(** X20.  When a frame has no event label, the matcher run on what
    [calculate_total_price] returns for it makes no match by the event
    rule: the event filled in is 0 on every row and never exceeds 1. *)
Theorem no_event_match_without_event_column df out :
  has_column c_event df = false ->
  mt_result (find_improved_matches
               (totals_result (calculate_total_price df))) = Ok out ->
  forall m, In m (matches out) ->
    match_reason m <> "event_match"%string
    /\ event_match m = Some false.
Proof.
  intros Hc M m Hm.
  destruct (record_origin _ out m M Hm) as [_ [t [Ht [m' [F [_ ->]]]]]].
  cbn [with_event_match match_reason matched_from event_match] in *.
  assert (N : match_reason m' <> "event_match"%string).
  { intro Q. apply first_found_by in F. destruct F as [_ [G _]].
    specialize (G Q). apply in_target_rows in Ht. destruct Ht as [Ht _].
    rewrite calculate_total_price_rows in Ht. apply in_map_iff in Ht.
    destruct Ht as [x [<- _]]. unfold with_total, factor_or_zero in G.
    cbn [event set_cell] in G. rewrite Hc in G. discriminate. }
  split; [assumption|]. f_equal. now apply String.eqb_neq.
Qed.

Lemma no_event_match_without_event_column_witness :
  match_reason no_event_match <> "event_match"%string
  /\ event_match no_event_match = Some false.
Proof.
  apply (no_event_match_without_event_column no_event no_event_matches).
  - reflexivity.
  - vm_compute. reflexivity.
  - vm_compute. left. reflexivity.
Defined.

(** X21.  After the totals are added, a synthesized record that has base,
    seasonality and event has [total_price] their sum with dow, and its
    price is 0.97 times its [total_price]. *)
Theorem synthesized_price_is_discounted_total df combined n b s e :
  ex_result (extrapolate_prices_backward df) = Ok combined ->
  In n (ex_synthesized (extrapolate_prices_backward df)) ->
  n_base n = Some b -> n_seasonality n = Some s -> n_event n = Some e ->
  In (with_total combined (row_of_new n))
     (rows (totals_result (calculate_total_price combined)))
  /\ exists w,
       n_dow n = Some w
       /\ total_price (with_total combined (row_of_new n))
          = fadd (fadd (fadd b s) w) e
       /\ price (with_total combined (row_of_new n))
          = fmul (total_price (with_total combined (row_of_new n)))
                 (Fin (97 # 100)).
Proof.
  intros R Hn Hb Hs He. split.
  { rewrite calculate_total_price_rows. apply in_map.
    now apply (proj1 (result_rows df combined R)). }
  destruct (synthesized_described df n Hn) as [c [_ [_ [Hdow En]]]].
  unfold record_for in En. destruct (dow_and_closest c _) as [w c'].
  assert (Cb : has_column c_base combined = true).
  { apply (proj1 (extrapolation_columns df combined c_base R)).
    rewrite En in Hb. cbn [n_base] in Hb.
    apply copy_factor_some in Hb. now destruct Hb. }
  assert (Cs : has_column c_seasonality combined = true).
  { apply (proj1 (extrapolation_columns df combined c_seasonality R)).
    rewrite En in Hs. cbn [n_seasonality] in Hs.
    apply copy_factor_some in Hs. now destruct Hs. }
  assert (Ce : has_column c_event combined = true).
  { apply (proj1 (extrapolation_columns df combined c_event R)).
    rewrite En in He. cbn [n_event] in He.
    apply copy_factor_some in He. now destruct He. }
  assert (Cd : has_column c_dow combined = true).
  { now apply (proj1 (extrapolation_columns df combined c_dow R)). }
  exists w. split; [rewrite En; reflexivity|].
  unfold with_total, factor_or_zero. rewrite Cb, Cs, Ce, Cd.
  cbn [total_price price set_cell cell row_of_new base seasonality dow event
       sum_factors].
  rewrite Hb, Hs, He.
  assert (Hw : n_dow n = Some w) by (rewrite En; reflexivity).
  assert (Hp : n_price n = Some (fmul (fadd (fadd (fadd b s) w) e) (Fin (97 # 100)))).
  { rewrite En in Hb, Hs, He |- *. cbn [n_base n_seasonality n_event n_price] in *.
    unfold factor_rule, discount. now rewrite Hb, Hs, He. }
  rewrite Hw, Hp. cbn [or_nan]. now split.
Qed.

Lemma synthesized_price_is_discounted_total_witness :
  In (with_total wednesday_frame (row_of_new second_synthesized))
     (rows (totals_result (calculate_total_price wednesday_frame)))
  /\ exists w,
       n_dow second_synthesized = Some w
       /\ total_price (with_total wednesday_frame (row_of_new second_synthesized))
          = fadd (fadd (fadd (of_Z 100) (of_Z 10)) w) (of_Z 0)
       /\ price (with_total wednesday_frame (row_of_new second_synthesized))
          = fmul (total_price (with_total wednesday_frame
                                          (row_of_new second_synthesized)))
                 (Fin (97 # 100)).
Proof.
  apply (synthesized_price_is_discounted_total one_wednesday wednesday_frame
           second_synthesized).
  - vm_compute. reflexivity.
  - vm_compute. right. left. reflexivity.
  - reflexivity.
  - reflexivity.
  - reflexivity.
Defined.

Lemma emitted_at_most_one cols pg t : (List.length (emitted cols pg t) <= 1)%nat.
Proof.
  unfold emitted. destruct (first_found _) as [[d reason]|]; [|cbn; lia].
  unfold improved_row. destruct (filter _ pg); cbn; lia.
Qed.

Lemma flat_map_at_most_one {A B} (f : A -> list B) (l : list A) :
  (forall a, (List.length (f a) <= 1)%nat) ->
  (List.length (flat_map f l) <= List.length l)%nat.
Proof.
  intro H. induction l as [|a l IH]; cbn; [lia|].
  rewrite length_app. specialize (H a). lia.
Qed.

Lemma unit_matches_length cols targets past id :
  (List.length (unit_matches cols targets past id)
   <= List.length (filter (fun r => (multiunit_id r =? id)%Z) targets))%nat.
Proof.
  unfold unit_matches. destruct (filter _ past); [cbn; lia|].
  apply flat_map_at_most_one. apply emitted_at_most_one.
Qed.

Lemma filter_other_unit k id (l : list Row) :
  id <> k ->
  filter (fun r => multiunit_id r =? id)
         (filter (fun r => negb (multiunit_id r =? k)) l)
  = filter (fun r => multiunit_id r =? id) l.
Proof.
  intro N. induction l as [|r l IH]; [reflexivity|]. cbn [filter].
  destruct (multiunit_id r =? k) eqn:Ek; cbn [negb filter].
  - apply Z.eqb_eq in Ek. rewrite IH.
    destruct (multiunit_id r =? id) eqn:Ei; [|reflexivity].
    apply Z.eqb_eq in Ei. congruence.
  - now rewrite IH.
Qed.

Lemma flat_map_same_in {A B} (f g : A -> list B) (l : list A) :
  (forall a, In a l -> f a = g a) -> flat_map f l = flat_map g l.
Proof.
  induction l as [|a l IH]; intro H; cbn; [reflexivity|].
  rewrite (H a (or_introl eq_refl)). f_equal. apply IH.
  intros x Hx. apply H. now right.
Qed.

Lemma groups_within_frame (ks : list Z) : forall (l : list Row),
  NoDup ks ->
  (List.length (flat_map (fun id => filter (fun r => (multiunit_id r =? id)%Z) l) ks)
   <= List.length l)%nat.
Proof.
  induction ks as [|k ks IH]; intros l N; cbn [flat_map]; [cbn; lia|].
  inversion N as [|? ? Hk N']; subst. rewrite length_app.
  assert (E : flat_map (fun id => filter (fun r => multiunit_id r =? id) l) ks
              = flat_map (fun id => filter (fun r => multiunit_id r =? id)
                                      (filter (fun r => negb (multiunit_id r =? k)) l)) ks).
  { apply flat_map_same_in. intros id Hid. symmetry. apply filter_other_unit.
    intro Q. subst. contradiction. }
  rewrite E. specialize (IH (filter (fun r => negb (multiunit_id r =? k)) l) N').
  pose proof (filter_length (fun r => multiunit_id r =? k) l). lia.
Qed.

Lemma flat_map_length_le {A B C} (f : A -> list B) (g : A -> list C) (l : list A) :
  (forall a, (List.length (f a) <= List.length (g a))%nat) ->
  (List.length (flat_map f l) <= List.length (flat_map g l))%nat.
Proof.
  intro H. induction l as [|a l IH]; cbn; [lia|].
  rewrite !length_app. specialize (H a). lia.
Qed.

(** X22.  The matcher returns at most as many records as the input has
    rows in the forecast window. *)
Theorem at_most_one_match_per_target df out :
  mt_result (find_improved_matches df) = Ok out ->
  (List.length (matches out) <= List.length (target_rows df))%nat.
Proof.
  intro R. destruct (has_column c_event df) eqn:Hev.
  2:{ rewrite (matches_without_event df out Hev R). cbn. lia. }
  destruct (matches_with_event df Hev) as [out' [R' M]].
  rewrite R in R'. inversion R'; subst out'. rewrite M, length_map.
  etransitivity.
  - apply (flat_map_length_le _
             (fun id => filter (fun r => multiunit_id r =? id) (target_rows df))).
    intro id. apply unit_matches_length.
  - apply groups_within_frame. apply unit_keys_NoDup.
Qed.

Lemma at_most_one_match_per_target_witness :
  (List.length (matches june_matches)
   <= List.length (target_rows with_events))%nat.
Proof.
  apply (at_most_one_match_per_target with_events june_matches).
  vm_compute. reflexivity.
Defined.

Lemma input_key_kept df out r0 :
  ex_result (extrapolate_prices_backward df) = Ok out ->
  In r0 (rows df) ->
  exists r, In r (rows out) /\ same_key r r0.
Proof.
  intros R Hr0. pose proof (output_keys_permutation df out R) as P.
  assert (I : In (row_key r0) (map row_key (rows out))).
  { apply (Permutation_in _ (Permutation_sym P)). apply in_or_app. left.
    now apply in_map. }
  apply in_map_iff in I. destruct I as [r [E Hr]]. exists r.
  split; [assumption|]. unfold row_key in E. inversion E. now split.
Qed.

(** X23.  In the web interface the matcher runs on the extrapolated frame
    itself, without the totals: when the data has no event label and some
    unit has a row in the forecast window and a row before the past
    boundary, the two steps end in an exception, [KeyError] for the label
    unless the extrapolation already raised. *)
Theorem steps_without_totals_raise df :
  has_column c_event df = false ->
  unit_with_target_and_history df ->
  analysis_steps df = Raise (KeyError c_event)
  \/ analysis_steps df = Raise UnboundLocalError.
Proof.
  intros Hev [t [p [Ht [Hw [Hp [Hpast Hid]]]]]]. unfold analysis_steps.
  destruct (ex_result (extrapolate_prices_backward df)) as [out|e] eqn:R.
  - left.
    destruct (input_key_kept df out t R Ht) as [t' [Ht' [Kt1 Kt2]]].
    destruct (input_key_kept df out p R Hp) as [p' [Hp' [Kp1 Kp2]]].
    rewrite (raises_with_target_and_history out); [reflexivity| |].
    + now apply (event_column_not_added df out R).
    + exists t', p'. rewrite Kt2, Kp2, Kp1, Kt1. now repeat split.
  - right. apply extrapolation_raises in R. now subst.
Qed.


Lemma steps_without_totals_raise_witness :
  analysis_steps no_event = Raise (KeyError c_event)
  \/ analysis_steps no_event = Raise UnboundLocalError.
Proof.
  apply (steps_without_totals_raise no_event).
  - reflexivity.
  - exists june_2025, june_2024.
    split; [simpl; right; left; reflexivity|].
    split; [split; apply Z.leb_le; reflexivity|].
    split; [simpl; left; reflexivity|].
    split; [apply Z.ltb_lt; reflexivity|reflexivity].
Defined.
